(** * jsonl_to_csv_on_fly: the generate / execute / validate loop

    A shallow embedding of [src/main.py] and [src/config.py].

    Text is [string] (a list of 8-bit characters); the development takes
    program text, model replies and paths to be ASCII.  Everything that
    lives outside the repository (the model endpoint, the child
    interpreter, pandas' CSV reader, the object store, temporary-file
    naming) is a field of [External]: an arbitrary function of a counter
    of the interactions made so far, so that a run may see a different
    answer at every attempt.

    In the loop and the handler, creating a temporary file and writing to
    it always work; removing a file, reading it and every call outside
    can fail.  [OnDisk] has [execute_python_code] on a disk whose writes
    can fail too. *)

From Stdlib Require Import ZArith Ascii String List Bool Lia DecimalString.
From stdpp Require Import base option list strings gmap.

Import ListNotations.

Set Warnings "-register-all".

Local Open Scope Z_scope.

(** ** Python text primitives *)

Module Str.

Definition LF : ascii := ascii_of_nat 10.

(** The text of one newline *)
Definition nl : string := String LF EmptyString.

(** [str.isspace] on one ASCII character: TAB, LF, VT, FF, CR, the four
    separators FS GS RS US, and the blank.  [str.strip] and the regular
    expression class [\s] use the same set. *)
Definition isspace (c : ascii) : bool :=
  let n := nat_of_ascii c in
  ((9 <=? n) && (n <=? 13) || (28 <=? n) && (n <=? 32))%nat.

(** Every character of [s] is a blank in that sense. *)
Fixpoint blank (s : string) : bool :=
  match s with
  | String c s' => isspace c && blank s'
  | EmptyString => true
  end.

Fixpoint lstrip (s : string) : string :=
  match s with
  | String c s' => if isspace c then lstrip s' else s
  | EmptyString => EmptyString
  end.

Definition rstrip (s : string) : string :=
  String.rev (lstrip (String.rev s)).

(** [s.strip()] *)
Definition strip (s : string) : string := rstrip (lstrip s).

(** [s[n:]] *)
Fixpoint drop (n : nat) (s : string) : string :=
  match n, s with
  | S k, String _ s' => drop k s'
  | _, _ => s
  end.

(** [sub in s] *)
Fixpoint contains (sub s : string) : bool :=
  String.prefix sub s ||
  match s with
  | String _ s' => contains sub s'
  | EmptyString => false
  end.

(** [s.split(sep)] for a one-character separator: the pieces between
    the separators, so the list is never empty. *)
Fixpoint split (sep : ascii) (s : string) : list string :=
  match s with
  | EmptyString => [EmptyString]
  | String c s' =>
      if Ascii.eqb c sep then EmptyString :: split sep s'
      else match split sep s' with
           | piece :: rest => String c piece :: rest
           | [] => [String c EmptyString]
           end
  end.

(** [sep.join(pieces)] *)
Definition join (sep : string) (pieces : list string) : string :=
  String.concat sep pieces.

(** [s.replace(old, new)] for a non-empty [old]: the occurrences are
    taken left to right and do not overlap.  [skip] counts the
    characters of a matched occurrence that are still to be passed. *)
Fixpoint replace_go (old new s : string) (skip : nat) : string :=
  match s with
  | EmptyString => EmptyString
  | String c s' =>
      match skip with
      | S k => replace_go old new s' k
      | O =>
          if String.prefix old s
          then new +:+ replace_go old new s' (String.length old - 1)
          else String c (replace_go old new s' 0)
      end
  end.

(** With an empty [old] Python puts [new] before every character and
    at the end. *)
Fixpoint interleave (new s : string) : string :=
  match s with
  | EmptyString => new
  | String c s' => new +:+ String c (interleave new s')
  end.

Definition replace (s old new : string) : string :=
  match old with
  | EmptyString => interleave new s
  | String _ _ => replace_go old new s 0
  end.

(** The double quote and the backslash *)
Definition DQ : ascii := ascii_of_nat 34.
Definition BS : ascii := ascii_of_nat 92.

Definition hex_digit (n : nat) : ascii :=
  match String.get n "0123456789abcdef" with
  | Some c => c
  | None => "0"%char
  end.

(** One character inside [repr(s)], [quote] being the quote chosen: the
    quote and the backslash are escaped, TAB, LF and CR have their
    letters, any other control character is written with two
    hexadecimal digits. *)
Definition repr_char (quote c : ascii) : string :=
  let n := nat_of_ascii c in
  if Ascii.eqb c quote || Ascii.eqb c BS then String BS (String c EmptyString)
  else if (n =? 9)%nat then String BS "t"
  else if (n =? 10)%nat then String BS "n"
  else if (n =? 13)%nat then String BS "r"
  else if ((n <? 32) || (n =? 127))%nat then
    String BS (String "x" (String (hex_digit (n / 16)%nat)
                             (String (hex_digit (n mod 16)%nat) EmptyString)))
  else String c EmptyString.

Fixpoint repr_body (quote : ascii) (s : string) : string :=
  match s with
  | EmptyString => String quote EmptyString
  | String c s' => repr_char quote c +:+ repr_body quote s'
  end.

(** [repr(s)] on ASCII text, as the message of an [OSError] shows a
    path: between apostrophes, or between double quotes when the text
    has an apostrophe and no double quote. *)
Definition repr (s : string) : string :=
  let quote :=
    if contains "'" s && negb (contains (String DQ EmptyString) s)
    then DQ else "'"%char in
  String quote (repr_body quote s).

End Str.

(** ** What replacing every occurrence means *)

(** [Replaced old new s t]: the text [t] is the text [s] with every
    occurrence of [old] replaced by [new], the occurrences being taken
    from the left and not overlapping.  Either [old] occurs nowhere in
    [s] and [t] is [s]; or [s] is [a], [old], [b] with no occurrence of
    [old] starting inside [a], and [t] is [a], [new] and then [b] with
    every occurrence replaced. *)
Inductive Replaced (old new : string) : string -> string -> Prop :=
| replaced_none (s : string) :
    Str.contains old s = false ->
    Replaced old new s s
| replaced_first (a b t : string) :
    (forall i, (i < String.length a)%nat ->
               String.prefix old (Str.drop i (a +:+ old +:+ b)) = false) ->
    Replaced old new b t ->
    Replaced old new (a +:+ old +:+ b) (a +:+ new +:+ t).

(** ** CodeExtractor: [extract_python_code] (main.py 146-170) *)

Module Extract.

Definition fence : string := "```".
Definition fence_python : string := "```python".

(** The pattern [```python\s+(.*?)\s+```] under [re.DOTALL], written
    piece by piece in the order a backtracking matcher tries the
    alternatives.  Each function answers for the rest of the pattern
    at the head of [s]. *)

(** [\s+```]: the run is greedy, and the matcher gives characters back
    one at a time until the fence follows. *)
Fixpoint spaces_then_fence (s : string) : bool :=
  match s with
  | String c s' =>
      Str.isspace c && (spaces_then_fence s' || String.prefix fence s')
  | EmptyString => false
  end.

(** [(.*?)\s+```]: the group is lazy, shortest capture first; the dot
    matches every character, the newline too.  The answer is group 1. *)
Fixpoint lazy_group (s : string) : option string :=
  if spaces_then_fence s then Some EmptyString
  else match s with
       | String c s' => String c <$> lazy_group s'
       | EmptyString => None
       end.

(** [\s+(.*?)\s+```]: the first run is greedy too: a longer run is
    tried before the group is started. *)
Fixpoint spaces_then_group (s : string) : option string :=
  match s with
  | String c s' =>
      if Str.isspace c then
        match spaces_then_group s' with
        | Some g => Some g
        | None => lazy_group s'
        end
      else None
  | EmptyString => None
  end.

(** The whole pattern anchored at the head of [s]. *)
Definition match_here (s : string) : option string :=
  if String.prefix fence_python s
  then spaces_then_group (Str.drop (String.length fence_python) s)
  else None.

(** [re.search(...)]: the leftmost position where the pattern matches;
    [Some g] is the match object, [g] its [group(1)]. *)
Fixpoint re_search (s : string) : option string :=
  match match_here s with
  | Some g => Some g
  | None =>
      match s with
      | String _ s' => re_search s'
      | EmptyString => None
      end
  end.

(** One pass of the [for line in lines] loop over the pair
    [(code_lines, in_code)]. *)
Definition scan_line (st : list string * bool) (line : string)
  : list string * bool :=
  let '(code_lines, in_code) := st in
  if String.eqb (Str.strip line) fence_python
     || String.eqb (Str.strip line) fence
  then (code_lines, negb in_code)
  else if in_code || negb (Str.contains fence line)
       then (code_lines ++ [line], in_code)
       else (code_lines, in_code).

Definition scan_lines (ai_response : string) : list string :=
  fst (fold_left scan_line (Str.split Str.LF ai_response) ([], false)).

Definition extract_python_code (ai_response : string) : string :=
  match re_search ai_response with
  | Some group1 => group1
  | None =>
      match scan_lines ai_response with
      | [] => ai_response
      | code_lines => Str.join Str.nl code_lines
      end
  end.

End Extract.


(** ** Python values, exceptions and the state of a run *)

(** A [float] as [int()] sees it: a finite ratio, an infinity or a NaN. *)
Inductive pyfloat :=
| Finite (num : Z) (den : positive)
| Infinity (negative : bool)
| NotANumber.

(** The values a decoded JSON body or a form field can hold.  A [dict]
    keeps its keys in insertion order. *)
Inductive pyval :=
| VNone
| VBool (b : bool)
| VInt (z : Z)
| VFloat (f : pyfloat)
| VStr (s : string)
| VList (items : list pyval)
| VDict (items : list (string * pyval)).

(** The five-tuple an attempt returns:
    [(clean_code, success, message, validation_success, output_exists)]. *)
Record LoopResult := mkResult {
  clean_code : option string;
  success : bool;
  message : string;
  validation_success : bool;
  output_exists : bool
}.

(** The subclasses of [Exception] the program meets.  [RetryError] is
    tenacity's; it carries the outcome of the last attempt. *)
Inductive exn :=
| ValueError (text : string)
| TypeError (text : string)
| OverflowError (text : string)
| OSError (text : string)
| OtherError (text : string)
| RetryError (last_attempt : LoopResult).

Inductive outcome (A : Type) :=
| Returned (a : A)
| Raised (e : exn).
Arguments Returned {A} a.
Arguments Raised {A} e.

(** A cell of a [DataFrame]: missing, text, or a number (kept as its
    literal: only its being a number matters to the validator). *)
Inductive cell :=
| NaN
| Text (s : string)
| Number (literal : string).

Record DataFrame := mkFrame {
  columns : list string;
  rows : list (list cell)
}.

(** What [subprocess.run(..., check=False)] hands back. *)
Record CompletedProcess := mkProc {
  returncode : Z;
  stdout : string;
  stderr : string
}.

Record World := mkWorld {
  fs : gmap string string;   (* the files that exist, with their text *)
  ticks : nat;               (* interactions with the outside so far *)
  model_calls : nat;         (* invocations of call_ai_model *)
  prompts : list string;     (* full prompts posted, latest first *)
  scripts : list (option string); (* script texts run, latest first *)
  slept : Z                  (* seconds waited between attempts *)
}.

(** Everything outside the repository.  Each answer may depend on
    [ticks], the number of interactions that came before it. *)
Record External := mkExternal {
  (* google.auth: the token, or nothing when credentials fail *)
  access_token : nat -> option string;
  (* requests.post to [url] with the prompt, then the reading of the
     reply (main.py 124-144): the content, or nothing on any failure *)
  chat_completion : nat -> string -> string -> option string;
  (* the name tempfile.NamedTemporaryFile picks for a suffix *)
  tempfile_name : nat -> string -> string;
  (* the child interpreter on a script (nothing if the file is gone)
     and a file system: it raises or completes, and leaves a file system *)
  python : nat -> option string -> gmap string string ->
           outcome CompletedProcess * gmap string string;
  (* pandas' parser on the text of a file *)
  read_csv : string -> outcome DataFrame;
  (* os.unlink on an existing path: the error it raises, if any *)
  unlink_error : nat -> string -> option exn;
  (* blob.upload_from_filename: the error it raises, if any *)
  upload_error : nat -> string -> string -> string -> option exn;
  (* blob.generate_signed_url: the URL, or the error raised *)
  signed_url : nat -> string -> string -> Z -> outcome string;
  (* str() of the Future inside a RetryError *)
  future_repr : LoopResult -> string
}.

(** ** The monad of the program: state and exceptions *)

Definition M (A : Type) : Type := World -> outcome A * World.

Definition ret {A} (a : A) : M A := fun w => (Returned a, w).

Definition raise {A} (e : exn) : M A := fun w => (Raised e, w).

Definition bind {A B} (c : M A) (k : A -> M B) : M B :=
  fun w =>
    match c w with
    | (Returned a, w') => k a w'
    | (Raised e, w') => (Raised e, w')
    end.

(** [try: body  except Exception as e: handler e] *)
Definition try_except {A} (body : M A) (handler : exn -> M A) : M A :=
  fun w =>
    match body w with
    | (Returned a, w') => (Returned a, w')
    | (Raised e, w') => handler e w'
    end.

(** [try: body  finally: cleanup] *)
Definition try_finally {A} (body : M A) (cleanup : M unit) : M A :=
  fun w =>
    match body w with
    | (res, w') =>
        match cleanup w' with
        | (Returned _, w'') => (res, w'')
        | (Raised e, w'') => (Raised e, w'')
        end
    end.

Notation "'do' x <- c ; k" := (bind c (fun x => k))
  (at level 10, x name, c at level 100, k at level 200,
   format "'[v' 'do'  x  <-  c ; '/' k ']'").
Notation "'do' ' p <- c ; k" := (bind c (fun x => match x with p => k end))
  (at level 10, p pattern, c at level 100, k at level 200,
   format "'[v' 'do'  ' p  <-  c ; '/' k ']'").
Notation "c ;; k" := (bind c (fun _ => k))
  (at level 100, k at level 200, right associativity, only parsing).

Definition tick : M nat :=
  fun w => (Returned (ticks w),
            mkWorld (fs w) (S (ticks w)) (model_calls w) (prompts w)
                    (scripts w) (slept w)).

Definition get_fs : M (gmap string string) := fun w => (Returned (fs w), w).

Definition put_fs (f : gmap string string) : M unit :=
  fun w => (Returned tt,
            mkWorld f (ticks w) (model_calls w) (prompts w) (scripts w)
                    (slept w)).

Definition count_model_call : M unit :=
  fun w => (Returned tt,
            mkWorld (fs w) (ticks w) (S (model_calls w)) (prompts w)
                    (scripts w) (slept w)).

Definition log_prompt (p : string) : M unit :=
  fun w => (Returned tt,
            mkWorld (fs w) (ticks w) (model_calls w) (p :: prompts w)
                    (scripts w) (slept w)).

Definition log_script (s : option string) : M unit :=
  fun w => (Returned tt,
            mkWorld (fs w) (ticks w) (model_calls w) (prompts w)
                    (s :: scripts w) (slept w)).

(** [time.sleep(seconds)] *)
Definition sleep (seconds : Z) : M unit :=
  fun w => (Returned tt,
            mkWorld (fs w) (ticks w) (model_calls w) (prompts w) (scripts w)
                    (slept w + seconds)).

(** [str(e)] *)
Definition str_exn (X : External) (e : exn) : string :=
  match e with
  | ValueError t | TypeError t | OverflowError t | OSError t
  | OtherError t => t
  | RetryError last => "RetryError[" +:+ future_repr X last +:+ "]"
  end.

(** The [FileNotFoundError] of a path that does not exist *)
Definition no_such_file (path : string) : exn :=
  OSError ("[Errno 2] No such file or directory: " +:+ Str.repr path).

(** ** Configuration (config.py) *)

Module Config.

Definition digit (c : ascii) : option Z :=
  let n := nat_of_ascii c in
  if ((48 <=? n) && (n <=? 57))%nat then Some (Z.of_nat n - 48) else None.

(** The digits of a decimal literal; one underscore may stand between
    two digits.  [after_digit] tells whether the last character read
    was a digit. *)
Fixpoint digits (acc : Z) (after_digit : bool) (s : string) : option Z :=
  match s with
  | EmptyString => if after_digit then Some acc else None
  | String c s' =>
      match digit c with
      | Some d => digits (10 * acc + d) true s'
      | None =>
          if Ascii.eqb c "_" && after_digit then digits acc false s'
          else None
      end
  end.

(** The blanks [int()] passes over around an ASCII literal: C's
    [isspace], that is TAB, LF, VT, FF, CR and the blank.  The four
    separators FS GS RS US, which [str.strip] takes off, are not among
    them. *)
Definition c_isspace (c : ascii) : bool :=
  let n := nat_of_ascii c in
  ((9 <=? n) && (n <=? 13) || (n =? 32))%nat.

Fixpoint skip_spaces (s : string) : string :=
  match s with
  | String c s' => if c_isspace c then skip_spaces s' else s
  | EmptyString => EmptyString
  end.

Definition trim (s : string) : string :=
  String.rev (skip_spaces (String.rev (skip_spaces s))).

(** The number of digit characters of [s] *)
Fixpoint digit_count (s : string) : Z :=
  match s with
  | EmptyString => 0
  | String c s' =>
      (match digit c with Some _ => 1 | None => 0 end) + digit_count s'
  end.

(** [sys.get_int_max_str_digits()], left at its default: the conversions
    between [int] and decimal text raise [ValueError] beyond that many
    digits; the sign and the underscores do not count. *)
Definition int_max_str_digits : Z := 4300.

(** A sign and decimal digits *)
Definition literal (t : string) : option Z :=
  match t with
  | String "+" r => digits 0 false r
  | String "-" r => Z.opp <$> digits 0 false r
  | _ => digits 0 false t
  end.

(** [int(s)] on ASCII text: blanks around, a sign, decimal digits, no
    more of them than the limit; [None] stands for the [ValueError]. *)
Definition int_of_str (s : string) : option Z :=
  let t := trim s in
  if int_max_str_digits <? digit_count t then None else literal t.

(** [str(n)] on an [int]; [None] stands for the [ValueError] of a
    number with more digits than the limit. *)
Definition str_of_int (n : Z) : option string :=
  let text := NilZero.string_of_int (Z.to_int n) in
  if int_max_str_digits <? digit_count text then None else Some text.

Record t := mk {
  GOOGLE_CREDENTIALS_PATH : option string;
  GOOGLE_CLOUD_PROJECT_ID : string;
  GOOGLE_CLOUD_REGION : string;
  AI_PLATFORM_ENDPOINT : string;
  AI_MODEL_NAME : string;
  GCS_BUCKET_NAME : string;
  GCS_DEFAULT_FOLDER : string;
  SIGNED_URL_EXPIRATION : Z;
  MAX_RETRY_ATTEMPTS : Z;
  REQUEST_TIMEOUT : Z;
  LOG_LEVEL : string
}.

(** [os.getenv(key, fallback)] over an environment *)
Definition getenv (env : string -> option string) (key fallback : string)
  : string :=
  default fallback (env key).

(** The class body, evaluated once when the module is imported: an
    integer setting that does not parse makes the import fail. *)
Definition load (env : string -> option string) : option t :=
  let region := getenv env "GOOGLE_CLOUD_REGION" "us-central1" in
  expiration ← int_of_str (getenv env "SIGNED_URL_EXPIRATION" "3600");
  attempts ← int_of_str (getenv env "MAX_RETRY_ATTEMPTS" "3");
  timeout ← int_of_str (getenv env "REQUEST_TIMEOUT" "300");
  Some {|
    GOOGLE_CREDENTIALS_PATH := env "GOOGLE_APPLICATION_CREDENTIALS";
    GOOGLE_CLOUD_PROJECT_ID :=
      getenv env "GOOGLE_CLOUD_PROJECT_ID" "your-project-id";
    GOOGLE_CLOUD_REGION := region;
    AI_PLATFORM_ENDPOINT :=
      getenv env "AI_PLATFORM_ENDPOINT"
             (region +:+ "-aiplatform.googleapis.com");
    AI_MODEL_NAME :=
      getenv env "AI_MODEL_NAME" "meta/llama-3.1-405b-instruct-maas";
    GCS_BUCKET_NAME := getenv env "GCS_BUCKET_NAME" "your-bucket-name";
    GCS_DEFAULT_FOLDER := getenv env "GCS_DEFAULT_FOLDER" "intermediatecsv";
    SIGNED_URL_EXPIRATION := expiration;
    MAX_RETRY_ATTEMPTS := attempts;
    REQUEST_TIMEOUT := timeout;
    LOG_LEVEL := getenv env "LOG_LEVEL" "INFO"
  |}.

End Config.

(** ** The collaborators of the loop *)

Section Program.

Context (X : External) (cfg : Config.t).

(** *** Files *)

(** [os.path.exists(path)] *)
Definition os_path_exists (path : string) : M bool :=
  do f <- get_fs;
  ret (bool_decide (is_Some (f !! path))).

(** [os.unlink(path)] *)
Definition os_unlink (path : string) : M unit :=
  do f <- get_fs;
  match f !! path with
  | None => raise (no_such_file path)
  | Some _ =>
      do t <- tick;
      match unlink_error X t path with
      | Some e => raise e
      | None => put_fs (delete path f)
      end
  end.

(** [with open(path, 'w') as f: f.write(text)], on a disk with room *)
Definition write_file (path text : string) : M unit :=
  do f <- get_fs;
  put_fs (<[path := text]> f).

(** [with tempfile.NamedTemporaryFile(suffix=..., mode='w',
    delete=False) as temp_file: temp_file.write(text)], giving
    [temp_file.name] *)
Definition named_temporary_file (suffix text : string) : M string :=
  do t <- tick;
  let name := tempfile_name X t suffix in
  write_file name text ;;
  ret name.

(** [subprocess.run(['python', path], capture_output=True, text=True,
    check=False)] *)
Definition subprocess_run (path : string) : M CompletedProcess :=
  do t <- tick;
  do f <- get_fs;
  let script := f !! path in
  log_script script ;;
  let '(result, f') := python X t script f in
  put_fs f' ;;
  match result with
  | Returned p => ret p
  | Raised e => raise e
  end.

(** *** ArtifactValidator: [validate_csv] (main.py 32-63) *)

(** [pd.read_csv(path)] *)
Definition pd_read_csv (path : string) : M DataFrame :=
  do f <- get_fs;
  match f !! path with
  | None => raise (no_such_file path)
  | Some text =>
      match read_csv X text with
      | Returned df => ret df
      | Raised e => raise e
      end
  end.

(** [df.empty]: some axis has length zero *)
Definition df_empty (df : DataFrame) : bool :=
  match columns df, rows df with
  | [], _ | _, [] => true
  | _, _ => false
  end.

Fixpoint index_of (name : string) (names : list string) : option nat :=
  match names with
  | [] => None
  | n :: rest => if String.eqb n name then Some 0%nat
                 else S <$> index_of name rest
  end.

(** [df[column]]; the reader makes the column names distinct. *)
Definition series (df : DataFrame) (column : string) : list cell :=
  match index_of column (columns df) with
  | Some i => map (fun row => nth i row NaN) (rows df)
  | None => []
  end.

(** [.notna()] on a cell *)
Definition notna (c : cell) : bool :=
  match c with
  | NaN => false
  | _ => true
  end.

(** [!= s] on a cell: only equal text is equal to text *)
Definition cell_ne (c : cell) (s : string) : bool :=
  match c with
  | Text t => negb (String.eqb t s)
  | _ => true
  end.

(** [df[column].notna() & (df[column] != '') & (df[column] != ' ')] *)
Definition has_data (df : DataFrame) (column : string) : list bool :=
  map (fun c => notna c && cell_ne c "" && cell_ne c " ") (series df column).

(** [.any()] *)
Definition any (bs : list bool) : bool := existsb id bs.

(** [d[key] = value] on an insertion-ordered dict *)
Fixpoint dict_set {V} (key : string) (value : V) (d : list (string * V))
  : list (string * V) :=
  match d with
  | [] => [(key, value)]
  | (k, v) :: rest =>
      if String.eqb k key then (k, value) :: rest
      else (k, v) :: dict_set key value rest
  end.

(** [d.get(key)] *)
Fixpoint dict_get {V} (key : string) (d : list (string * V)) : option V :=
  match d with
  | [] => None
  | (k, v) :: rest => if String.eqb k key then Some v else dict_get key rest
  end.

(** One pass of [for column in df.columns] over
    [(columns_status, all_columns_empty)]. *)
Definition validate_column (df : DataFrame)
           (st : list (string * bool) * bool) (column : string)
  : list (string * bool) * bool :=
  let '(columns_status, all_columns_empty) := st in
  (dict_set column (any (has_data df column)) columns_status,
   if any (has_data df column) then false else all_columns_empty).

Definition validate_frame (df : DataFrame) : bool * string :=
  if df_empty df then (false, "CSV file is empty")
  else
    let '(columns_status, all_columns_empty) :=
      fold_left (validate_column df) (columns df) ([], true) in
    if all_columns_empty then (false, "All columns in CSV contain no data")
    else
      let empty_columns :=
        map fst (List.filter (fun item => negb (snd item)) columns_status) in
      match empty_columns with
      | _ :: _ =>
          (true, "Warning: The following columns contain no data: "
                 +:+ Str.join ", " empty_columns)
      | [] => (true, "All columns contain some data")
      end.

Definition validate_csv (output_path : string) : M (bool * string) :=
  try_except
    (do df <- pd_read_csv output_path;
     ret (validate_frame df))
    (fun e => ret (false, "CSV validation failed: " +:+ str_exn X e)).

(** *** ModelClient: [call_ai_model] (main.py 65-144) *)

(** Truth of a value that is [None] or text *)
Definition truthy (o : option string) : bool :=
  match o with
  | Some (String _ _) => true
  | _ => false
  end.

(** [get_access_token()]: the token, or [None] when anything fails *)
Definition get_access_token : M (option string) :=
  do t <- tick;
  ret (access_token X t).

Definition feedback_clause (error_message : string) : string :=
  Str.nl +:+ Str.nl +:+ "Previous attempt failed with this error: "
     +:+ error_message +:+ Str.nl
     +:+ "Please modify the code to address this issue.".

Definition full_prompt (prompt jsonl_sample : string)
           (error_message : option string) : string :=
  let base := "i am having a jsonl file its sample line is " +:+ Str.nl +:+ Str.nl
              +:+ jsonl_sample +:+ Str.nl +:+ Str.nl +:+ prompt in
  match error_message with
  | Some (String _ _ as e) => base +:+ feedback_clause e
  | _ => base
  end.

Definition call_ai_model (prompt jsonl_sample : string)
           (error_message project_id : option string) : M (option string) :=
  count_model_call ;;
  let project_id := default (Config.GOOGLE_CLOUD_PROJECT_ID cfg) project_id in
  let endpoint := Config.AI_PLATFORM_ENDPOINT cfg in
  let region := Config.GOOGLE_CLOUD_REGION cfg in
  do access_token <- get_access_token;
  if negb (truthy access_token) then ret None
  else
    let url := "https://" +:+ endpoint +:+ "/v1beta1/projects/"
               +:+ project_id +:+ "/locations/" +:+ region
               +:+ "/endpoints/openapi/chat/completions" in
    do t <- tick;
    log_prompt (full_prompt prompt jsonl_sample error_message) ;;
    ret (chat_completion X t url
           (full_prompt prompt jsonl_sample error_message)).

(** *** SandboxRunner: [execute_python_code] (main.py 172-205) *)

Definition placeholder_input : string := "/home/user/input.jsonl".
Definition placeholder_output : string := "/home/user/output.csv".

Definition modified_code (code input_path output_path : string) : string :=
  Str.replace (Str.replace code placeholder_input input_path)
              placeholder_output output_path.

Definition execute_python_code (code input_path output_path : string)
  : M (bool * string) :=
  do temp_file_path <- named_temporary_file ".py" code;
  try_finally
    (try_except
       (write_file temp_file_path
                   (modified_code code input_path output_path) ;;
        do result <- subprocess_run temp_file_path;
        if negb (returncode result =? 0) then ret (false, stderr result)
        else ret (true, stdout result))
       (fun e => ret (false, str_exn X e)))
    (do present <- os_path_exists temp_file_path;
     if present then os_unlink temp_file_path else ret tt).

(** *** RetryOrchestrator (main.py 207-233) *)

Definition is_failure_result (result : LoopResult) : bool :=
  if negb (success result) || negb (validation_success result)
     || negb (output_exists result)
  then true
  else false.

(** The body of [generate_and_execute], one attempt. *)
Definition generate_and_execute_body
           (input_path output_path prompt first_line : string)
           (previous_error project_id : option string) : M LoopResult :=
  do generated_code <-
     call_ai_model prompt first_line previous_error project_id;
  match generated_code with
  | Some (String _ _ as generated_code) =>
      let clean_code := Extract.extract_python_code generated_code in
      do '(success, message) <-
         execute_python_code clean_code input_path output_path;
      do output_exists <- os_path_exists output_path;
      if success && output_exists then
        do '(validation_success, validation_message) <-
           validate_csv output_path;
        ret (mkResult (Some clean_code) success message
                      validation_success output_exists)
      else
        ret (mkResult (Some clean_code) success message false
                      output_exists)
  | _ =>
      ret (mkResult None false "Failed to generate code from AI model"
                    false false)
  end.

(** tenacity's [@retry(stop=stop_after_attempt(n), wait=wait_fixed(s),
    retry=retry_if_result(p))] around a call [fn], the arguments of
    which are fixed once: every attempt is the same call.  An attempt
    that raises is not retried and its exception goes out; a result
    that [p] rejects is returned; after a result that [p] accepts the
    loop stops with [RetryError] once the attempt number has reached
    [n], and otherwise sleeps [s] seconds and calls again.  [more] is
    the number of attempts still allowed after the current one. *)
Fixpoint retrying (more : nat) (wait_fixed : Z)
         (retry_if_result : LoopResult -> bool) (fn : M LoopResult)
  : M LoopResult :=
  fun w =>
    match fn w with
    | (Raised e, w') => (Raised e, w')
    | (Returned result, w') =>
        if retry_if_result result then
          match more with
          | O => (Raised (RetryError result), w')
          | S k =>
              (sleep wait_fixed ;;
               retrying k wait_fixed retry_if_result fn) w'
          end
        else (Returned result, w')
    end.

Definition retry (stop_after_attempt wait_fixed : Z)
           (retry_if_result : LoopResult -> bool) (fn : M LoopResult)
  : M LoopResult :=
  retrying (Z.to_nat (stop_after_attempt - 1)) wait_fixed
           retry_if_result fn.

(** [generate_and_execute] as the module exports it: the body under
    the decorator. *)
Definition generate_and_execute
           (input_path output_path prompt first_line : string)
           (previous_error project_id : option string) : M LoopResult :=
  retry (Config.MAX_RETRY_ATTEMPTS cfg) 2 is_failure_result
        (generate_and_execute_body input_path output_path prompt first_line
                                   previous_error project_id).

End Program.

(** ** The request handler [jsonl_to_csv]: the two stages the
    properties below are about *)

Record Response := mkResponse {
  body : list (string * pyval);
  status : Z
}.

(** [jsonify(d)], the status defaulting to 200 *)
Definition jsonify (d : list (string * pyval)) : Response := mkResponse d 200.

(** Truth of a value *)
Definition pyval_truthy (v : option pyval) : bool :=
  match v with
  | None | Some VNone => false
  | Some (VBool b) => b
  | Some (VInt z) => negb (z =? 0)
  | Some (VFloat (Finite n _)) => negb (n =? 0)
  | Some (VFloat _) => true
  | Some (VStr s) => negb (String.eqb s "")
  | Some (VList l) => match l with [] => false | _ => true end
  | Some (VDict d) => match d with [] => false | _ => true end
  end.

Definition int_type_error (type_name : string) : string :=
  "int() argument must be a string, a bytes-like object or a real number, not '"
  +:+ type_name +:+ "'".

(** [int(v)]; the [ValueError] for text leaves out the quoted literal
    that ends its message. *)
Definition py_int (v : pyval) : outcome Z :=
  match v with
  | VBool b => Returned (if b then 1 else 0)
  | VInt z => Returned z
  | VFloat (Finite n d) => Returned (Z.quot n (Z.pos d))
  | VFloat (Infinity _) =>
      Raised (OverflowError "cannot convert float infinity to integer")
  | VFloat NotANumber =>
      Raised (ValueError "cannot convert float NaN to integer")
  | VStr s =>
      match Config.int_of_str s with
      | Some z => Returned z
      | None => Raised (ValueError "invalid literal for int() with base 10")
      end
  | VNone => Raised (TypeError (int_type_error "NoneType"))
  | VList _ => Raised (TypeError (int_type_error "list"))
  | VDict _ => Raised (TypeError (int_type_error "dict"))
  end.

Section Handler.

Context (X : External) (cfg : Config.t).

(** main.py 328-331: the [try: int(request_data.get(...))  except
    ValueError:] around the expiration.  [request_data] is the decoded
    JSON object, or the form, whose values are all text. *)
Definition signed_url_expiration_of (request_data : gmap string pyval)
  : outcome Z :=
  match Config.str_of_int (Config.SIGNED_URL_EXPIRATION cfg) with
  | None =>
      (* the fallback of [get] is evaluated first, and the [ValueError]
         of [str] is caught like that of [int] *)
      Returned (Config.SIGNED_URL_EXPIRATION cfg)
  | Some fallback =>
      match py_int (default (VStr fallback)
                            (request_data !! "signed_url_expiration")) with
      | Returned n => Returned n
      | Raised (ValueError _) => Returned (Config.SIGNED_URL_EXPIRATION cfg)
      | Raised e => Raised e
      end
  end.

(** main.py 498-501: what the handler's outermost [except Exception]
    answers. *)
Definition unexpected_error (run_id : string) (e : exn) : Response :=
  mkResponse
    [("error", VStr ("Unexpected error in cloud function: " +:+ str_exn X e));
     ("success", VBool false);
     ("run_id", VStr run_id)]
    500.


(** [upload_to_gcs] (main.py 235-250) *)
Definition upload_to_gcs (local_file_path bucket_name
                          destination_blob_name : string)
  : M (bool * string) :=
  do t <- tick;
  match upload_error X t local_file_path bucket_name
                     destination_blob_name with
  | None =>
      ret (true, "gs://" +:+ bucket_name +:+ "/" +:+ destination_blob_name)
  | Some e => ret (false, str_exn X e)
  end.

(** [generate_signed_url] (main.py 252-281) *)
Definition generate_signed_url (bucket_name blob_name : string)
           (expiration : Z) : M (bool * string) :=
  do t <- tick;
  match signed_url X t bucket_name blob_name expiration with
  | Returned url => ret (true, url)
  | Raised e => ret (false, str_exn X e)
  end.

(** main.py 415-477: the response dict built from the tuple that
    [generate_and_execute] returned.  Inside the inner [try] only the
    reading of the CSV can raise, and it comes before the first
    assignment to [response]. *)
Definition assemble_response (output_path gcs_bucket gcs_folder_path
                              original_filename : string)
           (signed_url_expiration : Z) (result : LoopResult)
  : M (list (string * pyval)) :=
  let response : list (string * pyval) := [] in
  if success result && validation_success result && output_exists result
  then
    do '(_, validation_message) <- validate_csv X output_path;
    try_except
      (do df <- pd_read_csv X output_path;
       let gcs_path := gcs_folder_path +:+ original_filename +:+ ".csv" in
       do '(upload_success, upload_result) <-
          upload_to_gcs output_path gcs_bucket gcs_path;
       if upload_success then
         let response := dict_set "gcs_path" (VStr upload_result) response in
         do '(signed_url_success, signed_url_result) <-
            generate_signed_url gcs_bucket gcs_path signed_url_expiration;
         if signed_url_success then
           ret (dict_set "signed_url_expiration_seconds"
                         (VInt signed_url_expiration)
                  (dict_set "signed_url" (VStr signed_url_result) response))
         else
           ret (dict_set "signed_url_error" (VStr signed_url_result)
                         response)
       else
         ret (dict_set "gcs_error" (VStr upload_result) response))
      (fun e =>
         ret (dict_set "error"
                       (VStr ("Error processing CSV: " +:+ str_exn X e))
                       response))
  else
    let error_details : list (string * pyval) := [] in
    let error_details :=
      if negb (success result)
      then dict_set "execution_error" (VStr (message result)) error_details
      else error_details in
    do error_details <-
       (if negb (validation_success result) then
          do '(_, validation_message) <-
             (if output_exists result then validate_csv X output_path
              else ret (false, "CSV file was not created"));
          ret (dict_set "validation_error" (VStr validation_message)
                        error_details)
        else ret error_details);
    let error_details :=
      if negb (output_exists result)
      then dict_set "file_error" (VStr "Output CSV file was not created")
                    error_details
      else error_details in
    ret (dict_set "error_details" (VDict error_details) response).

(** main.py 479-488: the cleanup, the errors of which are only logged *)
Definition cleanup (input_path output_path : string)
           (response : list (string * pyval)) : M unit :=
  try_except
    (do input_present <- os_path_exists input_path;
     (if input_present then os_unlink X input_path else ret tt) ;;
     do output_present <- os_path_exists output_path;
     if output_present && pyval_truthy (dict_get "gcs_path" response)
     then os_unlink X output_path
     else ret tt)
    (fun cleanup_error => ret tt).

(** main.py 403-496: from the call of the loop to the response *)
Definition convert (run_id input_path output_path prompt first_line : string)
           (project_id : option string)
           (gcs_bucket gcs_folder_path original_filename : string)
           (signed_url_expiration : Z) : M Response :=
  let previous_error : option string := None in
  try_except
    (do result <-
        generate_and_execute X cfg input_path output_path prompt first_line
                             previous_error project_id;
     do response <-
        assemble_response output_path gcs_bucket gcs_folder_path
                          original_filename signed_url_expiration result;
     cleanup input_path output_path response ;;
     ret (jsonify response))
    (fun e =>
       ret (mkResponse
              [("error",
                VStr ("All retry attempts failed with unexpected error: "
                      +:+ str_exn X e));
               ("success", VBool false);
               ("run_id", VStr run_id)]
              500)).

End Handler.

(** ** Concrete runs, used to evaluate the program *)

Module Scenario.

Definition env (key : string) : option string :=
  if String.eqb key "GOOGLE_APPLICATION_CREDENTIALS" then Some "/srv/key.json"
  else if String.eqb key "GOOGLE_CLOUD_PROJECT_ID" then Some "demo-project"
  else if String.eqb key "GCS_BUCKET_NAME" then Some "demo-bucket"
  else None.

(** What [Config.load env] gives: every other setting at its default. *)
Definition cfg : Config.t :=
  {| Config.GOOGLE_CREDENTIALS_PATH := Some "/srv/key.json";
     Config.GOOGLE_CLOUD_PROJECT_ID := "demo-project";
     Config.GOOGLE_CLOUD_REGION := "us-central1";
     Config.AI_PLATFORM_ENDPOINT := "us-central1-aiplatform.googleapis.com";
     Config.AI_MODEL_NAME := "meta/llama-3.1-405b-instruct-maas";
     Config.GCS_BUCKET_NAME := "demo-bucket";
     Config.GCS_DEFAULT_FOLDER := "intermediatecsv";
     Config.SIGNED_URL_EXPIRATION := 3600;
     Config.MAX_RETRY_ATTEMPTS := 3;
     Config.REQUEST_TIMEOUT := 300;
     Config.LOG_LEVEL := "INFO" |}.

Definition input_path : string := "/tmp/tmpa1.jsonl".
Definition output_path : string := "/tmp/records.csv".
Definition prompt : string := "Generate Python code".
Definition first_line : string := "{}".

(** The artifact of the validator scenario: columns name, age, city and
    the rows ("a","30",""), ("b","",""); the reader gives a missing
    value for an empty field and a number for "30". *)
Definition frame : DataFrame :=
  mkFrame ["name"; "age"; "city"]
          [[Text "a"; Number "30"; NaN];
           [Text "b"; NaN; NaN]].

Definition csv_text : string :=
  "name,age,city" +:+ Str.nl +:+ "a,30," +:+ Str.nl +:+ "b,," +:+ Str.nl.

(** An outside world that answers the same way every time: the model
    replies [reply]; the child exits as [proc] and, when [writes], leaves
    the artifact; the upload fails when [upload_fails]; unlinking fails
    when [unlink_fails]. *)
Definition external (reply : option string) (proc : CompletedProcess)
           (writes upload_fails unlink_fails : bool) : External :=
  {| access_token _ := Some "ya29.token";
     chat_completion _ _ _ := reply;
     tempfile_name _ suffix := "/tmp/tmpq7" +:+ suffix;
     python _ _ f :=
       (Returned proc, if writes then <[output_path := csv_text]> f else f);
     read_csv text :=
       if String.eqb text csv_text then Returned frame
       else Raised (OtherError "No columns to parse from file");
     unlink_error _ path :=
       if unlink_fails && String.eqb path input_path
       then Some (OSError "[Errno 13] Permission denied")
       else None;
     upload_error _ _ _ _ :=
       if upload_fails then Some (OtherError "403 Forbidden") else None;
     signed_url _ bucket blob _ :=
       Returned ("https://storage.googleapis.com/" +:+ bucket +:+ "/"
                 +:+ blob +:+ "?X-Goog-Signature=00");
     future_repr _ := "<Future state=finished returned tuple>" |}.

Definition script : string :=
  "print('/home/user/input.jsonl', '/home/user/output.csv')".

Definition reply : string :=
  "```python" +:+ Str.nl +:+ script +:+ Str.nl +:+ "```".

(** The child fails with "boom" on its error stream at every attempt. *)
Definition failing : External :=
  external (Some reply) (mkProc 1 "" "boom") false false false.

(** The model gives no text at any attempt. *)
Definition silent : External :=
  external None (mkProc 0 "" "") false false false.

(** Everything works at the first attempt. *)
Definition working : External :=
  external (Some reply) (mkProc 0 "done" "") true false false.

(** The conversion works and the upload is refused. *)
Definition upload_refused : External :=
  external (Some reply) (mkProc 0 "done" "") true true false.

(** The conversion and the upload work; the input file cannot be removed. *)
Definition unlink_refused : External :=
  external (Some reply) (mkProc 0 "done" "") true false true.

Definition world : World :=
  mkWorld {[ input_path := "{}" +:+ Str.nl ]} 0 0 [] [] 0.

(** The same world once the artifact has been written. *)
Definition produced : World :=
  mkWorld (<[ output_path := csv_text ]> {[ input_path := "{}" +:+ Str.nl ]})
          0 0 [] [] 0.

(** One request through the conversion stage of the handler. *)
Definition run_id : string := "20240101093000_1f2e3d4c".

Definition handle (X : External) : outcome Response * World :=
  convert X cfg run_id input_path output_path prompt first_line None
          "demo-bucket" "20240101093000_1f2e3d4c/intermediatecsv/" "records"
          3600 world.

End Scenario.

(** * Further parts of the program *)

From Stdlib Require Import DecimalPos.

(** ** Text without a given character, and its ends *)

(** [c not in s] *)
Fixpoint lacks (c : ascii) (s : string) : bool :=
  match s with
  | String d s' => negb (Ascii.eqb d c) && lacks c s'
  | EmptyString => true
  end.

(** The first character of [s] is a blank. *)
Definition head_blank (s : string) : bool :=
  match s with
  | String c _ => Str.isspace c
  | EmptyString => false
  end.

(** The last character of [s] is a blank. *)
Fixpoint last_blank (s : string) : bool :=
  match s with
  | EmptyString => false
  | String c EmptyString => Str.isspace c
  | String _ s' => last_blank s'
  end.

Definition backtick : ascii := "`".

(** A fence line (main.py 158): without the blanks around it, the line
    is a fence, labelled or bare.  It switches the flag of the scan and
    is never kept. *)
Definition fence_line (line : string) : bool :=
  String.eqb (Str.strip line) Extract.fence_python
  || String.eqb (Str.strip line) Extract.fence.


(** [s.endswith(suffix)] *)
Definition endswith (s suffix : string) : bool :=
  String.prefix (String.rev suffix) (String.rev s).

(** The value of the decimal digits [d] read after [acc]. *)
Fixpoint uint_value (d : Decimal.uint) (acc : Z) : Z :=
  match d with
  | Decimal.Nil => acc
  | Decimal.D0 d => uint_value d (10 * acc + 0)
  | Decimal.D1 d => uint_value d (10 * acc + 1)
  | Decimal.D2 d => uint_value d (10 * acc + 2)
  | Decimal.D3 d => uint_value d (10 * acc + 3)
  | Decimal.D4 d => uint_value d (10 * acc + 4)
  | Decimal.D5 d => uint_value d (10 * acc + 5)
  | Decimal.D6 d => uint_value d (10 * acc + 6)
  | Decimal.D7 d => uint_value d (10 * acc + 7)
  | Decimal.D8 d => uint_value d (10 * acc + 8)
  | Decimal.D9 d => uint_value d (10 * acc + 9)
  end.

(** ** [Config.validate] and [Config.get_default_prompt] (config.py) *)

(** [Config.validate()] (config.py 28-41); a [FileNotFoundError] is an
    [OSError]. *)
Definition Config_validate (cfg : Config.t) : M unit :=
  match Config.GOOGLE_CREDENTIALS_PATH cfg with
  | Some (String _ _ as path) =>
      do present <- os_path_exists path;
      if negb present then
        raise (OSError ("Google Cloud credentials file not found: " +:+ path))
      else if String.eqb (Config.GOOGLE_CLOUD_PROJECT_ID cfg) "your-project-id"
      then
        raise (ValueError
          "GOOGLE_CLOUD_PROJECT_ID environment variable must be set to a valid project ID")
      else if String.eqb (Config.GCS_BUCKET_NAME cfg) "your-bucket-name" then
        raise (ValueError
          "GCS_BUCKET_NAME environment variable must be set to a valid bucket name")
      else ret tt
  | _ =>
      raise (ValueError
        "GOOGLE_APPLICATION_CREDENTIALS environment variable is required")
  end.

(** [Config.get_default_prompt] (config.py 54-73); [dq] is the double
    quote. *)
Definition dq : string := String (ascii_of_nat 34) EmptyString.

Definition get_default_prompt : string :=
  "Generate Python code that: "
  +:+ Str.nl +:+ "1. Reads from '/home/user/input.jsonl' (pre-provided, do not modify) "
  +:+ Str.nl +:+ "2. Writes to '/home/user/output.csv' with columns: as per the response json. "
  +:+ Str.nl +:+ "3. For each JSONL line:"
  +:+ Str.nl +:+ "   - Extracts JSON string from 'response['candidates'][0]['content']['parts'][0]['text']'"
  +:+ Str.nl +:+ "   - Parses this inner JSON to map fields to CSV columns"
  +:+ Str.nl +:+ "   - Ignores 'request' field "
  +:+ Str.nl +:+ "4. Maps inner JSON fields as in the sample "
  +:+ Str.nl +:+ "5. Fills missing fields with '' "
  +:+ Str.nl +:+ "6. Handles invalid JSON lines with try-except, logging errors to stderr "
  +:+ Str.nl +:+ "7. Uses only 'json', 'csv', 'sys' modules"
  +:+ Str.nl +:+ "8. Output ONLY the Python code (no explanations, no Markdown)"
  +:+ Str.nl +:+ "9. Before giving the output run the code once yourself and if the request and the output match then only give the code"
  +:+ Str.nl +:+ "10. After that before giving the code check that the generated code will have at least parsed 2 lines, if not, then give the code that can"
  +:+ Str.nl +:+ "11. This type of parsing often gives this error " +:+ dq +:+ "Error parsing inner JSON: Expecting value: line 1 column 1 (char 0)" +:+ dq +:+ " so please explicitly run the code that you give and output the output also so that it can be checked"
  +:+ Str.nl +:+ "12. Never return incorrect code"
  +:+ Str.nl +:+ "13. Ensure proper try-except block structure to avoid syntax errors".

(** ** The reading of the endpoint's reply (main.py 129-140) *)

(** Sequencing of outcomes, for the parts that touch no state. *)
Definition and_then {A B} (o : outcome A) (k : A -> outcome B) : outcome B :=
  match o with
  | Returned a => k a
  | Raised e => Raised e
  end.

(** [key in v] for a text [key]; the decoded dicts hold each key once.
    The texts of the errors raised here and below are only logged. *)
Definition py_contains (key : string) (v : pyval) : outcome bool :=
  match v with
  | VDict d => Returned (match dict_get key d with
                         | Some _ => true
                         | None => false
                         end)
  | VList items =>
      Returned (existsb (fun item => match item with
                                     | VStr s => String.eqb s key
                                     | _ => false
                                     end) items)
  | VStr s => Returned (Str.contains key s)
  | _ => Raised (TypeError "argument is not iterable")
  end.

(** [len(v)] *)
Definition py_len (v : pyval) : outcome Z :=
  match v with
  | VStr s => Returned (Z.of_nat (String.length s))
  | VList items => Returned (Z.of_nat (length items))
  | VDict d => Returned (Z.of_nat (length d))
  | _ => Raised (TypeError "object has no len()")
  end.

(** [v[key]] for a text [key]; a [KeyError] is among the other errors. *)
Definition py_item (v : pyval) (key : string) : outcome pyval :=
  match v with
  | VDict d => match dict_get key d with
               | Some item => Returned item
               | None => Raised (OtherError key)
               end
  | VList _ | VStr _ =>
      Raised (TypeError "indices must be integers")
  | _ => Raised (TypeError "object is not subscriptable")
  end.

(** [v[0]]; an [IndexError] is among the other errors, and no decoded
    dict has the key 0. *)
Definition py_first (v : pyval) : outcome pyval :=
  match v with
  | VList (item :: _) => Returned item
  | VList [] => Raised (OtherError "list index out of range")
  | VStr (String c _) => Returned (VStr (String c EmptyString))
  | VStr EmptyString => Raised (OtherError "string index out of range")
  | VDict _ => Raised (OtherError "0")
  | _ => Raised (TypeError "object is not subscriptable")
  end.

(** [key in result and len(result[key]) > 0] *)
Definition has_some (result : pyval) (key : string) : outcome bool :=
  and_then (py_contains key result) (fun present =>
    if present then
      and_then (py_item result key) (fun items =>
      and_then (py_len items) (fun n => Returned (0 <? n)))
    else Returned false).

(** main.py 132-140, on the decoded reply: the content it returns. *)
Definition read_result (result : pyval) : outcome pyval :=
  and_then (has_some result "choices") (fun choices =>
    if choices then
      and_then (py_item result "choices") (fun items =>
      and_then (py_first items) (fun choice =>
      and_then (py_item choice "message") (fun message =>
      py_item message "content")))
    else
      and_then (has_some result "candidates") (fun candidates =>
        if candidates then
          and_then (py_item result "candidates") (fun items =>
          and_then (py_first items) (fun candidate =>
          and_then (py_item candidate "content") (fun content =>
          and_then (py_item content "parts") (fun parts =>
          and_then (py_first parts) (fun part =>
          py_item part "text")))))
        else Returned VNone)).

(** main.py 124-144: [posted] is what [requests.post],
    [raise_for_status] and [response.json()] give; whatever is raised
    ends in None.  This is the reading that [chat_completion] stands
    for. *)
Definition read_reply (posted : outcome pyval) : pyval :=
  match and_then posted read_result with
  | Returned content => content
  | Raised _ => VNone
  end.

(** ** The request handler [jsonl_to_csv] as a whole (main.py 284-501) *)

(** What the handler uses of the platform besides [External]. *)
Record Platform := mkPlatform {
  (* f"{datetime.now().strftime(...)}_{str(uuid.uuid4())[:8]}" *)
  new_run_id : nat -> string;
  (* werkzeug.utils.secure_filename on text *)
  secure_filename : string -> string;
  (* base64.b64decode: the bytes, as text, or the error raised *)
  b64decode : pyval -> outcome string;
  (* os.path.splitext(name)[0] *)
  splitext_root : string -> string;
  (* os.path.join(os.path.dirname(path), name) *)
  dirname_join : string -> string -> string;
  (* str(v), as an f-string shows a value that is not text *)
  py_str : pyval -> string;
  (* reading a file in text mode: the error that decoding its bytes
     raises, if any *)
  decode_error : string -> option exn
}.

(** A file of the multipart body. *)
Record Upload := mkUpload {
  upload_filename : string;
  upload_content : string
}.

(** [request_data]: the form, whose values are text; the decoded JSON
    object; or the error met on the way to it ([get_json()] raises, or
    decodes something that has no [get]). *)
Inductive RequestData :=
| FormData (fields : gmap string string)
| JsonObject (fields : gmap string pyval)
| NoObject (e : exn).

Record Request := mkRequest {
  method : string;
  data : RequestData;
  files : gmap string Upload
}.

Definition lift {A} (o : outcome A) : M A :=
  match o with
  | Returned a => ret a
  | Raised e => raise e
  end.

Definition request_data_of (request : Request) : outcome (gmap string pyval) :=
  match data request with
  | FormData fields => Returned (VStr <$> fields)
  | JsonObject fields => Returned fields
  | NoObject e => Raised e
  end.

(** A value inside an f-string *)
Definition fmt (P : Platform) (v : pyval) : string :=
  match v with
  | VStr s => s
  | _ => py_str P v
  end.

(** main.py 333-334: [if gcs_folder_path and not
    gcs_folder_path.endswith('/'): gcs_folder_path += '/'] *)
Definition with_trailing_slash (gcs_folder_path : pyval) : outcome pyval :=
  if pyval_truthy (Some gcs_folder_path) then
    match gcs_folder_path with
    | VStr s => if negb (endswith s "/") then Returned (VStr (s +:+ "/"))
                else Returned (VStr s)
    | _ => Raised (OtherError "object has no attribute 'endswith'")
    end
  else Returned gcs_folder_path.

(** [secure_filename(v)] *)
Definition py_secure_filename (P : Platform) (v : pyval) : outcome string :=
  match v with
  | VStr s => Returned (secure_filename P s)
  | _ => Raised (TypeError "normalize() argument 2 must be str")
  end.

Definition bad_request (text : string) : Response :=
  mkResponse [("error", VStr text)] 400.

(** The text of a file up to its first line end: in text mode a line
    ends at LF or CR. *)
Fixpoint until_newline (text : string) : string :=
  match text with
  | EmptyString => EmptyString
  | String c rest =>
      if Ascii.eqb c Str.LF || Ascii.eqb c (ascii_of_nat 13) then EmptyString
      else String c (until_newline rest)
  end.

(** [f.readline().strip()]: the line end is a blank, and goes with the
    other blanks. *)
Definition first_line_of (text : string) : string :=
  Str.strip (until_newline text).

Section Entry.

Context (P : Platform) (X : External) (cfg : Config.t).

(** main.py 347-372: the file as base64 text, or no file at all.  The
    answer is an early response, or the file name and the path of the
    temporary input file. *)
Definition receive_base64 (request_data : gmap string pyval)
  : M (Response + string * string) :=
  match request_data !! "file_base64" with
  | Some base64_content =>
      match request_data !! "file_name" with
      | None =>
          ret (inl (bad_request "file_name is required when using file_base64"))
      | Some file_name =>
          do filename <- lift (py_secure_filename P file_name);
          try_except
            (do file_content <- lift (b64decode P base64_content);
             do input_path <- named_temporary_file X ".jsonl" file_content;
             ret (inr (filename, input_path)))
            (fun e =>
               ret (inl (bad_request ("Error decoding base64 content: "
                                      +:+ str_exn X e))))
      end
  | None =>
      ret (inl (bad_request
        "No file provided. Please provide either a file upload or base64 encoded file content with filename."))
  end.

(** main.py 338-372 *)
Definition receive_file (request : Request) (request_data : gmap string pyval)
  : M (Response + string * string) :=
  match files request !! "file" with
  | Some file =>
      if negb (String.eqb (upload_filename file) "") then
        let filename := secure_filename P (upload_filename file) in
        do input_path <- named_temporary_file X ".jsonl" (upload_content file);
        ret (inr (filename, input_path))
      else receive_base64 request_data
  | None => receive_base64 request_data
  end.

(** [with open(input_path, 'r') as f:] and the reading: the text of the
    file, when its bytes decode *)
Definition read_text (path : string) : M string :=
  do f <- get_fs;
  match f !! path with
  | Some text =>
      match decode_error P text with
      | Some e => raise e
      | None => ret text
      end
  | None => raise (no_such_file path)
  end.

(** main.py 312-412, inside the outer [try], up to the call of the
    conversion stage [convert] (main.py 403-496). *)
Definition handle_post (run_id : string) (request : Request) : M Response :=
  do request_data <- lift (request_data_of request);
  let project_id :=
    default (VStr (Config.GOOGLE_CLOUD_PROJECT_ID cfg))
            (request_data !! "project_id") in
  let additional_instruction :=
    default (VStr "") (request_data !! "additional_instruction") in
  do _ <- lift (py_len additional_instruction);
  let gcs_bucket :=
    default (VStr (Config.GCS_BUCKET_NAME cfg)) (request_data !! "gcs_bucket") in
  let default_folder_path :=
    run_id +:+ "/" +:+ Config.GCS_DEFAULT_FOLDER cfg +:+ "/" in
  let gcs_folder_path :=
    default (VStr default_folder_path) (request_data !! "gcs_folder_path") in
  do signed_url_expiration <- lift (signed_url_expiration_of cfg request_data);
  do gcs_folder_path <- lift (with_trailing_slash gcs_folder_path);
  do received <- receive_file request request_data;
  match received with
  | inl early => ret early
  | inr (filename, input_path) =>
      let original_filename := splitext_root P filename in
      let output_path :=
        dirname_join P input_path (original_filename +:+ ".csv") in
      do text <- read_text input_path;
      let first_line := first_line_of text in
      if String.eqb first_line "" then ret (bad_request "Input file is empty")
      else
        let default_prompt := get_default_prompt in
        let prompt :=
          if pyval_truthy (Some additional_instruction)
          then default_prompt +:+ Str.nl +:+ "14. "
               +:+ fmt P additional_instruction
          else default_prompt in
        convert X cfg run_id input_path output_path prompt first_line
                (match project_id with
                 | VNone => None
                 | v => Some (fmt P v)
                 end)
                (fmt P gcs_bucket) (fmt P gcs_folder_path) original_filename
                signed_url_expiration
  end.

(** [jsonl_to_csv(request)] *)
Definition jsonl_to_csv (request : Request) : M Response :=
  do t <- tick;
  let run_id := new_run_id P t in
  if negb (String.eqb (method request) "POST")
  then ret (bad_request "Only POST method is supported")
  else try_except (handle_post run_id request)
                  (fun e => ret (unexpected_error X run_id e)).

End Entry.

(** ** The sandbox on a disk that can fail (main.py 172-205) *)

(** Creating a file and writing to it can fail: the disk is full, the
    directory cannot be written.  [write_failure t path text] is the
    error that creating or writing [path] with [text] raises, if any,
    together with what the failure leaves at [path]: nothing, or some
    text. *)
Record Disk := mkDisk {
  write_failure : nat -> string -> string -> option (exn * option string)
}.

Module OnDisk.

Section OnDisk.

Context (D : Disk) (X : External).

Definition get_ticks : M nat := fun w => (Returned (ticks w), w).

(** [with open(path, 'w') as f: f.write(text)] *)
Definition write_file (path text : string) : M unit :=
  do t <- get_ticks;
  do f <- get_fs;
  match write_failure D t path text with
  | Some (e, leftover) =>
      put_fs (partial_alter (fun _ => leftover) path f) ;;
      raise e
  | None => put_fs (<[path := text]> f)
  end.

(** [with tempfile.NamedTemporaryFile(suffix=..., mode='w',
    delete=False) as temp_file: temp_file.write(text)], giving
    [temp_file.name] *)
Definition named_temporary_file (suffix text : string) : M string :=
  do t <- tick;
  let name := tempfile_name X t suffix in
  do f <- get_fs;
  match write_failure D t name text with
  | Some (e, leftover) =>
      put_fs (partial_alter (fun _ => leftover) name f) ;;
      raise e
  | None =>
      put_fs (<[name := text]> f) ;;
      ret name
  end.

(** [execute_python_code]: the temporary file is made before the [try];
    the rewritten script is written inside it. *)
Definition execute_python_code (code input_path output_path : string)
  : M (bool * string) :=
  do temp_file_path <- named_temporary_file ".py" code;
  try_finally
    (try_except
       (write_file temp_file_path
                   (modified_code code input_path output_path) ;;
        do result <- subprocess_run X temp_file_path;
        if negb (returncode result =? 0) then ret (false, stderr result)
        else ret (true, stdout result))
       (fun e => ret (false, str_exn X e)))
    (do present <- os_path_exists temp_file_path;
     if present then os_unlink X temp_file_path else ret tt).

End OnDisk.

End OnDisk.

(** ** Outside worlds for the further properties *)

Module Cases.

(** [X] with another reader of CSV text. *)
Definition with_reader (X : External) (reader : string -> outcome DataFrame)
  : External :=
  mkExternal (access_token X) (chat_completion X) (tempfile_name X)
             (python X) reader (unlink_error X) (upload_error X)
             (signed_url X) (future_repr X).

(** A header and no row. *)
Definition header_only : DataFrame := mkFrame ["name"; "age"; "city"] [].

(** Two rows in which no cell holds data: missing, empty, one blank. *)
Definition all_blank : DataFrame :=
  mkFrame ["name"; "age"] [[NaN; Text ""]; [Text " "; NaN]].

(** Every column holds data somewhere. *)
Definition all_filled : DataFrame :=
  mkFrame ["name"; "age"] [[Text "a"; NaN]; [NaN; Number "7"]].

(** [X] with another answer to every unlink. *)
Definition with_unlink (X : External) (failure : nat -> string -> option exn)
  : External :=
  mkExternal (access_token X) (chat_completion X) (tempfile_name X)
             (python X) (read_csv X) failure (upload_error X)
             (signed_url X) (future_repr X).

(** Removing any file is refused. *)
Definition read_only : External :=
  with_unlink Scenario.working
              (fun _ _ => Some (OSError "[Errno 30] Read-only file system")).

(** No access token can be had. *)
Definition no_credentials : External :=
  mkExternal (fun _ => None) (chat_completion Scenario.working)
             (tempfile_name Scenario.working) (python Scenario.working)
             (read_csv Scenario.working) (unlink_error Scenario.working)
             (upload_error Scenario.working) (signed_url Scenario.working)
             (future_repr Scenario.working).


(** A platform with plain answers: file names are kept, the base64 text
    "e30K" is the line "{}" and anything else is refused, and a file
    decodes unless it holds the byte 255. *)
Definition platform : Platform :=
  {| new_run_id _ := Scenario.run_id;
     secure_filename name := name;
     b64decode v :=
       match v with
       | VStr "e30K" => Returned ("{}" +:+ Str.nl)
       | _ => Raised (OtherError "Incorrect padding")
       end;
     splitext_root _ := "records";
     dirname_join _ name := "/tmp/" +:+ name;
     py_str _ := "?";
     decode_error text :=
       if lacks (ascii_of_nat 255) text then None
       else Some (ValueError
                    "'utf-8' codec can't decode byte 0xff: invalid start byte") |}.

(** A POST with a form of [fields] and, when [file] is given, an upload
    named "records.jsonl" holding it. *)
Definition post (fields : gmap string string) (file : option string)
  : Request :=
  mkRequest "POST" (FormData fields)
            (match file with
             | Some text => {[ "file" := mkUpload "records.jsonl" text ]}
             | None => ∅
             end).

(** A reply in both shapes at once. *)
Definition both_shapes : pyval :=
  VDict [("candidates",
          VList [VDict [("content",
                         VDict [("parts",
                                 VList [VDict [("text", VStr "print(2)")]])])]]);
         ("choices",
          VList [VDict [("message", VDict [("content", VStr "print(1)")])]])].

(** A reply with an empty list of choices. *)
Definition candidates_only : pyval :=
  VDict [("choices", VList []);
         ("candidates",
          VList [VDict [("content",
                         VDict [("parts",
                                 VList [VDict [("text", VStr "print(2)")]])])]])].

(** No file exists yet. *)
Definition fresh : World := mkWorld ∅ 0 0 [] [] 0.

(** A disk on which every write works. *)
Definition sound_disk : Disk := mkDisk (fun _ _ _ => None).

(** A disk with no room left: a file is created and stays empty. *)
Definition full_disk : Disk :=
  mkDisk (fun _ _ _ =>
            Some (OSError "[Errno 28] No space left on device",
                  Some EmptyString)).

End Cases.

(** * Properties *)

(** ** Evaluating the text primitives *)

Example extract_fenced :
  Extract.extract_python_code
    ("Here:" +:+ Str.nl +:+ "```python" +:+ Str.nl +:+ "print(1)"
     +:+ Str.nl +:+ "```" +:+ Str.nl +:+ "bye")
  = "print(1)".
Proof. vm_compute. reflexivity. Qed.

Example extract_plain :
  Extract.extract_python_code ("import json" +:+ Str.nl +:+ "print(1)")
  = "import json" +:+ Str.nl +:+ "print(1)".
Proof. vm_compute. reflexivity. Qed.

Example extract_bare_fences :
  Extract.extract_python_code
    ("```" +:+ Str.nl +:+ "x = 1" +:+ Str.nl +:+ "```")
  = "x = 1".
Proof. vm_compute. reflexivity. Qed.

Example extract_empty : Extract.extract_python_code "" = "".
Proof. vm_compute. reflexivity. Qed.

Example extract_only_fence : Extract.extract_python_code "```" = "```".
Proof. vm_compute. reflexivity. Qed.

Example extract_inline_fence :
  Extract.extract_python_code "run ```x``` now" = "run ```x``` now".
Proof. vm_compute. reflexivity. Qed.

Example replace_twice :
  Str.replace "a/b a/b" "a/b" "c" = "c c".
Proof. vm_compute. reflexivity. Qed.

Example replace_no_overlap : Str.replace "aaa" "aa" "b" = "ba".
Proof. vm_compute. reflexivity. Qed.

Example int_of_str_plain : Config.int_of_str "3600" = Some 3600.
Proof. reflexivity. Qed.

Example int_of_str_padded : Config.int_of_str " -1_000 " = Some (-1000).
Proof. reflexivity. Qed.

Example int_of_str_word : Config.int_of_str "soon" = None.
Proof. reflexivity. Qed.

Example int_of_str_empty : Config.int_of_str "" = None.
Proof. reflexivity. Qed.

Example str_of_int_3600 : Config.str_of_int 3600 = Some "3600".
Proof. reflexivity. Qed.

Example int_of_str_separator :
  Config.int_of_str (String (ascii_of_nat 28) "12") = None.
Proof. reflexivity. Qed.

Example repr_path : Str.repr "/tmp/records.csv" = "'/tmp/records.csv'".
Proof. reflexivity. Qed.

Example repr_apostrophe :
  Str.repr "it's" = String Str.DQ ("it's" +:+ String Str.DQ EmptyString).
Proof. reflexivity. Qed.

Example repr_control :
  Str.repr (String Str.LF (String (ascii_of_nat 27) "a"))
  = "'" +:+ String Str.BS "n" +:+ String Str.BS "x1ba'".
Proof. reflexivity. Qed.


Example modified_code_scenario :
  modified_code Scenario.script Scenario.input_path Scenario.output_path
  = "print('/tmp/tmpa1.jsonl', '/tmp/records.csv')".
Proof. vm_compute. reflexivity. Qed.

Example load_scenario : Config.load Scenario.env = Some Scenario.cfg.
Proof. vm_compute. reflexivity. Qed.

(** ** Text replacement *)

Lemma prefix_app (a b : string) : String.prefix a (a +:+ b) = true.
Proof.
  induction a as [|c a IH]; simpl.
  - destruct b; reflexivity.
  - destruct (ascii_dec c c); [exact IH | congruence].
Qed.

(** What stands in a text occurs in it. *)
Lemma contains_app (old a b : string) :
  Str.contains old (a +:+ old +:+ b) = true.
Proof.
  induction a as [|c a IH].
  - change (EmptyString +:+ old +:+ b) with (old +:+ b).
    destruct (old +:+ b) eqn:Hs; cbn [Str.contains];
      rewrite <- Hs, prefix_app; reflexivity.
  - change (String c a +:+ old +:+ b) with (String c (a +:+ old +:+ b)).
    cbn [Str.contains]. rewrite IH. apply orb_true_r.
Qed.

(** Once an occurrence is matched, the rest of it is passed over. *)
Lemma replace_go_skip (old new x b : string) :
  Str.replace_go old new (x +:+ b) (String.length x)
  = Str.replace_go old new b 0.
Proof.
  induction x as [|c x IH]; simpl.
  - reflexivity.
  - exact IH.
Qed.

(** Text without an occurrence of [old] is left as it is. *)
Lemma replace_absent (s old new : string) :
  old <> EmptyString ->
  Str.contains old s = false ->
  Str.replace s old new = s.
Proof.
  intros Hold. destruct old as [|o old']; [congruence|]. unfold Str.replace.
  induction s as [|c s IH]; intros H.
  - reflexivity.
  - cbn [Str.contains] in H. apply orb_false_iff in H as [Hp Hc].
    cbn [Str.replace_go]. rewrite Hp. f_equal. apply IH.
    destruct s; exact Hc.
Qed.

(** The first occurrence of [old], at the end of [a], is replaced, and
    the replacement goes on after it. *)
Lemma replace_first (a b old new : string) :
  old <> EmptyString ->
  (forall i, (i < String.length a)%nat ->
             String.prefix old (Str.drop i (a +:+ old +:+ b)) = false) ->
  Str.replace (a +:+ old +:+ b) old new
  = a +:+ new +:+ Str.replace b old new.
Proof.
  intros Hold. destruct old as [|o old']; [congruence|]. unfold Str.replace.
  induction a as [|c a IH]; intros H.
  - change (EmptyString +:+ String o old' +:+ b)
      with (String o (old' +:+ b)).
    cbn [Str.replace_go].
    change (String o (old' +:+ b)) with (String o old' +:+ b).
    rewrite prefix_app.
    replace (String.length (String o old') - 1)%nat
      with (String.length old') by (simpl; lia).
    rewrite replace_go_skip. reflexivity.
  - change (String c a +:+ String o old' +:+ b)
      with (String c (a +:+ String o old' +:+ b)).
    cbn [Str.replace_go].
    change (String c (a +:+ String o old' +:+ b))
      with (Str.drop 0 (String c a +:+ String o old' +:+ b)).
    rewrite (H 0%nat) by (simpl; lia).
    cbn [Str.drop].
    change (String c a +:+ new +:+ Str.replace_go (String o old') new b 0)
      with (String c (a +:+ new +:+ Str.replace_go (String o old') new b 0)).
    f_equal. apply IH.
    intros i Hi. apply (H (S i)). simpl. lia.
Qed.

(** ** Running the monad *)

Ltac run :=
  unfold bind, ret, raise, try_except, try_finally, tick, get_fs, put_fs,
    count_model_call, log_prompt, log_script, sleep; cbn.

(** Case analysis on the innermost test the goal still waits for. *)
Ltac cases :=
  repeat match goal with
         | |- context [match ?x with _ => _ end] =>
             lazymatch x with
             | context [match _ with _ => _ end] => fail
             | _ => tryif is_var x then fail else (destruct x eqn:?; cbn)
             end
         end.

(** Compute, using the equations at hand on what computing uncovers. *)
Ltac known :=
  cbn;
  repeat match goal with
         | H : ?x = _ |- context [?x] => rewrite H; cbn
         end.

(** The collaborators are unfolded by name only. *)
Arguments call_ai_model : simpl never.
Arguments execute_python_code : simpl never.
Arguments validate_csv : simpl never.
Arguments os_path_exists : simpl never.
Arguments generate_and_execute_body : simpl never.
Arguments retrying : simpl never.
Arguments sleep : simpl never.

Lemma os_path_exists_run (path : string) (w : World) :
  os_path_exists path w
  = (Returned (bool_decide (is_Some (fs w !! path))), w).
Proof. reflexivity. Qed.

(** The validator reads the file system and changes nothing; whatever
    the reader does, it returns. *)
Lemma validate_csv_run (X : External) (path : string) (w : World) :
  exists verdict, validate_csv X path w = (Returned verdict, w).
Proof.
  unfold validate_csv, pd_read_csv. run. destruct w as [f t c p s z]. cbn.
  destruct (f !! path) as [text|]; cbn; [|eauto].
  destruct (read_csv X text); cbn; eauto.
Qed.

(** ** The fence pattern *)

Lemma prefix_split (p s : string) :
  String.prefix p s = true -> exists rest, s = p +:+ rest.
Proof.
  revert s. induction p as [|c p IH]; intros s H.
  - exists s. reflexivity.
  - destruct s as [|d s]; [discriminate|]. cbn in H.
    destruct (ascii_dec c d) as [->|]; [|discriminate].
    destruct (IH s H) as [rest ->]. exists rest. reflexivity.
Qed.

Lemma drop_app (p rest : string) :
  Str.drop (String.length p) (p +:+ rest) = rest.
Proof.
  induction p as [|c p IH]; [destruct rest; reflexivity | exact IH].
Qed.

(** Where [\s+```] matches, the text starts with blanks, at least one,
    and then the fence. *)
Lemma spaces_then_fence_sound (s : string) :
  Extract.spaces_then_fence s = true ->
  exists ws rest,
    s = ws +:+ Extract.fence +:+ rest /\
    ws <> EmptyString /\ Str.blank ws = true.
Proof.
  induction s as [|c s IH]; [discriminate|]. cbn [Extract.spaces_then_fence].
  intros H. apply andb_true_iff in H as [Hc H].
  apply orb_true_iff in H as [H | H].
  - destruct (IH H) as (ws & rest & -> & _ & Hws).
    exists (String c ws), rest. repeat split; [discriminate|].
    cbn. rewrite Hc, Hws. reflexivity.
  - destruct (prefix_split _ _ H) as [rest ->].
    exists (String c EmptyString), rest. repeat split; [discriminate|].
    cbn. rewrite Hc. reflexivity.
Qed.

Lemma lazy_group_sound (s group1 : string) :
  Extract.lazy_group s = Some group1 ->
  exists ws rest,
    s = group1 +:+ ws +:+ Extract.fence +:+ rest /\
    ws <> EmptyString /\ Str.blank ws = true.
Proof.
  revert group1. induction s as [|c s IH]; intros group1.
  - discriminate.
  - cbn [Extract.lazy_group].
    destruct (Extract.spaces_then_fence (String c s)) eqn:Hfence.
    + intros [= <-]. exact (spaces_then_fence_sound _ Hfence).
    + destruct (Extract.lazy_group s) as [g|]; [|discriminate].
      intros [= <-]. destruct (IH g eq_refl) as (ws & rest & -> & Hne & Hws).
      exists ws, rest. repeat split; assumption.
Qed.

Lemma spaces_then_group_sound (s group1 : string) :
  Extract.spaces_then_group s = Some group1 ->
  exists ws1 ws2 rest,
    s = ws1 +:+ group1 +:+ ws2 +:+ Extract.fence +:+ rest /\
    ws1 <> EmptyString /\ Str.blank ws1 = true /\
    ws2 <> EmptyString /\ Str.blank ws2 = true.
Proof.
  induction s as [|c s IH]; [discriminate|].
  cbn [Extract.spaces_then_group].
  destruct (Str.isspace c) eqn:Hc; [|discriminate].
  destruct (Extract.spaces_then_group s) as [g|].
  - intros [= <-].
    destruct (IH eq_refl) as (ws1 & ws2 & rest & -> & _ & H1 & Hne & H2).
    exists (String c ws1), ws2, rest.
    repeat split; try assumption; [discriminate|].
    cbn. rewrite Hc, H1. reflexivity.
  - intros H. destruct (lazy_group_sound _ _ H) as (ws & rest & -> & Hne & Hws).
    exists (String c EmptyString), ws, rest.
    repeat split; try assumption; [discriminate|].
    cbn. rewrite Hc. reflexivity.
Qed.

(** What [re.search] reports is a match of the pattern: the text holds
    the labelled fence, blanks, group 1, blanks and a closing fence. *)
Lemma re_search_sound (s group1 : string) :
  Extract.re_search s = Some group1 ->
  exists before ws1 ws2 rest,
    s = before +:+ Extract.fence_python +:+ ws1 +:+ group1 +:+ ws2
        +:+ Extract.fence +:+ rest /\
    ws1 <> EmptyString /\ Str.blank ws1 = true /\
    ws2 <> EmptyString /\ Str.blank ws2 = true.
Proof.
  assert (Hhere : forall s, Extract.match_here s = Some group1 ->
            exists ws1 ws2 rest,
              s = Extract.fence_python +:+ ws1 +:+ group1 +:+ ws2
                  +:+ Extract.fence +:+ rest /\
              ws1 <> EmptyString /\ Str.blank ws1 = true /\
              ws2 <> EmptyString /\ Str.blank ws2 = true).
  { intros t. unfold Extract.match_here.
    destruct (String.prefix Extract.fence_python t) eqn:Hp; [|discriminate].
    destruct (prefix_split _ _ Hp) as [tail ->]. rewrite drop_app.
    intros H.
    destruct (spaces_then_group_sound _ _ H)
      as (ws1 & ws2 & rest & -> & Hrest).
    exists ws1, ws2, rest. split; [reflexivity | exact Hrest]. }
  induction s as [|c s IH]; cbn [Extract.re_search].
  - destruct (Extract.match_here EmptyString) eqn:Hm; [|discriminate].
    intros [= ->]. destruct (Hhere _ Hm) as (ws1 & ws2 & rest & Heq & Hrest).
    exists EmptyString, ws1, ws2, rest. split; [exact Heq | exact Hrest].
  - destruct (Extract.match_here (String c s)) eqn:Hm.
    + intros [= ->]. destruct (Hhere _ Hm) as (ws1 & ws2 & rest & Heq & Hrest).
      exists EmptyString, ws1, ws2, rest. split; [exact Heq | exact Hrest].
    + intros H.
      destruct (IH H) as (before & ws1 & ws2 & rest & -> & Hrest).
      exists (String c before), ws1, ws2, rest.
      split; [reflexivity | exact Hrest].
Qed.

(** The group is lazy, each run of blanks greedy, the search leftmost. *)
Example re_search_first_block :
  Extract.re_search ("```python" +:+ Str.nl +:+ "x" +:+ Str.nl +:+ "```"
                     +:+ Str.nl +:+ "```python" +:+ Str.nl +:+ "y"
                     +:+ Str.nl +:+ "```")
  = Some "x".
Proof. vm_compute. reflexivity. Qed.

Example re_search_gives_back_a_blank :
  Extract.re_search "```python  ```" = Some "".
Proof. vm_compute. reflexivity. Qed.

Example re_search_needs_two_runs :
  Extract.re_search "```python ```" = None.
Proof. vm_compute. reflexivity. Qed.

Example re_search_keeps_inner_blanks :
  Extract.re_search ("```python" +:+ Str.nl +:+ "a  b" +:+ Str.nl
                     +:+ Str.nl +:+ "```")
  = Some "a  b".
Proof. vm_compute. reflexivity. Qed.

(** A fenced block with nothing in it is a match all the same, and its
    content, the empty text, is what the extractor gives. *)
Example extract_blank_block :
  Extract.extract_python_code ("```python" +:+ Str.nl +:+ Str.nl +:+ "```")
  = "".
Proof. vm_compute. reflexivity. Qed.

(** ** C7: the extractor *)

(** The scan keeps no line when every line that is not a fence line
    carries a fence and is met outside a block: [in_code] is the flag
    before the lines, and the fence lines met since switch it. *)
Lemma scan_keeps_nothing (lines : list string) :
  forall kept in_code,
    (forall i line,
        nth_error lines i = Some line ->
        fence_line line = false ->
        Str.contains Extract.fence line = true /\
        xorb in_code
             (Nat.odd (length (List.filter fence_line (firstn i lines))))
        = false) ->
    fst (fold_left Extract.scan_line lines (kept, in_code)) = kept.
Proof.
  induction lines as [|line lines IH]; intros kept in_code H.
  - reflexivity.
  - cbn [fold_left Extract.scan_line].
    change (String.eqb (Str.strip line) Extract.fence_python
            || String.eqb (Str.strip line) Extract.fence)
      with (fence_line line).
    destruct (fence_line line) eqn:Hline.
    + apply IH. intros i l Hnth Hl.
      destruct (H (S i) l Hnth Hl) as [Hin Hflag]. split; [exact Hin|].
      cbn [firstn List.filter] in Hflag. rewrite Hline in Hflag.
      cbn [length] in Hflag. rewrite Nat.odd_succ, <- Nat.negb_odd in Hflag.
      destruct in_code, (Nat.odd _); cbn in *; congruence.
    + destruct (H 0%nat line eq_refl Hline) as [Hin Hflag].
      cbn in Hflag. rewrite xorb_false_r in Hflag. subst in_code.
      rewrite Hin. cbn [orb negb]. apply IH. intros i l Hnth Hl.
      destruct (H (S i) l Hnth Hl) as [Hin' Hflag']. split; [exact Hin'|].
      cbn [firstn List.filter] in Hflag'. rewrite Hline in Hflag'.
      exact Hflag'.
Qed.

(** C7, as the code has it.  The extractor is a function from text to
    text: no step of it can raise on a [str].  It gives the reply back
    unchanged when the labelled fence pattern matches nowhere in it and
    the scan keeps no line: every line that is not a fence line carries
    a fence and stands after an even number of fence lines, so that it
    is met outside a block. *)
Theorem extract_python_code_fallback (ai_response : string) :
  ~ (exists before ws1 group1 ws2 rest,
        ai_response = before +:+ "```python" +:+ ws1 +:+ group1 +:+ ws2
                      +:+ "```" +:+ rest /\
        ws1 <> EmptyString /\ Str.blank ws1 = true /\
        ws2 <> EmptyString /\ Str.blank ws2 = true) ->
  (forall i line,
      nth_error (Str.split Str.LF ai_response) i = Some line ->
      fence_line line = false ->
      Str.contains "```" line = true /\
      Nat.even (length (List.filter fence_line
                          (firstn i (Str.split Str.LF ai_response))))
      = true) ->
  Extract.extract_python_code ai_response = ai_response.
Proof.
  intros Hpattern Hlines. unfold Extract.extract_python_code.
  destruct (Extract.re_search ai_response) as [group1|] eqn:Hsearch.
  { exfalso. apply Hpattern.
    destruct (re_search_sound _ _ Hsearch)
      as (before & ws1 & ws2 & rest & Heq & Hblanks).
    exists before, ws1, group1, ws2, rest. split; [exact Heq | exact Hblanks]. }
  unfold Extract.scan_lines.
  rewrite (scan_keeps_nothing (Str.split Str.LF ai_response) [] false);
    [reflexivity|].
  intros i line Hnth Hline.
  destruct (Hlines i line Hnth Hline) as [Hin Heven]. split; [exact Hin|].
  rewrite <- Nat.negb_even, Heven. reflexivity.
Qed.

Lemma extract_python_code_fallback_witness :
  Extract.extract_python_code
    ("```js" +:+ Str.nl +:+ "```" +:+ Str.nl +:+ " ```")
  = "```js" +:+ Str.nl +:+ "```" +:+ Str.nl +:+ " ```".
Proof.
  apply extract_python_code_fallback.
  - intros (before & ws1 & group1 & ws2 & rest & Heq & _).
    pose proof (contains_app "```python" before
                  (ws1 +:+ group1 +:+ ws2 +:+ "```" +:+ rest)) as Hin.
    rewrite <- Heq in Hin. vm_compute in Hin. discriminate.
  - assert (Hlines : Str.split Str.LF
                       ("```js" +:+ Str.nl +:+ "```" +:+ Str.nl +:+ " ```")
                     = ["```js"; "```"; " ```"])
      by (vm_compute; reflexivity).
    rewrite Hlines.
    intros [|[|[|[|i]]]] line Hnth Hline; cbn in Hnth; try discriminate;
      injection Hnth as <-; vm_compute in Hline; try discriminate.
    split; vm_compute; reflexivity.
Defined.

(** The claim as it reads fails where the rules yield the empty text.
    After a bare fence and a newline the pattern matches nowhere and the
    scan keeps one line, the empty one; an empty labelled block is a
    match whose group is empty.  Both replies are answered with the
    empty text, not with the reply. *)
Lemma extract_python_code_gives_empty_text :
  Extract.re_search ("```" +:+ Str.nl) = None /\
  Extract.scan_lines ("```" +:+ Str.nl) = [EmptyString] /\
  Extract.extract_python_code ("```" +:+ Str.nl) = EmptyString /\
  Extract.extract_python_code ("```" +:+ Str.nl) <> "```" +:+ Str.nl /\
  Extract.re_search ("```python" +:+ Str.nl +:+ Str.nl +:+ "```")
  = Some EmptyString /\
  Extract.extract_python_code
    ("```python" +:+ Str.nl +:+ Str.nl +:+ "```")
  = EmptyString.
Proof.
  repeat split; try (vm_compute; reflexivity). vm_compute. discriminate.
Qed.

(** The three exits of the extractor, each with its condition. *)
Lemma extract_python_code_cases (ai_response : string) :
  match Extract.re_search ai_response, Extract.scan_lines ai_response with
  | Some group1, _ => Extract.extract_python_code ai_response = group1
  | None, [] => Extract.extract_python_code ai_response = ai_response
  | None, code_lines =>
      Extract.extract_python_code ai_response = Str.join Str.nl code_lines
  end.
Proof.
  unfold Extract.extract_python_code.
  destruct (Extract.re_search ai_response); [reflexivity|].
  destruct (Extract.scan_lines ai_response); reflexivity.
Qed.

(** ** C6: the sandbox runs the rewritten script *)

Lemma string_length_app (a b : string) :
  String.length (a +:+ b) = (String.length a + String.length b)%nat.
Proof.
  induction a as [|c a IH]; [reflexivity|].
  change (String c a +:+ b) with (String c (a +:+ b)).
  cbn [String.length]. rewrite IH. reflexivity.
Qed.

(** Where [old] occurs, there is a first occurrence. *)
Lemma first_occurrence (old s : string) :
  Str.contains old s = true ->
  exists a b,
    s = a +:+ old +:+ b /\
    forall i, (i < String.length a)%nat ->
              String.prefix old (Str.drop i (a +:+ old +:+ b)) = false.
Proof.
  induction s as [|c s IH]; intros H.
  - cbn [Str.contains] in H. rewrite orb_false_r in H.
    destruct (prefix_split _ _ H) as [rest Hrest].
    exists EmptyString, rest. split; [exact Hrest|].
    intros i Hi. cbn in Hi. lia.
  - cbn [Str.contains] in H.
    destruct (String.prefix old (String c s)) eqn:Hpre.
    + destruct (prefix_split _ _ Hpre) as [rest Hrest].
      exists EmptyString, rest. split; [exact Hrest|].
      intros i Hi. cbn in Hi. lia.
    + cbn [orb] in H. destruct (IH H) as (a & b & Hs & Hfirst).
      exists (String c a), b.
      change (String c a +:+ old +:+ b) with (String c (a +:+ old +:+ b)).
      split; [rewrite <- Hs; reflexivity|].
      intros [|i] Hi.
      * cbn [Str.drop]. rewrite <- Hs. exact Hpre.
      * cbn [Str.drop]. apply Hfirst. cbn in Hi. lia.
Qed.

(** [str.replace] replaces every occurrence. *)
Lemma replace_replaced (old new : string) :
  old <> EmptyString ->
  forall s, Replaced old new s (Str.replace s old new).
Proof.
  intros Hold s.
  remember (String.length s) as n eqn:Hn.
  revert s Hn. induction n as [n IH] using lt_wf_ind. intros s ->.
  destruct (Str.contains old s) eqn:Hocc.
  - destruct (first_occurrence old s Hocc) as (a & b & -> & Hfirst).
    rewrite (replace_first a b old new Hold Hfirst).
    apply replaced_first; [exact Hfirst|].
    apply (IH (String.length b)); [|reflexivity].
    rewrite !string_length_app. destruct old; [congruence|]. cbn. lia.
  - rewrite (replace_absent s old new Hold Hocc).
    apply replaced_none. exact Hocc.
Qed.

(** The first occurrence is one place: two splittings of a text at a
    first occurrence of [old] are the same. *)
Lemma first_occurrence_unique (old a b a' b' : string) :
  a +:+ old +:+ b = a' +:+ old +:+ b' ->
  (forall i, (i < String.length a)%nat ->
             String.prefix old (Str.drop i (a +:+ old +:+ b)) = false) ->
  (forall i, (i < String.length a')%nat ->
             String.prefix old (Str.drop i (a' +:+ old +:+ b')) = false) ->
  a = a' /\ b = b'.
Proof.
  revert a'. induction a as [|c a IH]; intros [|c' a'] Heq Hfirst Hfirst'.
  - split; [reflexivity|]. cbn in Heq.
    exact (String.app_inj old _ _ Heq).
  - exfalso. specialize (Hfirst' 0%nat ltac:(cbn; lia)).
    cbn [Str.drop] in Hfirst'. rewrite <- Heq in Hfirst'.
    change (EmptyString +:+ old +:+ b) with (old +:+ b) in Hfirst'.
    rewrite prefix_app in Hfirst'. discriminate.
  - exfalso. specialize (Hfirst 0%nat ltac:(cbn; lia)).
    cbn [Str.drop] in Hfirst. rewrite Heq in Hfirst.
    change (EmptyString +:+ old +:+ b') with (old +:+ b') in Hfirst.
    rewrite prefix_app in Hfirst. discriminate.
  - change (String c a +:+ old +:+ b = String c' a' +:+ old +:+ b')
      with (String c (a +:+ old +:+ b) = String c' (a' +:+ old +:+ b'))
      in Heq.
    injection Heq as <- Heq.
    destruct (IH a' Heq) as [<- <-].
    + intros i Hi. apply (Hfirst (S i)). cbn. lia.
    + intros i Hi. apply (Hfirst' (S i)). cbn. lia.
    + split; reflexivity.
Qed.

(** The relation leaves no choice: it gives one text. *)
Lemma Replaced_functional (old new s t1 t2 : string) :
  Replaced old new s t1 -> Replaced old new s t2 -> t1 = t2.
Proof.
  intros H1. revert t2.
  induction H1 as [s Hnone | a b t Hfirst Hrest IH]; intros t2 H2.
  - inversion H2 as [s' Hnone' | a' b' t' Hfirst' Hrest']; subst;
      [reflexivity|].
    rewrite contains_app in Hnone. discriminate.
  - inversion H2 as [s' Hnone' | a' b' t' Hfirst' Hrest' Heq]; subst.
    + rewrite contains_app in Hnone'. discriminate.
    + destruct (first_occurrence_unique old a' b' a b Heq Hfirst' Hfirst)
        as [-> ->].
      rewrite (IH t' Hrest'). reflexivity.
Qed.

Example replaced_twice : Replaced "a/b" "c" "a/b a/b" "c c".
Proof.
  apply (replaced_first "a/b" "c" "" " a/b" " c").
  - intros i Hi. cbn in Hi. lia.
  - apply (replaced_first "a/b" "c" " " "" "").
    + intros [|i] Hi; [reflexivity | cbn in Hi; lia].
    + apply replaced_none. reflexivity.
Qed.

(** Leaving an occurrence in place is not replacing. *)
Example not_replaced_when_kept :
  ~ Replaced "a/b" "c" "a/b a/b" "a/b a/b".
Proof.
  intros H.
  pose proof (Replaced_functional _ _ _ _ _ H replaced_twice) as Heq.
  discriminate.
Qed.

(** On a disk that can fail, the rewritten script is run when the two
    writes of the script file work, and nothing is run otherwise. *)
Lemma on_disk_scripts
      (D : Disk) (X : External) (code input_path output_path : string)
      (w : World) :
  scripts (snd (OnDisk.execute_python_code D X code input_path output_path w))
  = match write_failure D (ticks w) (tempfile_name X (ticks w) ".py") code,
          write_failure D (S (ticks w)) (tempfile_name X (ticks w) ".py")
                        (modified_code code input_path output_path) with
    | None, None =>
        Some (modified_code code input_path output_path) :: scripts w
    | _, _ => scripts w
    end.
Proof.
  destruct w as [f t c p s z].
  unfold OnDisk.execute_python_code, OnDisk.named_temporary_file,
    OnDisk.write_file, OnDisk.get_ticks, subprocess_run, os_path_exists,
    os_unlink.
  run.
  destruct (write_failure D t (tempfile_name X t ".py") code)
    as [[e leftover]|]; cbn; [reflexivity|].
  destruct (write_failure D (S t) (tempfile_name X t ".py") _)
    as [[e leftover]|]; cbn.
  - cases; reflexivity.
  - rewrite lookup_insert_eq.
    destruct (python X (S t) _ _) as [[proc|e] f']; cbn; cases; reflexivity.
Qed.

(** C6.  Whatever the code and the two paths, [execute_python_code] hands
    the interpreter exactly one script, and its text is the code in
    which every occurrence of '/home/user/input.jsonl' has been replaced
    by the input path and then, in what that gives, every occurrence of
    '/home/user/output.csv' by the output path: the one text that
    [Replaced] allows.  On a disk that can fail, this script is run when
    the two writes of the script file work, and nothing is run
    otherwise. *)
Theorem execute_python_code_runs_rewritten
        (D : Disk) (X : External) (code input_path output_path : string)
        (w : World) :
  exists rewritten script,
    Replaced "/home/user/input.jsonl" input_path code rewritten /\
    Replaced "/home/user/output.csv" output_path rewritten script /\
    (forall rewritten' script',
        Replaced "/home/user/input.jsonl" input_path code rewritten' ->
        Replaced "/home/user/output.csv" output_path rewritten' script' ->
        script' = script) /\
    scripts (snd (execute_python_code X code input_path output_path w))
    = Some script :: scripts w /\
    scripts (snd (OnDisk.execute_python_code D X code input_path
                    output_path w))
    = match write_failure D (ticks w) (tempfile_name X (ticks w) ".py")
                          code,
            write_failure D (S (ticks w)) (tempfile_name X (ticks w) ".py")
                          script with
      | None, None => Some script :: scripts w
      | _, _ => scripts w
      end.
Proof.
  exists (Str.replace code "/home/user/input.jsonl" input_path),
         (Str.replace
            (Str.replace code "/home/user/input.jsonl" input_path)
            "/home/user/output.csv" output_path).
  assert (Hin : Replaced "/home/user/input.jsonl" input_path code
                  (Str.replace code "/home/user/input.jsonl" input_path))
    by (apply replace_replaced; discriminate).
  assert (Hout : Replaced "/home/user/output.csv" output_path
                   (Str.replace code "/home/user/input.jsonl" input_path)
                   (Str.replace
                      (Str.replace code "/home/user/input.jsonl" input_path)
                      "/home/user/output.csv" output_path))
    by (apply replace_replaced; discriminate).
  split; [exact Hin|]. split; [exact Hout|]. split.
  { intros rewritten' script' Hin' Hout'.
    rewrite (Replaced_functional _ _ _ _ _ Hin' Hin) in Hout'.
    exact (Replaced_functional _ _ _ _ _ Hout' Hout). }
  split; [|exact (on_disk_scripts D X code input_path output_path w)].
  unfold execute_python_code, named_temporary_file, write_file,
    subprocess_run, os_path_exists, os_unlink. run.
  rewrite lookup_insert_eq.
  destruct (python X _ _ _) as [[p|e] f']; cbn; cases; reflexivity.
Qed.

(** The run of the sandbox makes no model call and posts no prompt. *)
Lemma execute_python_code_quiet
      (X : External) (code input_path output_path : string) (w : World) :
  model_calls (snd (execute_python_code X code input_path output_path w))
  = model_calls w /\
  prompts (snd (execute_python_code X code input_path output_path w))
  = prompts w.
Proof.
  unfold execute_python_code, named_temporary_file, write_file,
    subprocess_run, os_path_exists, os_unlink. run.
  rewrite lookup_insert_eq.
  destruct (python X _ _ _) as [[p|e] f']; cbn; cases; split; reflexivity.
Qed.

(** ** C5: the validator on a table with one blank column *)

(** A column has data when one of its cells is neither missing, nor the
    empty text, nor a single blank. *)
Lemma column_has_data (df : DataFrame) (column : string) :
  any (has_data df column) = true <->
  exists c, In c (series df column) /\
            c <> NaN /\ c <> Text "" /\ c <> Text " ".
Proof.
  unfold any, has_data. rewrite existsb_exists. split.
  - intros [b [Hin Hb]]. apply in_map_iff in Hin as [c [Hc Hin]].
    exists c. split; [exact Hin|]. unfold id in Hb. subst b.
    destruct c as [|t|n]; cbn in Hb; try discriminate.
    + apply andb_true_iff in Hb as [H1 H2].
      apply negb_true_iff, String.eqb_neq in H1, H2.
      repeat split; congruence.
    + repeat split; congruence.
  - intros [c [Hin [Hnan [Hempty Hblank]]]].
    exists true. split; [|reflexivity]. apply in_map_iff. exists c.
    split; [|exact Hin].
    destruct c as [|t|n]; cbn; try congruence.
    apply andb_true_iff. split; apply negb_true_iff, String.eqb_neq; congruence.
Qed.

(** C5, as the code has it.  On the artifact with columns name, age,
    city and rows ("a","30",""), ("b","","") [validate_csv] succeeds and
    its message is "Warning: The following columns contain no data:
    city", with a capital T: age has one cell with data, city has none. *)
Theorem validate_csv_blank_column
        (X : External) (output_path text : string) (w : World) :
  fs w !! output_path = Some text ->
  read_csv X text = Returned Scenario.frame ->
  validate_csv X output_path w
  = (Returned
       (true, "Warning: The following columns contain no data: city"), w).
Proof.
  intros Hfile Hread. unfold validate_csv, pd_read_csv. run.
  rewrite Hfile. cbn. rewrite Hread. reflexivity.
Qed.

Lemma validate_csv_blank_column_witness :
  fs Scenario.produced !! Scenario.output_path = Some Scenario.csv_text /\
  read_csv Scenario.working Scenario.csv_text = Returned Scenario.frame /\
  validate_csv Scenario.working Scenario.output_path Scenario.produced
  = (Returned
       (true, "Warning: The following columns contain no data: city"),
     Scenario.produced).
Proof.
  assert (Hfile : fs Scenario.produced !! Scenario.output_path
                  = Some Scenario.csv_text) by (vm_compute; reflexivity).
  assert (Hread : read_csv Scenario.working Scenario.csv_text
                  = Returned Scenario.frame) by (vm_compute; reflexivity).
  split; [exact Hfile|]. split; [exact Hread|].
  exact (validate_csv_blank_column Scenario.working Scenario.output_path
           Scenario.csv_text Scenario.produced Hfile Hread).
Defined.

(** The same message with a small t is not the one returned. *)
Lemma validate_csv_message_not_lowercase :
  fs Scenario.produced !! Scenario.output_path = Some Scenario.csv_text /\
  read_csv Scenario.working Scenario.csv_text = Returned Scenario.frame /\
  fst (validate_csv Scenario.working Scenario.output_path Scenario.produced)
  <> Returned
       (true, "Warning: the following columns contain no data: city").
Proof.
  split; [vm_compute; reflexivity|]. split; [vm_compute; reflexivity|].
  vm_compute. discriminate.
Qed.

(** ** One attempt *)

(** A call of the model client returns (it never raises), counts as one
    model call, posts at most one prompt, and that prompt is the one
    built from its arguments. *)
Lemma call_ai_model_run (X : External) (cfg : Config.t)
      (prompt jsonl_sample : string) (error_message project_id : option string)
      (w : World) :
  exists reply w',
    call_ai_model X cfg prompt jsonl_sample error_message project_id w
    = (Returned reply, w') /\
    model_calls w' = S (model_calls w) /\
    (prompts w' = prompts w \/
     prompts w' = full_prompt prompt jsonl_sample error_message :: prompts w).
Proof.
  unfold call_ai_model, get_access_token. run.
  destruct (truthy (access_token X (ticks w))); cbn; eauto 6.
Qed.

(** What one attempt does to the counters: one model call, at most one
    prompt, the one built from the arguments of the attempt. *)
Lemma generate_and_execute_body_counts (X : External) (cfg : Config.t)
      (input_path output_path prompt first_line : string)
      (previous_error project_id : option string) (w : World) :
  let w' := snd (generate_and_execute_body X cfg input_path output_path prompt
                   first_line previous_error project_id w) in
  model_calls w' = S (model_calls w) /\
  (prompts w' = prompts w \/
   prompts w' = full_prompt prompt first_line previous_error :: prompts w).
Proof.
  cbv zeta. unfold generate_and_execute_body, bind.
  destruct (call_ai_model_run X cfg prompt first_line previous_error
              project_id w) as (reply & w1 & Hcall & Hcalls & Hprompts).
  rewrite Hcall.
  destruct reply as [[|c generated]|]; cbn; [auto| |auto].
  destruct (execute_python_code_quiet X
              (Extract.extract_python_code (String c generated))
              input_path output_path w1) as [Hq1 Hq2].
  destruct (execute_python_code X _ input_path output_path w1)
    as [[[ok msg]|e] w2]; cbn in *; [|rewrite Hq1, Hq2; auto].
  rewrite os_path_exists_run.
  destruct (ok && bool_decide (is_Some (fs w2 !! output_path))); cbn.
  - destruct (validate_csv_run X output_path w2) as [[v m] Hv].
    rewrite Hv. cbn. rewrite Hq1, Hq2. auto.
  - rewrite Hq1, Hq2. auto.
Qed.

(** The tuple an attempt returns reports a valid artifact only after a
    successful execution that left the artifact. *)
Lemma generate_and_execute_body_result (X : External) (cfg : Config.t)
      (input_path output_path prompt first_line : string)
      (previous_error project_id : option string)
      (w w' : World) (result : LoopResult) :
  generate_and_execute_body X cfg input_path output_path prompt first_line
                            previous_error project_id w
  = (Returned result, w') ->
  validation_success result = true ->
  success result = true /\ output_exists result = true.
Proof.
  unfold generate_and_execute_body, bind.
  destruct (call_ai_model X cfg prompt first_line previous_error project_id w)
    as [[reply|e] w1]; [|discriminate].
  destruct reply as [[|c generated]|]; cbn.
  - intros [= <- _]. discriminate.
  - destruct (execute_python_code X _ input_path output_path w1)
      as [[[ok msg]|e] w2]; cbn; [|discriminate].
    rewrite os_path_exists_run.
    destruct (ok && bool_decide (is_Some (fs w2 !! output_path))) eqn:Hboth;
      cbn.
    + destruct (validate_csv X output_path w2) as [[[v m]|e] w3]; cbn;
        [|discriminate].
      intros [= <- _] _. cbn. apply andb_true_iff in Hboth. exact Hboth.
    + intros [= <- _]. discriminate.
  - intros [= <- _]. discriminate.
Qed.

(** ** The retry loop *)

(** The first attempt of a call under the decorator decides what comes
    next. *)
Lemma retrying_unfold (more : nat) (wait : Z) (p : LoopResult -> bool)
      (fn : M LoopResult) (w : World) :
  retrying more wait p fn w
  = match fn w with
    | (Raised e, w') => (Raised e, w')
    | (Returned result, w') =>
        if p result then
          match more with
          | O => (Raised (RetryError result), w')
          | S k => retrying k wait p fn (snd (sleep wait w'))
          end
        else (Returned result, w')
    end.
Proof. destruct more; reflexivity. Qed.

(** What the decorated call returns normally is a result the retry
    predicate rejects, and it is the result of one of its attempts. *)
Lemma retrying_returned (more : nat) (wait : Z) (p : LoopResult -> bool)
      (fn : M LoopResult) (w w' : World) (result : LoopResult) :
  retrying more wait p fn w = (Returned result, w') ->
  p result = false /\ exists w0, fn w0 = (Returned result, w').
Proof.
  revert w. induction more as [|k IH]; intros w; rewrite retrying_unfold;
    destruct (fn w) as [[r|e] w1] eqn:Hfn; try discriminate;
    destruct (p r) eqn:Hp; try discriminate.
  - intros [= <- <-]. eauto.
  - intros H. exact (IH _ H).
  - intros [= <- <-]. eauto.
Qed.

(** When every attempt returns a result the predicate accepts (a
    failure), the decorated call ends with [RetryError]. *)
Lemma retrying_exhausted (more : nat) (wait : Z) (p : LoopResult -> bool)
      (fn : M LoopResult) (w : World) :
  (forall w0 e w1, fn w0 <> (Raised e, w1)) ->
  (forall w0 r w1, fn w0 = (Returned r, w1) -> p r = true) ->
  exists last w', retrying more wait p fn w = (Raised (RetryError last), w').
Proof.
  intros Hnoraise Hfail. revert w.
  induction more as [|k IH]; intros w; rewrite retrying_unfold;
    destruct (fn w) as [[r|e] w1] eqn:Hfn;
    try (exfalso; exact (Hnoraise _ _ _ Hfn));
    rewrite (Hfail _ _ _ Hfn); eauto.
Qed.

(** The counters over the whole loop: a call under the decorator makes
    at most [more + 1] attempts. *)
Lemma retrying_counts (more : nat) (wait : Z) (p : LoopResult -> bool)
      (fn : M LoopResult) (prompt : string) (w : World) :
  (forall w0, model_calls (snd (fn w0)) = S (model_calls w0) /\
              (prompts (snd (fn w0)) = prompts w0 \/
               prompts (snd (fn w0)) = prompt :: prompts w0)) ->
  exists calls posted,
    (1 <= calls <= S more)%nat /\ (posted <= calls)%nat /\
    model_calls (snd (retrying more wait p fn w))
    = (model_calls w + calls)%nat /\
    prompts (snd (retrying more wait p fn w))
    = repeat prompt posted ++ prompts w.
Proof.
  intros Hfn. revert w. induction more as [|k IH]; intros w.
  - assert (Hone : exists calls posted,
               (1 <= calls <= 1)%nat /\ (posted <= calls)%nat /\
               model_calls (snd (fn w)) = (model_calls w + calls)%nat /\
               prompts (snd (fn w)) = repeat prompt posted ++ prompts w).
    { destruct (Hfn w) as [Hc [Hp | Hp]].
      - exists 1%nat, 0%nat. rewrite Hc, Hp. repeat split; lia.
      - exists 1%nat, 1%nat. rewrite Hc, Hp. repeat split; lia. }
    rewrite retrying_unfold. destruct (fn w) as [[r|e] w1]; [|exact Hone].
    destruct (p r); exact Hone.
  - rewrite retrying_unfold. destruct (Hfn w) as [Hc Hp].
    destruct (fn w) as [[r|e] w1]; cbn [snd] in Hc, Hp.
    2: { destruct Hp as [Hp | Hp].
         - exists 1%nat, 0%nat. cbn [snd]. rewrite Hc, Hp.
           repeat split; lia.
         - exists 1%nat, 1%nat. cbn [snd]. rewrite Hc, Hp.
           repeat split; lia. }
    destruct (p r).
    + destruct (IH (snd (sleep wait w1)))
        as (calls & posted & Hrange & Hle & Hcalls & Hposted).
      rewrite Hcalls, Hposted.
      change (model_calls (snd (sleep wait w1))) with (model_calls w1).
      change (prompts (snd (sleep wait w1))) with (prompts w1).
      rewrite Hc. destruct Hp as [Hp | Hp]; rewrite Hp.
      * exists (S calls), posted. repeat split; lia.
      * exists (S calls), (S posted). repeat split; try lia.
        cbn [repeat]. rewrite repeat_cons, <- app_assoc. reflexivity.
    + destruct Hp as [Hp | Hp].
      * exists 1%nat, 0%nat. cbn [snd]. rewrite Hc, Hp. repeat split; lia.
      * exists 1%nat, 1%nat. cbn [snd]. rewrite Hc, Hp. repeat split; lia.
Qed.

(** What the decorated [generate_and_execute] returns normally is never
    a failure: a failing last attempt does not come back as a value. *)
Lemma generate_and_execute_returns_success (X : External) (cfg : Config.t)
      (input_path output_path prompt first_line : string)
      (previous_error project_id : option string)
      (w w' : World) (result : LoopResult) :
  generate_and_execute X cfg input_path output_path prompt first_line
                       previous_error project_id w
  = (Returned result, w') ->
  success result = true /\ validation_success result = true /\
  output_exists result = true.
Proof.
  unfold generate_and_execute, retry. intros H.
  apply retrying_returned in H as [H _]. unfold is_failure_result in H.
  destruct (success result), (validation_success result),
    (output_exists result); cbn in H; try discriminate; auto.
Qed.

(** Every prompt a run of [generate_and_execute] posts is built from the
    [previous_error] the caller passed: the attempts do not change it. *)
Lemma generate_and_execute_prompts (X : External) (cfg : Config.t)
      (input_path output_path prompt first_line : string)
      (previous_error project_id : option string) (w : World) :
  exists posted,
    prompts (snd (generate_and_execute X cfg input_path output_path prompt
                    first_line previous_error project_id w))
    = repeat (full_prompt prompt first_line previous_error) posted
      ++ prompts w.
Proof.
  unfold generate_and_execute, retry.
  destruct (retrying_counts (Z.to_nat (Config.MAX_RETRY_ATTEMPTS cfg - 1)) 2
              is_failure_result
              (generate_and_execute_body X cfg input_path output_path prompt
                 first_line previous_error project_id)
              (full_prompt prompt first_line previous_error) w)
    as (calls & posted & _ & _ & _ & Hposted).
  - intros w0. apply generate_and_execute_body_counts.
  - exists posted. exact Hposted.
Qed.

(** ** C1: the loop after the last failed attempt *)

(** C1, on the code.  With the default cap of three attempts and a child
    that exits with status 1 and "boom" on its error stream every time,
    [generate_and_execute] makes its three model calls and then does not
    return the tuple of the last attempt: it raises tenacity's
    [RetryError], which holds that tuple. *)
Theorem generate_and_execute_exhausted_raises :
  fst (generate_and_execute Scenario.failing Scenario.cfg
         Scenario.input_path Scenario.output_path Scenario.prompt
         Scenario.first_line None None Scenario.world)
  = Raised (RetryError
              (mkResult (Some Scenario.script) false "boom" false false)) /\
  model_calls (snd (generate_and_execute Scenario.failing Scenario.cfg
                      Scenario.input_path Scenario.output_path
                      Scenario.prompt Scenario.first_line None None
                      Scenario.world))
  = 3%nat.
Proof. split; vm_compute; reflexivity. Qed.

(** ** C2: what the next attempt is told *)

(** C2, on the code.  In the same run the first attempt fails with
    "boom", and the three prompts posted are one and the same text, the
    one built without an error message: the prompt that carries the
    feedback clause for "boom" is never posted. *)
Theorem generate_and_execute_no_feedback :
  prompts (snd (generate_and_execute Scenario.failing Scenario.cfg
                  Scenario.input_path Scenario.output_path Scenario.prompt
                  Scenario.first_line None None Scenario.world))
  = repeat (full_prompt Scenario.prompt Scenario.first_line None) 3 /\
  full_prompt Scenario.prompt Scenario.first_line None
  <> full_prompt Scenario.prompt Scenario.first_line (Some "boom") /\
  Str.contains "Previous attempt failed"
               (full_prompt Scenario.prompt Scenario.first_line None)
  = false.
Proof.
  split; [vm_compute; reflexivity|]. split; [|vm_compute; reflexivity].
  vm_compute. discriminate.
Qed.

(** ** C3: when the loop goes on *)

(** C3.  The retry predicate is the negation of (execution succeeded and
    artifact exists and validation succeeded).  After an attempt that
    returned [result], the loop returns [result] at once, in the world
    that attempt left, when the three hold; otherwise it sleeps and makes
    the next attempt if one remains, and stops if none does. *)
Theorem retry_exactly_on_failure (X : External) (cfg : Config.t)
        (input_path output_path prompt first_line : string)
        (previous_error project_id : option string)
        (more : nat) (w w1 : World) (result : LoopResult) :
  generate_and_execute_body X cfg input_path output_path prompt first_line
                            previous_error project_id w
  = (Returned result, w1) ->
  is_failure_result result
  = negb (success result && output_exists result
          && validation_success result) /\
  retrying more 2 is_failure_result
           (generate_and_execute_body X cfg input_path output_path prompt
              first_line previous_error project_id) w
  = (if success result && output_exists result && validation_success result
     then (Returned result, w1)
     else match more with
          | S k =>
              retrying k 2 is_failure_result
                (generate_and_execute_body X cfg input_path output_path
                   prompt first_line previous_error project_id)
                (snd (sleep 2 w1))
          | O => (Raised (RetryError result), w1)
          end) /\
  generate_and_execute X cfg input_path output_path prompt first_line
                       previous_error project_id
  = retrying (Z.to_nat (Config.MAX_RETRY_ATTEMPTS cfg - 1)) 2
             is_failure_result
             (generate_and_execute_body X cfg input_path output_path prompt
                first_line previous_error project_id).
Proof.
  intros Hbody.
  assert (Hp : is_failure_result result
               = negb (success result && output_exists result
                       && validation_success result)).
  { unfold is_failure_result.
    destruct (success result), (output_exists result),
      (validation_success result); reflexivity. }
  split; [exact Hp|]. split; [|reflexivity].
  rewrite retrying_unfold, Hbody, Hp.
  destruct (success result && output_exists result
            && validation_success result); reflexivity.
Qed.

Lemma retry_exactly_on_failure_witness :
  exists result w1,
    generate_and_execute_body Scenario.working Scenario.cfg
      Scenario.input_path Scenario.output_path Scenario.prompt
      Scenario.first_line None None Scenario.world
    = (Returned result, w1) /\
    retrying 2 2 is_failure_result
      (generate_and_execute_body Scenario.working Scenario.cfg
         Scenario.input_path Scenario.output_path Scenario.prompt
         Scenario.first_line None None) Scenario.world
    = (Returned result, w1).
Proof.
  exists (mkResult (Some Scenario.script) true "done" true true).
  eexists.
  assert (Hbody : generate_and_execute_body Scenario.working Scenario.cfg
            Scenario.input_path Scenario.output_path Scenario.prompt
            Scenario.first_line None None Scenario.world
          = (Returned (mkResult (Some Scenario.script) true "done" true true),
             snd (generate_and_execute_body Scenario.working Scenario.cfg
                    Scenario.input_path Scenario.output_path Scenario.prompt
                    Scenario.first_line None None Scenario.world)))
    by (vm_compute; reflexivity).
  split; [exact Hbody|].
  exact (proj1 (proj2 (retry_exactly_on_failure Scenario.working Scenario.cfg
                         Scenario.input_path Scenario.output_path
                         Scenario.prompt Scenario.first_line None None
                         2%nat Scenario.world _ _ Hbody))).
Defined.

(** ** C4: the cap on model calls *)

(** C4.  The cap is read from the environment, 3 when
    MAX_RETRY_ATTEMPTS is not set and the integer it spells when it is.
    With a cap of at least one, a call of [generate_and_execute] makes at
    most that many model calls, and posts at most that many prompts. *)
Theorem model_calls_bounded (X : External) (env : string -> option string)
        (cfg : Config.t)
        (input_path output_path prompt first_line : string)
        (previous_error project_id : option string) (w : World) :
  Config.load env = Some cfg ->
  1 <= Config.MAX_RETRY_ATTEMPTS cfg ->
  let w' := snd (generate_and_execute X cfg input_path output_path prompt
                   first_line previous_error project_id w) in
  Z.of_nat (model_calls w') - Z.of_nat (model_calls w)
  <= Config.MAX_RETRY_ATTEMPTS cfg /\
  Z.of_nat (length (prompts w')) - Z.of_nat (length (prompts w))
  <= Config.MAX_RETRY_ATTEMPTS cfg /\
  match env "MAX_RETRY_ATTEMPTS" with
  | None => Config.MAX_RETRY_ATTEMPTS cfg = 3
  | Some text => Config.int_of_str text = Some (Config.MAX_RETRY_ATTEMPTS cfg)
  end.
Proof.
  intros Hload Hcap. cbv zeta. unfold generate_and_execute, retry.
  destruct (retrying_counts (Z.to_nat (Config.MAX_RETRY_ATTEMPTS cfg - 1)) 2
              is_failure_result
              (generate_and_execute_body X cfg input_path output_path prompt
                 first_line previous_error project_id)
              (full_prompt prompt first_line previous_error) w)
    as (calls & posted & Hrange & Hle & Hcalls & Hposted).
  { intros w0. apply generate_and_execute_body_counts. }
  rewrite Hcalls, Hposted, length_app, repeat_length.
  split; [lia|]. split; [lia|].
  unfold Config.load, Config.getenv in Hload.
  destruct (Config.int_of_str
              (default "3600" (env "SIGNED_URL_EXPIRATION")));
    [|discriminate].
  cbn in Hload.
  destruct (env "MAX_RETRY_ATTEMPTS") as [text|]; cbn in Hload.
  - destruct (Config.int_of_str text) as [attempts|]; [|discriminate].
    cbn in Hload.
    destruct (Config.int_of_str (default "300" (env "REQUEST_TIMEOUT")));
      [|discriminate].
    cbn in Hload. injection Hload as <-. reflexivity.
  - destruct (Config.int_of_str (default "300" (env "REQUEST_TIMEOUT")));
      [|discriminate].
    cbn in Hload. injection Hload as <-. reflexivity.
Qed.

Lemma model_calls_bounded_witness :
  Config.load Scenario.env = Some Scenario.cfg /\
  1 <= Config.MAX_RETRY_ATTEMPTS Scenario.cfg /\
  Z.of_nat
    (model_calls
       (snd (generate_and_execute Scenario.failing Scenario.cfg
               Scenario.input_path Scenario.output_path Scenario.prompt
               Scenario.first_line None None Scenario.world)))
  - Z.of_nat (model_calls Scenario.world)
  <= Config.MAX_RETRY_ATTEMPTS Scenario.cfg.
Proof.
  assert (Hload : Config.load Scenario.env = Some Scenario.cfg)
    by (vm_compute; reflexivity).
  assert (Hcap : 1 <= Config.MAX_RETRY_ATTEMPTS Scenario.cfg)
    by (simpl; lia).
  split; [exact Hload|]. split; [exact Hcap|].
  exact (proj1 (model_calls_bounded Scenario.failing Scenario.env
                  Scenario.cfg Scenario.input_path Scenario.output_path
                  Scenario.prompt Scenario.first_line None None
                  Scenario.world Hload Hcap)).
Defined.

(** With a cap below one the loop still makes its first attempt: the
    bound needs the cap to be at least one. *)
Example one_call_under_cap_zero :
  model_calls
    (snd (retry 0 2 is_failure_result
            (generate_and_execute_body Scenario.silent Scenario.cfg
               Scenario.input_path Scenario.output_path Scenario.prompt
               Scenario.first_line None None) Scenario.world))
  = 1%nat.
Proof. vm_compute. reflexivity. Qed.

(** ** C9: validation implies execution and artifact *)

(** C9.  In a tuple that an attempt, or the decorated
    [generate_and_execute], returns, validation is reported successful
    only together with a successful execution and an existing artifact. *)
Theorem validation_implies_execution (X : External) (cfg : Config.t)
        (input_path output_path prompt first_line : string)
        (previous_error project_id : option string)
        (w w' : World) (result : LoopResult) :
  generate_and_execute_body X cfg input_path output_path prompt first_line
                            previous_error project_id w
  = (Returned result, w') \/
  generate_and_execute X cfg input_path output_path prompt first_line
                       previous_error project_id w
  = (Returned result, w') ->
  validation_success result = true ->
  success result = true /\ output_exists result = true.
Proof.
  intros [Hbody | Hloop] Hvalid.
  - exact (generate_and_execute_body_result X cfg input_path output_path
             prompt first_line previous_error project_id w w' result
             Hbody Hvalid).
  - unfold generate_and_execute, retry in Hloop.
    apply retrying_returned in Hloop as [_ [w0 Hbody]].
    exact (generate_and_execute_body_result X cfg input_path output_path
             prompt first_line previous_error project_id w0 w' result
             Hbody Hvalid).
Qed.

Lemma validation_implies_execution_witness :
  exists result w',
    generate_and_execute Scenario.working Scenario.cfg
      Scenario.input_path Scenario.output_path Scenario.prompt
      Scenario.first_line None None Scenario.world
    = (Returned result, w') /\
    validation_success result = true /\
    success result = true /\ output_exists result = true.
Proof.
  exists (mkResult (Some Scenario.script) true "done" true true).
  eexists.
  assert (Hloop : generate_and_execute Scenario.working Scenario.cfg
            Scenario.input_path Scenario.output_path Scenario.prompt
            Scenario.first_line None None Scenario.world
          = (Returned (mkResult (Some Scenario.script) true "done" true true),
             snd (generate_and_execute Scenario.working Scenario.cfg
                    Scenario.input_path Scenario.output_path Scenario.prompt
                    Scenario.first_line None None Scenario.world)))
    by (vm_compute; reflexivity).
  split; [exact Hloop|]. split; [reflexivity|].
  exact (validation_implies_execution Scenario.working Scenario.cfg
           Scenario.input_path Scenario.output_path Scenario.prompt
           Scenario.first_line None None Scenario.world _ _
           (or_intror Hloop) eq_refl).
Defined.

(** ** C10: an expiration that is not an integer *)




(** ** C8: the temporary files after the response is assembled *)

(** Assembling the response never raises and touches no file; with an
    upload that fails the response carries no [gcs_path]. *)
Lemma assemble_response_run (X : External)
      (output_path gcs_bucket gcs_folder_path original_filename : string)
      (signed_url_expiration : Z) (result : LoopResult) (w : World) :
  exists response w',
    assemble_response X output_path gcs_bucket gcs_folder_path
                      original_filename signed_url_expiration result w
    = (Returned response, w') /\
    fs w' = fs w /\
    ((forall t l b d, upload_error X t l b d <> None) ->
     dict_get "gcs_path" response = None).
Proof.
  unfold assemble_response.
  destruct (success result && validation_success result
            && output_exists result).
  - unfold bind at 1.
    destruct (validate_csv_run X output_path w) as [[v m] Hv]. rewrite Hv.
    unfold pd_read_csv, upload_to_gcs, generate_signed_url. run.
    destruct (fs w !! output_path) as [text|]; cbn; [|eauto 6].
    destruct (read_csv X text) as [df|e]; cbn; [|eauto 6].
    destruct (upload_error X (ticks w) output_path gcs_bucket
                (gcs_folder_path +:+ original_filename +:+ ".csv"))
      as [e|] eqn:Hup; cbn; [eauto 6|].
    destruct (signed_url X (S (ticks w)) gcs_bucket
                (gcs_folder_path +:+ original_filename +:+ ".csv")
                signed_url_expiration); cbn;
      (do 2 eexists; split; [reflexivity|]; split; [reflexivity|];
       intros Hfail; exfalso; exact (Hfail _ _ _ _ Hup)).
  - destruct (validation_success result); cbn.
    + run. eauto 6.
    + destruct (output_exists result); cbn.
      * unfold bind.
        destruct (validate_csv_run X output_path w) as [[v m] Hv].
        rewrite Hv. cbn. eauto 6.
      * run. eauto 6.
Qed.

(** The cleanup never raises.  When no unlink fails it removes the input
    file, and the output file exactly when the response carries a
    [gcs_path]. *)
Lemma cleanup_run (X : External) (input_path output_path : string)
      (response : list (string * pyval)) (w : World) :
  exists w',
    cleanup X input_path output_path response w = (Returned tt, w') /\
    ((forall t path, unlink_error X t path = None) ->
     fs w' = if pyval_truthy (dict_get "gcs_path" response)
             then delete output_path (delete input_path (fs w))
             else delete input_path (fs w)).
Proof.
  destruct w as [f t c p s z].
  unfold cleanup, os_path_exists, os_unlink. run.
  destruct (f !! input_path) as [text|] eqn:Hin; known.
  - destruct (unlink_error X t input_path) as [e|] eqn:Hun; known.
    { eexists. split; [reflexivity|]. intros Hok.
      rewrite Hok in Hun. discriminate. }
    destruct (delete input_path f !! output_path) as [out|] eqn:Hout; known.
    + destruct (pyval_truthy (dict_get "gcs_path" response)); known.
      * destruct (unlink_error X (S t) output_path) as [e|] eqn:Hun';
          known; eexists; (split; [reflexivity|]); intros Hok.
        -- rewrite Hok in Hun'. discriminate.
        -- reflexivity.
      * eauto.
    + eexists. split; [reflexivity|]. intros _. cbn.
      rewrite (delete_id _ _ Hout).
      destruct (pyval_truthy (dict_get "gcs_path" response)); reflexivity.
  - rewrite (delete_id _ _ Hin).
    destruct (f !! output_path) as [out|] eqn:Hout; known.
    + destruct (pyval_truthy (dict_get "gcs_path" response)); known.
      * destruct (unlink_error X t output_path) as [e|] eqn:Hun';
          known; eexists; (split; [reflexivity|]); intros Hok.
        -- rewrite Hok in Hun'. discriminate.
        -- reflexivity.
      * eauto.
    + eexists. split; [reflexivity|]. intros _. cbn.
      rewrite (delete_id _ _ Hout).
      destruct (pyval_truthy (dict_get "gcs_path" response)); reflexivity.
Qed.

(** C8, as the code has it.  Once [generate_and_execute] has returned,
    the handler answers with the response it assembled, whatever happens
    in the cleanup.  When no unlink fails the input file is gone
    afterwards, and the output file is gone exactly when the response
    carries a [gcs_path]; a response built after a failed upload carries
    none, so the output file is then left where it is. *)
Theorem cleanup_after_assembly (X : External) (cfg : Config.t)
        (run_id input_path output_path prompt first_line : string)
        (project_id : option string)
        (gcs_bucket gcs_folder_path original_filename : string)
        (signed_url_expiration : Z) (w w1 : World) (result : LoopResult) :
  generate_and_execute X cfg input_path output_path prompt first_line None
                       project_id w
  = (Returned result, w1) ->
  exists response w3,
    fst (assemble_response X output_path gcs_bucket gcs_folder_path
           original_filename signed_url_expiration result w1)
    = Returned response /\
    convert X cfg run_id input_path output_path prompt first_line project_id
            gcs_bucket gcs_folder_path original_filename
            signed_url_expiration w
    = (Returned (jsonify response), w3) /\
    ((forall t l b d, upload_error X t l b d <> None) ->
     dict_get "gcs_path" response = None) /\
    ((forall t path, unlink_error X t path = None) ->
     fs w3 = if pyval_truthy (dict_get "gcs_path" response)
             then delete output_path (delete input_path (fs w1))
             else delete input_path (fs w1)).
Proof.
  intros Hloop.
  destruct (assemble_response_run X output_path gcs_bucket gcs_folder_path
              original_filename signed_url_expiration result w1)
    as (response & w2 & Hassemble & Hfiles & Hupload).
  destruct (cleanup_run X input_path output_path response w2)
    as (w3 & Hcleanup & Hunlink).
  exists response, w3.
  split; [rewrite Hassemble; reflexivity|].
  split; [|split; [exact Hupload|]].
  - unfold convert, try_except, bind. rewrite Hloop, Hassemble, Hcleanup.
    reflexivity.
  - intros Hok. rewrite (Hunlink Hok), Hfiles. reflexivity.
Qed.

Lemma cleanup_after_assembly_witness :
  exists result w1 response w3,
    generate_and_execute Scenario.working Scenario.cfg Scenario.input_path
      Scenario.output_path Scenario.prompt Scenario.first_line None None
      Scenario.world
    = (Returned result, w1) /\
    Scenario.handle Scenario.working = (Returned (jsonify response), w3) /\
    dict_get "gcs_path" response
    = Some (VStr "gs://demo-bucket/20240101093000_1f2e3d4c/intermediatecsv/records.csv").
Proof.
  exists (mkResult (Some Scenario.script) true "done" true true).
  eexists.
  assert (Hloop : generate_and_execute Scenario.working Scenario.cfg
            Scenario.input_path Scenario.output_path Scenario.prompt
            Scenario.first_line None None Scenario.world
          = (Returned (mkResult (Some Scenario.script) true "done" true true),
             snd (generate_and_execute Scenario.working Scenario.cfg
                    Scenario.input_path Scenario.output_path Scenario.prompt
                    Scenario.first_line None None Scenario.world)))
    by (vm_compute; reflexivity).
  destruct (cleanup_after_assembly Scenario.working Scenario.cfg
              Scenario.run_id Scenario.input_path Scenario.output_path
              Scenario.prompt Scenario.first_line None "demo-bucket"
              "20240101093000_1f2e3d4c/intermediatecsv/" "records" 3600
              Scenario.world _ _ Hloop)
    as (response & w3 & Hassemble & Hconvert & _ & _).
  exists response, w3.
  split; [exact Hloop|]. split; [exact Hconvert|].
  assert (Hresponse :
            fst (assemble_response Scenario.working Scenario.output_path
                   "demo-bucket" "20240101093000_1f2e3d4c/intermediatecsv/"
                   "records" 3600
                   (mkResult (Some Scenario.script) true "done" true true)
                   (snd (generate_and_execute Scenario.working Scenario.cfg
                           Scenario.input_path Scenario.output_path
                           Scenario.prompt Scenario.first_line None None
                           Scenario.world)))
            = Returned
                [("gcs_path",
                  VStr "gs://demo-bucket/20240101093000_1f2e3d4c/intermediatecsv/records.csv");
                 ("signed_url",
                  VStr "https://storage.googleapis.com/demo-bucket/20240101093000_1f2e3d4c/intermediatecsv/records.csv?X-Goog-Signature=00");
                 ("signed_url_expiration_seconds", VInt 3600)])
    by (vm_compute; reflexivity).
  rewrite Hresponse in Hassemble. injection Hassemble as <-. reflexivity.
Defined.

(** The upload is refused: the request is answered with the assembled
    response, the input file is removed, and the output file is still
    there. *)
Lemma output_kept_when_upload_refused :
  fst (Scenario.handle Scenario.upload_refused)
  = Returned (jsonify [("gcs_error", VStr "403 Forbidden")]) /\
  fs (snd (Scenario.handle Scenario.upload_refused)) !! Scenario.input_path
  = None /\
  fs (snd (Scenario.handle Scenario.upload_refused)) !! Scenario.output_path
  = Some Scenario.csv_text.
Proof. repeat split; vm_compute; reflexivity. Qed.

(** The input file cannot be removed: the response is the one of the
    run where it can, and both files stay. *)
Example response_kept_when_unlink_refused :
  fst (Scenario.handle Scenario.unlink_refused)
  = fst (Scenario.handle Scenario.working) /\
  fs (snd (Scenario.handle Scenario.unlink_refused)) !! Scenario.input_path
  <> None /\
  fs (snd (Scenario.handle Scenario.unlink_refused)) !! Scenario.output_path
  <> None.
Proof. repeat split; vm_compute; discriminate || reflexivity. Qed.

(** When every attempt fails the handler never reaches the assembly: the
    [RetryError] of the loop goes to the handler's [except], which
    answers 500. *)
Example handler_after_exhaustion :
  fst (Scenario.handle Scenario.failing)
  = Returned
      (mkResponse
         [("error",
           VStr "All retry attempts failed with unexpected error: RetryError[<Future state=finished returned tuple>]");
          ("success", VBool false);
          ("run_id", VStr Scenario.run_id)]
         500).
Proof. vm_compute. reflexivity. Qed.

(** * Further properties *)

(** ** The validator *)

(** The verdict flag after the columns have been gone through: it stays
    up exactly when no column has data. *)
Lemma validate_column_flag (df : DataFrame) (cols : list string)
      (status : list (string * bool)) (flag : bool) :
  snd (fold_left (validate_column df) cols (status, flag))
  = flag && negb (existsb (fun c => any (has_data df c)) cols).
Proof.
  revert status flag. induction cols as [|c cols IH]; intros status flag.
  - cbn. rewrite andb_true_r. reflexivity.
  - cbn [fold_left validate_column existsb]. rewrite IH.
    destruct (any (has_data df c)), flag; reflexivity.
Qed.

(** A key that the dict does not hold yet goes to its end. *)
Lemma dict_set_fresh {V} (key : string) (value : V) (d : list (string * V)) :
  ~ In key (map fst d) -> dict_set key value d = d ++ [(key, value)].
Proof.
  induction d as [|[k v] d IH]; intros Hfresh; [reflexivity|].
  cbn in *. destruct (String.eqb_spec k key) as [->|_].
  - exfalso. apply Hfresh. left. reflexivity.
  - rewrite IH; [reflexivity|]. intros Hin. apply Hfresh. right. exact Hin.
Qed.

(** With distinct column names the status dict holds the columns in
    their order, each with its own answer. *)
Lemma validate_column_status (df : DataFrame) (cols : list string)
      (status : list (string * bool)) (flag : bool) :
  List.NoDup (map fst status ++ cols) ->
  fst (fold_left (validate_column df) cols (status, flag))
  = status ++ map (fun c => (c, any (has_data df c))) cols.
Proof.
  revert status flag. induction cols as [|c cols IH]; intros status flag Hnd.
  - cbn. rewrite app_nil_r. reflexivity.
  - cbn [fold_left validate_column map].
    assert (Hfresh : ~ In c (map fst status)).
    { apply NoDup_remove_2 in Hnd. intros Hin. apply Hnd.
      apply in_or_app. left. exact Hin. }
    rewrite (dict_set_fresh _ _ _ Hfresh), IH.
    + rewrite <- app_assoc. reflexivity.
    + rewrite map_app. cbn. rewrite <- app_assoc. exact Hnd.
Qed.

(** X1.  A table with no row, or with no column, is refused as empty,
    whatever its header. *)
Theorem validate_csv_empty_table
        (X : External) (output_path text : string) (df : DataFrame)
        (w : World) :
  fs w !! output_path = Some text ->
  read_csv X text = Returned df ->
  columns df = [] \/ rows df = [] ->
  validate_csv X output_path w = (Returned (false, "CSV file is empty"), w).
Proof.
  intros Hfile Hread Hempty. unfold validate_csv, pd_read_csv. run.
  rewrite Hfile. cbn. rewrite Hread. cbn. unfold validate_frame, df_empty.
  destruct Hempty as [-> | ->]; [reflexivity|].
  destruct (columns df); reflexivity.
Qed.

Lemma validate_csv_empty_table_witness :
  validate_csv (Cases.with_reader Scenario.working
                  (fun _ => Returned Cases.header_only))
               Scenario.output_path Scenario.produced
  = (Returned (false, "CSV file is empty"), Scenario.produced).
Proof.
  apply (validate_csv_empty_table _ _ Scenario.csv_text Cases.header_only).
  - vm_compute. reflexivity.
  - reflexivity.
  - right. reflexivity.
Defined.

(** X2.  On a table with rows and columns the validator succeeds exactly
    when some column has a cell with data; when none has, it fails with
    "All columns in CSV contain no data". *)
Theorem validate_csv_verdict
        (X : External) (output_path text : string) (df : DataFrame)
        (w : World) :
  fs w !! output_path = Some text ->
  read_csv X text = Returned df ->
  df_empty df = false ->
  exists note,
    validate_csv X output_path w
    = (Returned (existsb (fun c => any (has_data df c)) (columns df), note),
       w) /\
    (existsb (fun c => any (has_data df c)) (columns df) = false ->
     note = "All columns in CSV contain no data").
Proof.
  intros Hfile Hread Hrows. unfold validate_csv, pd_read_csv. run.
  rewrite Hfile. cbn. rewrite Hread. cbn. unfold validate_frame.
  rewrite Hrows.
  pose proof (validate_column_flag df (columns df) [] true) as Hflag.
  destruct (fold_left (validate_column df) (columns df) ([], true))
    as [status flag]. cbn in Hflag. subst flag.
  destruct (existsb (fun c => any (has_data df c)) (columns df)); cbn.
  - destruct (map fst (List.filter (fun item => negb (snd item)) status));
      eexists; split; try reflexivity; discriminate.
  - eexists. split; reflexivity.
Qed.

Lemma validate_csv_verdict_witness :
  validate_csv (Cases.with_reader Scenario.working
                  (fun _ => Returned Cases.all_blank))
               Scenario.output_path Scenario.produced
  = (Returned (false, "All columns in CSV contain no data"),
     Scenario.produced).
Proof.
  destruct (validate_csv_verdict
              (Cases.with_reader Scenario.working
                 (fun _ => Returned Cases.all_blank))
              Scenario.output_path Scenario.csv_text Cases.all_blank
              Scenario.produced)
    as (note & Hrun & Hnote).
  - vm_compute. reflexivity.
  - reflexivity.
  - reflexivity.
  - rewrite Hrun, (Hnote eq_refl). reflexivity.
Defined.

(** X3.  With distinct column names, a table in which some column has
    data is accepted; the message names the columns without data, in the
    order of the header, and is "All columns contain some data" when
    there is none. *)
Theorem validate_csv_names_blank_columns
        (X : External) (output_path text : string) (df : DataFrame)
        (w : World) :
  fs w !! output_path = Some text ->
  read_csv X text = Returned df ->
  df_empty df = false ->
  List.NoDup (columns df) ->
  existsb (fun c => any (has_data df c)) (columns df) = true ->
  validate_csv X output_path w
  = (Returned
       (true,
        match List.filter (fun c => negb (any (has_data df c)))
                          (columns df) with
        | [] => "All columns contain some data"
        | blank =>
            "Warning: The following columns contain no data: "
            +:+ Str.join ", " blank
        end), w).
Proof.
  intros Hfile Hread Hrows Hnd Hsome. unfold validate_csv, pd_read_csv. run.
  rewrite Hfile. cbn. rewrite Hread. cbn. unfold validate_frame.
  rewrite Hrows.
  pose proof (validate_column_flag df (columns df) [] true) as Hflag.
  pose proof (validate_column_status df (columns df) [] true Hnd) as Hstatus.
  destruct (fold_left (validate_column df) (columns df) ([], true))
    as [status flag]. cbn in Hflag, Hstatus. subst flag status.
  rewrite Hsome. cbn.
  assert (Hblank :
            map fst (List.filter (fun item : string * bool => negb (snd item))
                       (map (fun c => (c, any (has_data df c))) (columns df)))
            = List.filter (fun c => negb (any (has_data df c))) (columns df)).
  { clear. induction (columns df) as [|c cols IH]; [reflexivity|].
    cbn. destruct (any (has_data df c)); cbn; rewrite IH; reflexivity. }
  rewrite Hblank.
  destruct (List.filter (fun c => negb (any (has_data df c))) (columns df));
    reflexivity.
Qed.

Lemma validate_csv_names_blank_columns_witness :
  validate_csv (Cases.with_reader Scenario.working
                  (fun _ => Returned Cases.all_filled))
               Scenario.output_path Scenario.produced
  = (Returned (true, "All columns contain some data"), Scenario.produced).
Proof.
  apply (validate_csv_names_blank_columns _ _ Scenario.csv_text
           Cases.all_filled).
  - vm_compute. reflexivity.
  - reflexivity.
  - reflexivity.
  - repeat constructor; cbn; intuition discriminate.
  - reflexivity.
Defined.

(** X4.  The validator never raises and leaves the world as it found
    it.  A missing file gives the failure "CSV validation failed: [Errno
    2] No such file or directory: " followed by the quoted path; a file
    the reader refuses with e gives "CSV validation failed: " and
    str(e); otherwise the verdict is that of the table read. *)
Theorem validate_csv_never_raises
        (X : External) (output_path : string) (w : World) :
  exists verdict,
    validate_csv X output_path w = (Returned verdict, w) /\
    match fs w !! output_path with
    | None =>
        verdict = (false, "CSV validation failed: "
                          +:+ "[Errno 2] No such file or directory: "
                          +:+ Str.repr output_path)
    | Some text =>
        match read_csv X text with
        | Raised e =>
            verdict = (false, "CSV validation failed: " +:+ str_exn X e)
        | Returned df => verdict = validate_frame df
        end
    end.
Proof.
  unfold validate_csv, pd_read_csv, no_such_file. run.
  destruct (fs w !! output_path) as [text|]; cbn; [|eauto].
  destruct (read_csv X text); cbn; eauto.
Qed.

(** ** The extractor *)

Lemma prefix_cons (c d : ascii) (p s : string) :
  String.prefix (String c p) (String d s)
  = if ascii_dec c d then String.prefix p s else false.
Proof. reflexivity. Qed.

Lemma lacks_app (c : ascii) (a b : string) :
  lacks c (a +:+ b) = lacks c a && lacks c b.
Proof.
  induction a as [|d a IH]; [reflexivity|].
  change (String d a +:+ b) with (String d (a +:+ b)). cbn [lacks].
  rewrite IH, andb_assoc. reflexivity.
Qed.

Lemma lacks_rev_app (c : ascii) (a b : string) :
  lacks c (String.rev_app a b) = lacks c a && lacks c b.
Proof.
  revert b. induction a as [|d a IH]; intros b; [reflexivity|].
  cbn [String.rev_app lacks]. rewrite IH. cbn [lacks].
  destruct (negb (Ascii.eqb d c)), (lacks c a), (lacks c b); reflexivity.
Qed.

Lemma lacks_lstrip (c : ascii) (s : string) :
  lacks c s = true -> lacks c (Str.lstrip s) = true.
Proof.
  induction s as [|d s IH]; [reflexivity|]. intros H. cbn [Str.lstrip].
  destruct (Str.isspace d); [|exact H].
  apply IH. cbn in H. apply andb_true_iff in H as [_ H]. exact H.
Qed.

Lemma lacks_strip (c : ascii) (s : string) :
  lacks c s = true -> lacks c (Str.strip s) = true.
Proof.
  intros H. unfold Str.strip, Str.rstrip, String.rev.
  rewrite lacks_rev_app, andb_true_r. apply lacks_lstrip.
  rewrite lacks_rev_app, andb_true_r. apply lacks_lstrip. exact H.
Qed.

(** A fence needs a backtick. *)
Lemma lacks_backtick_no_fence (p s : string) :
  String.prefix Extract.fence p = true ->
  lacks backtick s = true ->
  String.prefix p s = false /\ Str.contains p s = false.
Proof.
  intros Hp. destruct p as [|c p]; [discriminate|].
  unfold Extract.fence in Hp. rewrite prefix_cons in Hp.
  destruct (ascii_dec "`" c) as [<-|]; [|discriminate]. clear Hp.
  induction s as [|d s IH]; intros H.
  - split; reflexivity.
  - cbn in H. apply andb_true_iff in H as [Hd H].
    assert (Hpre : String.prefix (String "`" p) (String d s) = false).
    { rewrite prefix_cons.
      destruct (ascii_dec "`" d) as [<-|]; [discriminate | reflexivity]. }
    split; [exact Hpre|].
    cbn [Str.contains]. rewrite Hpre. cbn. exact (proj2 (IH H)).
Qed.

(** Joining the pieces of a split gives the text back. *)
Lemma join_split (s : string) :
  Str.join Str.nl (Str.split Str.LF s) = s.
Proof.
  unfold Str.join. induction s as [|c s IH]; [reflexivity|].
  cbn [Str.split]. destruct (Ascii.eqb_spec c Str.LF) as [->|Hc].
  - destruct (Str.split Str.LF s) as [|piece pieces] eqn:Hsplit.
    + destruct s; cbn in Hsplit; [discriminate|].
      destruct (Ascii.eqb a Str.LF); [discriminate|].
      destruct (Str.split Str.LF s); discriminate.
    + cbn [String.concat]. cbn [String.concat] in IH. rewrite IH.
      reflexivity.
  - destruct (Str.split Str.LF s) as [|piece pieces]; [cbn in IH; subst s; reflexivity|].
    cbn [String.concat] in *. destruct pieces as [|q pieces].
    + subst s. reflexivity.
    + rewrite <- IH. reflexivity.
Qed.

Lemma split_lacks (c : ascii) (s : string) :
  lacks c s = true -> Forall (fun line => lacks c line = true)
                             (Str.split Str.LF s).
Proof.
  induction s as [|d s IH]; intros H.
  - repeat constructor.
  - cbn in H. apply andb_true_iff in H as [Hd H]. specialize (IH H).
    cbn [Str.split]. destruct (Ascii.eqb d Str.LF).
    + constructor; [reflexivity | exact IH].
    + destruct (Str.split Str.LF s) as [|piece pieces].
      * repeat constructor. cbn. rewrite Hd. reflexivity.
      * inversion IH as [|? ? Hpiece Hpieces]; subst.
        constructor; [|exact Hpieces]. cbn. rewrite Hd, Hpiece. reflexivity.
Qed.

(** Outside a fence, lines without a backtick are all kept. *)
Lemma scan_keeps_plain_lines (lines kept : list string) :
  Forall (fun line => lacks backtick line = true) lines ->
  fold_left Extract.scan_line lines (kept, false) = (kept ++ lines, false).
Proof.
  intros H. revert kept. induction H as [|line lines Hline _ IH]; intros kept.
  - cbn. rewrite app_nil_r. reflexivity.
  - cbn [fold_left Extract.scan_line].
    assert (Hmark : forall mark, String.prefix Extract.fence mark = true ->
              String.eqb (Str.strip line) mark = false).
    { intros mark Hm. apply String.eqb_neq. intros Heq.
      pose proof (lacks_strip backtick line Hline) as Hs. rewrite Heq in Hs.
      destruct (lacks_backtick_no_fence mark mark Hm Hs) as [Hpre _].
      clear - Hpre. induction mark as [|c mark IH]; [discriminate|].
      rewrite prefix_cons in Hpre.
      destruct (ascii_dec c c); [auto | congruence]. }
    rewrite (Hmark Extract.fence_python eq_refl), (Hmark Extract.fence eq_refl).
    cbn [orb].
    rewrite (proj2 (lacks_backtick_no_fence Extract.fence line eq_refl Hline)).
    cbn. rewrite IH, <- app_assoc. reflexivity.
Qed.

Lemma re_search_no_backtick (s : string) :
  lacks backtick s = true -> Extract.re_search s = None.
Proof.
  induction s as [|c s IH]; intros H.
  - reflexivity.
  - cbn [Extract.re_search]. unfold Extract.match_here.
    rewrite (proj1 (lacks_backtick_no_fence Extract.fence_python _ eq_refl H)).
    apply IH. cbn in H. apply andb_true_iff in H as [_ H]. exact H.
Qed.

(** X5.  A reply that holds no backtick at all is code as it stands: the
    extractor gives it back unchanged, line for line. *)
Theorem extract_python_code_plain_text (ai_response : string) :
  lacks backtick ai_response = true ->
  Extract.extract_python_code ai_response = ai_response.
Proof.
  intros H. unfold Extract.extract_python_code, Extract.scan_lines.
  rewrite (re_search_no_backtick _ H).
  rewrite (scan_keeps_plain_lines _ [] (split_lacks _ _ H)). cbn [fst app].
  destruct (Str.split Str.LF ai_response) eqn:Hsplit; [reflexivity|].
  rewrite <- Hsplit. apply join_split.
Qed.

Lemma extract_python_code_plain_text_witness :
  Extract.extract_python_code
    ("import json" +:+ Str.nl +:+ Str.nl +:+ "print(1)" +:+ Str.nl)
  = "import json" +:+ Str.nl +:+ Str.nl +:+ "print(1)" +:+ Str.nl.
Proof.
  apply extract_python_code_plain_text. vm_compute. reflexivity.
Defined.

(** Inside text that has no backtick and does not end in a blank, the
    closing of the pattern matches nowhere. *)
Lemma spaces_then_fence_inside (s t : string) :
  s <> EmptyString ->
  lacks backtick s = true ->
  last_blank s = false ->
  Extract.spaces_then_fence (s +:+ t) = false.
Proof.
  induction s as [|c s IH]; [congruence|]. intros _ Hlacks Hlast.
  change (String c s +:+ t) with (String c (s +:+ t)).
  cbn [Extract.spaces_then_fence].
  destruct s as [|d s].
  - cbn in Hlast. rewrite Hlast. reflexivity.
  - cbn [lacks] in Hlacks. apply andb_true_iff in Hlacks as [_ Hlacks].
    rewrite IH; [|discriminate|exact Hlacks|exact Hlast].
    cbn [lacks] in Hlacks. apply andb_true_iff in Hlacks as [Hd _].
    change (String d s +:+ t) with (String d (s +:+ t)).
    unfold Extract.fence. rewrite prefix_cons.
    destruct (ascii_dec "`" d) as [<-|]; [discriminate|].
    rewrite andb_false_r. reflexivity.
Qed.

Lemma lazy_group_takes_code (code rest : string) :
  lacks backtick code = true ->
  last_blank code = false ->
  Extract.lazy_group (code +:+ Str.nl +:+ Extract.fence +:+ rest) = Some code.
Proof.
  induction code as [|c code IH]; intros Hlacks Hlast.
  - change (EmptyString +:+ Str.nl +:+ Extract.fence +:+ rest)
      with (String Str.LF (Extract.fence +:+ rest)).
    cbn [Extract.lazy_group Extract.spaces_then_fence].
    rewrite prefix_app, orb_true_r. reflexivity.
  - pose proof (spaces_then_fence_inside (String c code)
                  (Str.nl +:+ Extract.fence +:+ rest)
                  ltac:(discriminate) Hlacks Hlast) as Hno.
    change (String c code +:+ Str.nl +:+ Extract.fence +:+ rest)
      with (String c (code +:+ Str.nl +:+ Extract.fence +:+ rest)) in *.
    cbn [Extract.lazy_group]. rewrite Hno.
    cbn [lacks] in Hlacks. apply andb_true_iff in Hlacks as [_ Hlacks].
    rewrite IH; [reflexivity | exact Hlacks |].
    destruct code; [reflexivity | exact Hlast].
Qed.

(** X6.  Fencing and extracting is a round trip: when code that holds no
    backtick and neither starts nor ends with a blank is put on lines of
    its own between [```python] and [```], after any text without a
    backtick and before any text at all, the extractor gives back
    exactly the code. *)
Theorem extract_python_code_fenced
        (before code rest : string) :
  lacks backtick before = true ->
  lacks backtick code = true ->
  code <> EmptyString ->
  head_blank code = false ->
  last_blank code = false ->
  Extract.extract_python_code
    (before +:+ Extract.fence_python +:+ Str.nl +:+ code +:+ Str.nl
     +:+ Extract.fence +:+ rest)
  = code.
Proof.
  intros Hbefore Hcode Hne Hhead Hlast.
  assert (Hhere : Extract.match_here
                    (Extract.fence_python +:+ Str.nl +:+ code +:+ Str.nl
                     +:+ Extract.fence +:+ rest) = Some code).
  { unfold Extract.match_here. rewrite prefix_app, drop_app.
    change (Str.nl +:+ code +:+ Str.nl +:+ Extract.fence +:+ rest)
      with (String Str.LF (code +:+ Str.nl +:+ Extract.fence +:+ rest)).
    cbn [Extract.spaces_then_group].
    change (Str.isspace Str.LF) with true. cbv iota.
    destruct code as [|c code]; [congruence|].
    change (String c code +:+ Str.nl +:+ Extract.fence +:+ rest)
      with (String c (code +:+ Str.nl +:+ Extract.fence +:+ rest)).
    cbn [Extract.spaces_then_group]. cbn in Hhead. rewrite Hhead.
    change (String c (code +:+ Str.nl +:+ Extract.fence +:+ rest))
      with (String c code +:+ Str.nl +:+ Extract.fence +:+ rest).
    apply lazy_group_takes_code; assumption. }
  unfold Extract.extract_python_code.
  assert (Hsearch : Extract.re_search
                      (before +:+ Extract.fence_python +:+ Str.nl +:+ code
                       +:+ Str.nl +:+ Extract.fence +:+ rest) = Some code).
  { induction before as [|c before IH].
    - change (EmptyString +:+ ?x) with x.
      destruct (Extract.fence_python +:+ Str.nl +:+ code +:+ Str.nl
                +:+ Extract.fence +:+ rest) eqn:Heq;
        cbn [Extract.re_search]; rewrite Hhere; reflexivity.
    - change (String c before +:+ ?x) with (String c (before +:+ x)).
      cbn [Extract.re_search]. unfold Extract.match_here at 1.
      cbn [lacks] in Hbefore. apply andb_true_iff in Hbefore as [Hc Hb].
      assert (Hpre : String.prefix Extract.fence_python
                       (String c (before +:+ Extract.fence_python +:+ Str.nl
                                  +:+ code +:+ Str.nl +:+ Extract.fence
                                  +:+ rest)) = false).
      { unfold Extract.fence_python. rewrite prefix_cons.
        destruct (ascii_dec "`" c) as [<-|]; [discriminate|reflexivity]. }
      rewrite Hpre. exact (IH Hb). }
  rewrite Hsearch. reflexivity.
Qed.

Lemma extract_python_code_fenced_witness :
  Extract.extract_python_code
    ("Here is the code:" +:+ Str.nl +:+ Extract.fence_python +:+ Str.nl
     +:+ "import csv" +:+ Str.nl +:+ "print(1)" +:+ Str.nl +:+ Extract.fence
     +:+ Str.nl +:+ "Run it with ```python```.")
  = "import csv" +:+ Str.nl +:+ "print(1)".
Proof.
  apply (extract_python_code_fenced ("Here is the code:" +:+ Str.nl)
           ("import csv" +:+ Str.nl +:+ "print(1)")
           (Str.nl +:+ "Run it with ```python```."));
    vm_compute; (reflexivity || discriminate).
Defined.

(** X7.  When the fence pattern matches, what the extractor gives is a
    piece of the reply itself: it stands after a [```python], before a
    [```], with at least one blank on either side. *)
Theorem extract_python_code_between_fences (ai_response group1 : string) :
  Extract.re_search ai_response = Some group1 ->
  Extract.extract_python_code ai_response = group1 /\
  exists before ws1 ws2 rest,
    ai_response = before +:+ Extract.fence_python +:+ ws1 +:+ group1
                  +:+ ws2 +:+ Extract.fence +:+ rest /\
    ws1 <> EmptyString /\ Str.blank ws1 = true /\
    ws2 <> EmptyString /\ Str.blank ws2 = true.
Proof.
  intros H. split.
  - unfold Extract.extract_python_code. rewrite H. reflexivity.
  - exact (re_search_sound _ _ H).
Qed.

Lemma extract_python_code_between_fences_witness :
  Extract.extract_python_code "```python  x  ```" = "x".
Proof.
  apply (extract_python_code_between_fences "```python  x  ```" "x").
  vm_compute. reflexivity.
Defined.

(** ** The sandbox *)

(** The effect of one run of the sandbox, spelled out: the result it
    returns when the script file can be removed, and the worlds before
    and after. *)
Lemma execute_python_code_run
      (X : External) (code input_path output_path : string) (w : World) :
  let temp_file_path := tempfile_name X (ticks w) ".py" in
  let script := modified_code code input_path output_path in
  let child := python X (S (ticks w)) (Some script)
                      (<[temp_file_path := script]>
                         (<[temp_file_path := code]> (fs w))) in
  let result := match fst child with
                | Returned p => if returncode p =? 0 then (true, stdout p)
                                else (false, stderr p)
                | Raised e => (false, str_exn X e)
                end in
  scripts (snd (execute_python_code X code input_path output_path w))
  = Some script :: scripts w /\
  slept (snd (execute_python_code X code input_path output_path w))
  = slept w /\
  match snd child !! temp_file_path with
  | None =>
      fst (execute_python_code X code input_path output_path w)
      = Returned result /\
      fs (snd (execute_python_code X code input_path output_path w))
      = snd child
  | Some _ =>
      match unlink_error X (S (S (ticks w))) temp_file_path with
      | None =>
          fst (execute_python_code X code input_path output_path w)
          = Returned result /\
          fs (snd (execute_python_code X code input_path output_path w))
          = delete temp_file_path (snd child)
      | Some e =>
          fst (execute_python_code X code input_path output_path w)
          = Raised e
      end
  end.
Proof.
  cbv zeta. destruct w as [f t c p s z].
  unfold execute_python_code, named_temporary_file, write_file,
    subprocess_run, os_path_exists, os_unlink. run.
  rewrite lookup_insert_eq.
  destruct (python X (S t) _ _) as [[proc|e] f'] eqn:Hchild; cbn.
  - destruct (returncode proc =? 0); cbn;
      (destruct (f' !! tempfile_name X t ".py") eqn:Hfile; known;
       [destruct (unlink_error X (S (S t)) (tempfile_name X t ".py"));
        known; auto | auto]).
  - destruct (f' !! tempfile_name X t ".py") eqn:Hfile; known;
      [destruct (unlink_error X (S (S t)) (tempfile_name X t ".py"));
       known; auto | auto].
Qed.

(** On a disk where no write fails the sandbox is the one of the loop. *)
Lemma execute_python_code_on_sound_disk
      (D : Disk) (X : External) (code input_path output_path : string)
      (w : World) :
  (forall t path text, write_failure D t path text = None) ->
  OnDisk.execute_python_code D X code input_path output_path w
  = execute_python_code X code input_path output_path w.
Proof.
  intros Hsound.
  unfold OnDisk.execute_python_code, execute_python_code,
    OnDisk.named_temporary_file, named_temporary_file,
    OnDisk.write_file, write_file, OnDisk.get_ticks.
  run. rewrite !Hsound. reflexivity.
Qed.

(** X8.  The sandbox with the failures of the disk.  When making the
    temporary script file raises, that error leaves the sandbox: it
    stands before the [try], no script is run and what the failure left
    of the file stays.  Otherwise the sandbox raises only if the removal
    of the script file does, and afterwards that file is gone: it
    returns (False, str(e)) without running anything when writing the
    rewritten script raises e, and else (True, stdout) when the child
    exits with status zero, (False, stderr) when it exits otherwise, and
    (False, str(e)) when starting it raises e. *)
Theorem execute_python_code_reports
        (D : Disk) (X : External) (code input_path output_path : string)
        (w : World) :
  (forall t path, unlink_error X t path = None) ->
  let run := OnDisk.execute_python_code D X code input_path output_path w in
  let temp_file_path := tempfile_name X (ticks w) ".py" in
  let script := modified_code code input_path output_path in
  match write_failure D (ticks w) temp_file_path code with
  | Some (e, leftover) =>
      fst run = Raised e /\
      scripts (snd run) = scripts w /\
      fs (snd run) = partial_alter (fun _ => leftover) temp_file_path (fs w)
  | None =>
      fs (snd run) !! temp_file_path = None /\
      match write_failure D (S (ticks w)) temp_file_path script with
      | Some (e, leftover) =>
          fst run = Returned (false, str_exn X e) /\
          scripts (snd run) = scripts w
      | None =>
          let child := python X (S (ticks w)) (Some script)
                              (<[temp_file_path := script]>
                                 (<[temp_file_path := code]> (fs w))) in
          fst run
          = Returned match fst child with
                     | Returned p =>
                         if returncode p =? 0 then (true, stdout p)
                         else (false, stderr p)
                     | Raised e => (false, str_exn X e)
                     end /\
          scripts (snd run) = Some script :: scripts w
      end
  end.
Proof.
  intros Hok. cbv zeta. destruct w as [f t c p s z].
  unfold OnDisk.execute_python_code, OnDisk.named_temporary_file,
    OnDisk.write_file, OnDisk.get_ticks, subprocess_run, os_path_exists,
    os_unlink.
  run.
  destruct (write_failure D t (tempfile_name X t ".py") code)
    as [[e leftover]|]; cbn; [auto|].
  destruct (write_failure D (S t) (tempfile_name X t ".py") _)
    as [[e leftover]|]; cbn.
  - destruct (partial_alter (fun _ => leftover) (tempfile_name X t ".py")
                (<[tempfile_name X t ".py" := code]> f)
              !! tempfile_name X t ".py") as [text|] eqn:Hfile; known;
      [rewrite Hok; known; rewrite lookup_delete_eq; auto | auto].
  - rewrite lookup_insert_eq.
    destruct (python X (S t) _ _) as [[proc|e] f'] eqn:Hchild; cbn.
    + destruct (returncode proc =? 0); cbn;
        (destruct (f' !! tempfile_name X t ".py") eqn:Hfile; known;
         [rewrite Hok; known; rewrite lookup_delete_eq; auto | auto]).
    + destruct (f' !! tempfile_name X t ".py") eqn:Hfile; known;
        [rewrite Hok; known; rewrite lookup_delete_eq; auto | auto].
Qed.

Lemma execute_python_code_reports_witness :
  fst (OnDisk.execute_python_code Cases.full_disk Scenario.working
         Scenario.script Scenario.input_path Scenario.output_path
         Scenario.world)
  = Raised (OSError "[Errno 28] No space left on device") /\
  fst (OnDisk.execute_python_code Cases.sound_disk Scenario.failing
         Scenario.script Scenario.input_path Scenario.output_path
         Scenario.world)
  = Returned (false, "boom").
Proof.
  split.
  - exact (proj1 (execute_python_code_reports Cases.full_disk
                    Scenario.working Scenario.script Scenario.input_path
                    Scenario.output_path Scenario.world
                    (fun _ _ => eq_refl))).
  - exact (proj1 (proj2 (execute_python_code_reports Cases.sound_disk
                           Scenario.failing Scenario.script
                           Scenario.input_path Scenario.output_path
                           Scenario.world (fun _ _ => eq_refl)))).
Defined.



(** ** The model client and one attempt *)

(** What a call of the model client leaves alone. *)
Lemma call_ai_model_frame (X : External) (cfg : Config.t)
      (prompt jsonl_sample : string) (error_message project_id : option string)
      (w : World) :
  let w' := snd (call_ai_model X cfg prompt jsonl_sample error_message
                   project_id w) in
  fs w' = fs w /\ scripts w' = scripts w /\ slept w' = slept w.
Proof.
  cbv zeta. unfold call_ai_model, get_access_token. run.
  destruct (truthy (access_token X (ticks w))); cbn; auto.
Qed.

(** X10.  Without an access token the model client gives up before
    anything is sent: it returns None and posts no prompt; the call still
    counts as one model call. *)
Theorem call_ai_model_without_token (X : External) (cfg : Config.t)
        (prompt jsonl_sample : string)
        (error_message project_id : option string) (w : World) :
  truthy (access_token X (ticks w)) = false ->
  let w' := snd (call_ai_model X cfg prompt jsonl_sample error_message
                   project_id w) in
  fst (call_ai_model X cfg prompt jsonl_sample error_message project_id w)
  = Returned None /\
  prompts w' = prompts w /\
  model_calls w' = S (model_calls w).
Proof.
  intros Htoken. cbv zeta. unfold call_ai_model, get_access_token. run.
  rewrite Htoken. cbn. auto.
Qed.

Lemma call_ai_model_without_token_witness :
  fst (call_ai_model Cases.no_credentials Scenario.cfg Scenario.prompt
         Scenario.first_line None None Scenario.world)
  = Returned None /\
  prompts (snd (call_ai_model Cases.no_credentials Scenario.cfg
                  Scenario.prompt Scenario.first_line None None
                  Scenario.world))
  = [].
Proof.
  destruct (call_ai_model_without_token Cases.no_credentials Scenario.cfg
              Scenario.prompt Scenario.first_line None None Scenario.world
              eq_refl) as (Hnone & Hprompts & _).
  split; [exact Hnone | exact Hprompts].
Defined.

(** An attempt in which the model client gives no text ends there. *)
Lemma generate_and_execute_body_no_text (X : External) (cfg : Config.t)
      (input_path output_path prompt first_line : string)
      (previous_error project_id reply : option string) (w : World) :
  fst (call_ai_model X cfg prompt first_line previous_error project_id w)
  = Returned reply ->
  truthy reply = false ->
  generate_and_execute_body X cfg input_path output_path prompt first_line
                            previous_error project_id w
  = (Returned (mkResult None false "Failed to generate code from AI model"
                        false false),
     snd (call_ai_model X cfg prompt first_line previous_error project_id w)).
Proof.
  intros Hcall Hempty. unfold generate_and_execute_body, bind.
  destruct (call_ai_model X cfg prompt first_line previous_error project_id w)
    as [out w1]. cbn in Hcall. subst out.
  destruct reply as [[|c reply]|]; [reflexivity | discriminate | reflexivity].
Qed.

(** X11.  When the model client returns None or the empty text, the
    attempt is the tuple (None, False, "Failed to generate code from AI
    model", False, False): no script is run and no file is touched. *)
Theorem generate_and_execute_body_without_text
        (X : External) (cfg : Config.t)
        (input_path output_path prompt first_line : string)
        (previous_error project_id reply : option string) (w : World) :
  fst (call_ai_model X cfg prompt first_line previous_error project_id w)
  = Returned reply ->
  truthy reply = false ->
  let run := generate_and_execute_body X cfg input_path output_path prompt
               first_line previous_error project_id w in
  fst run
  = Returned (mkResult None false "Failed to generate code from AI model"
                       false false) /\
  scripts (snd run) = scripts w /\
  fs (snd run) = fs w.
Proof.
  intros Hcall Hempty. cbv zeta.
  rewrite (generate_and_execute_body_no_text X cfg input_path output_path
             prompt first_line previous_error project_id reply w Hcall
             Hempty).
  destruct (call_ai_model_frame X cfg prompt first_line previous_error
              project_id w) as (Hfs & Hscripts & _).
  cbn [fst snd]. auto.
Qed.

Lemma generate_and_execute_body_without_text_witness :
  fst (generate_and_execute_body Scenario.silent Scenario.cfg
         Scenario.input_path Scenario.output_path Scenario.prompt
         Scenario.first_line None None Scenario.world)
  = Returned (mkResult None false "Failed to generate code from AI model"
                       false false).
Proof.
  exact (proj1 (generate_and_execute_body_without_text Scenario.silent
                  Scenario.cfg Scenario.input_path Scenario.output_path
                  Scenario.prompt Scenario.first_line None None None
                  Scenario.world eq_refl eq_refl)).
Defined.

(** ** The loop *)

(** X12.  An attempt that raises is not retried: the exception leaves
    [generate_and_execute] at once, after that single model call. *)
Theorem generate_and_execute_does_not_retry_exceptions
        (X : External) (cfg : Config.t)
        (input_path output_path prompt first_line : string)
        (previous_error project_id : option string)
        (w w1 : World) (e : exn) :
  generate_and_execute_body X cfg input_path output_path prompt first_line
                            previous_error project_id w
  = (Raised e, w1) ->
  generate_and_execute X cfg input_path output_path prompt first_line
                       previous_error project_id w
  = (Raised e, w1) /\
  model_calls w1 = S (model_calls w) /\
  slept w1 = slept w.
Proof.
  intros Hbody. unfold generate_and_execute, retry.
  rewrite retrying_unfold, Hbody. split; [reflexivity|].
  pose proof (generate_and_execute_body_counts X cfg input_path output_path
                prompt first_line previous_error project_id w) as Hcounts.
  cbv zeta in Hcounts. rewrite Hbody in Hcounts. cbn in Hcounts.
  split; [exact (proj1 Hcounts)|].
  revert Hbody. unfold generate_and_execute_body, bind.
  destruct (call_ai_model_frame X cfg prompt first_line previous_error
              project_id w) as (_ & _ & Hslept).
  destruct (call_ai_model X cfg prompt first_line previous_error project_id w)
    as [[reply|e0] w0]; cbn in Hslept.
  2: { intros [= _ <-]. exact Hslept. }
  destruct reply as [[|c generated]|]; try discriminate.
  pose proof (execute_python_code_run X
                (Extract.extract_python_code (String c generated))
                input_path output_path w0) as Hrun.
  cbv zeta in Hrun. destruct Hrun as (_ & Hs & _).
  destruct (execute_python_code X _ input_path output_path w0)
    as [[[ok msg]|e0] w2]; cbn in Hs |- *.
  2: { intros [= _ <-]. congruence. }
  rewrite os_path_exists_run.
  destruct (ok && bool_decide (is_Some (fs w2 !! output_path))); cbn;
    [|discriminate].
  destruct (validate_csv_run X output_path w2) as [[v m] Hv]. rewrite Hv.
  discriminate.
Qed.

Lemma generate_and_execute_does_not_retry_exceptions_witness :
  fst (generate_and_execute Cases.read_only Scenario.cfg Scenario.input_path
         Scenario.output_path Scenario.prompt Scenario.first_line None None
         Scenario.world)
  = Raised (OSError "[Errno 30] Read-only file system").
Proof.
  assert (Hbody : generate_and_execute_body Cases.read_only Scenario.cfg
            Scenario.input_path Scenario.output_path Scenario.prompt
            Scenario.first_line None None Scenario.world
          = (Raised (OSError "[Errno 30] Read-only file system"),
             snd (generate_and_execute_body Cases.read_only Scenario.cfg
                    Scenario.input_path Scenario.output_path Scenario.prompt
                    Scenario.first_line None None Scenario.world)))
    by (vm_compute; reflexivity).
  rewrite (proj1 (generate_and_execute_does_not_retry_exceptions
                    Cases.read_only Scenario.cfg Scenario.input_path
                    Scenario.output_path Scenario.prompt Scenario.first_line
                    None None Scenario.world _ _ Hbody)).
  reflexivity.
Defined.

(** An attempt leaves the time waited as it is. *)
Lemma generate_and_execute_body_slept (X : External) (cfg : Config.t)
      (input_path output_path prompt first_line : string)
      (previous_error project_id : option string) (w : World) :
  slept (snd (generate_and_execute_body X cfg input_path output_path prompt
                first_line previous_error project_id w))
  = slept w.
Proof.
  unfold generate_and_execute_body, bind.
  destruct (call_ai_model_frame X cfg prompt first_line previous_error
              project_id w) as (_ & _ & Hslept).
  destruct (call_ai_model X cfg prompt first_line previous_error project_id w)
    as [[reply|e0] w0]; cbn in Hslept; [|exact Hslept].
  destruct reply as [[|c generated]|]; [exact Hslept| |exact Hslept].
  pose proof (execute_python_code_run X
                (Extract.extract_python_code (String c generated))
                input_path output_path w0) as Hrun.
  cbv zeta in Hrun. destruct Hrun as (_ & Hs & _).
  destruct (execute_python_code X _ input_path output_path w0)
    as [[[ok msg]|e0] w2]; cbn in Hs |- *; [|congruence].
  rewrite os_path_exists_run.
  destruct (ok && bool_decide (is_Some (fs w2 !! output_path))); cbn;
    [|congruence].
  destruct (validate_csv_run X output_path w2) as [[v m] Hv]. rewrite Hv.
  cbn. congruence.
Qed.

(** X13.  The delay between attempts is fixed: whatever happens, a call
    of [generate_and_execute] makes at least one model call and has
    waited two seconds for every model call after the first. *)
Theorem generate_and_execute_waits_between_attempts
        (X : External) (cfg : Config.t)
        (input_path output_path prompt first_line : string)
        (previous_error project_id : option string) (w : World) :
  let w' := snd (generate_and_execute X cfg input_path output_path prompt
                   first_line previous_error project_id w) in
  (model_calls w < model_calls w')%nat /\
  slept w'
  = slept w + 2 * (Z.of_nat (model_calls w') - Z.of_nat (model_calls w) - 1).
Proof.
  cbv zeta. unfold generate_and_execute, retry.
  generalize (Z.to_nat (Config.MAX_RETRY_ATTEMPTS cfg - 1)) as more.
  intros more. revert w. induction more as [|k IH]; intros w;
    rewrite retrying_unfold;
    pose proof (generate_and_execute_body_counts X cfg input_path output_path
                  prompt first_line previous_error project_id w) as Hc;
    pose proof (generate_and_execute_body_slept X cfg input_path output_path
                  prompt first_line previous_error project_id w) as Hs;
    cbv zeta in Hc; destruct Hc as [Hc _];
    destruct (generate_and_execute_body X cfg input_path output_path prompt
                first_line previous_error project_id w) as [[r|e] w1];
    cbn [snd] in Hc, Hs.
  - destruct (is_failure_result r); cbn [snd]; lia.
  - cbn [snd]. lia.
  - destruct (is_failure_result r); cbn [snd]; [|lia].
    specialize (IH (snd (sleep 2 w1))).
    change (model_calls (snd (sleep 2 w1))) with (model_calls w1) in IH.
    change (slept (snd (sleep 2 w1))) with (slept w1 + 2) in IH.
    lia.
  - cbn [snd]. lia.
Qed.

(** A model client that never gives text. *)
Lemma call_ai_model_silent (X : External) (cfg : Config.t)
      (prompt jsonl_sample : string) (error_message project_id : option string)
      (w : World) :
  (forall t, truthy (access_token X t) = false) \/
  (forall t url p, truthy (chat_completion X t url p) = false) ->
  exists reply,
    fst (call_ai_model X cfg prompt jsonl_sample error_message project_id w)
    = Returned reply /\
    truthy reply = false.
Proof.
  intros Hsilent. unfold call_ai_model, get_access_token. run.
  destruct (truthy (access_token X (ticks w))) eqn:Htoken; cbn.
  - destruct Hsilent as [Hno | Hno].
    + rewrite Hno in Htoken. discriminate.
    + eexists. split; [reflexivity | apply Hno].
  - exists None. split; reflexivity.
Qed.

(** The attempts of a loop whose model never gives text: every one fails
    the same way, so the loop ends on the cap. *)
Lemma retrying_without_text (X : External) (cfg : Config.t)
      (input_path output_path prompt first_line : string)
      (previous_error project_id : option string) :
  (forall t, truthy (access_token X t) = false) \/
  (forall t url p, truthy (chat_completion X t url p) = false) ->
  forall more w0,
    let run := retrying more 2 is_failure_result
                 (generate_and_execute_body X cfg input_path output_path
                    prompt first_line previous_error project_id) w0 in
    fst run
    = Raised (RetryError
                (mkResult None false "Failed to generate code from AI model"
                          false false)) /\
    model_calls (snd run) = (model_calls w0 + S more)%nat /\
    scripts (snd run) = scripts w0 /\
    fs (snd run) = fs w0.
Proof.
  intros Hsilent.
  induction more as [|k IH]; intros w0; cbv zeta;
    rewrite retrying_unfold;
    destruct (call_ai_model_silent X cfg prompt first_line previous_error
                project_id w0 Hsilent) as (reply & Hcall & Hempty);
    rewrite (generate_and_execute_body_no_text X cfg input_path
               output_path prompt first_line previous_error project_id
               reply w0 Hcall Hempty);
    destruct (call_ai_model_frame X cfg prompt first_line previous_error
                project_id w0) as (Hfs & Hscripts & _);
    destruct (call_ai_model_run X cfg prompt first_line previous_error
                project_id w0) as (reply' & w1 & Hrun & Hcalls & _);
    rewrite Hrun in Hfs, Hscripts |- *; cbn [snd] in Hfs, Hscripts |- *;
    cbn [is_failure_result success validation_success output_exists
           negb orb].
  - cbn [fst snd]. repeat split; [lia | assumption | assumption].
  - specialize (IH (snd (sleep 2 w1))). cbv zeta in IH.
    destruct IH as (Hout & Hc & Hs & Hf).
    repeat split; [exact Hout | | |].
    + rewrite Hc. change (model_calls (snd (sleep 2 w1)))
        with (model_calls w1). lia.
    + rewrite Hs. exact Hscripts.
    + rewrite Hf. exact Hfs.
Qed.

(** X14.  When the model never gives text (no token can be had, or every
    reply is empty), [generate_and_execute] raises RetryError holding the
    tuple (None, False, "Failed to generate code from AI model", False,
    False), after exactly max(1, MAX_RETRY_ATTEMPTS) model calls, and it
    has run no script and touched no file. *)
Theorem generate_and_execute_without_text
        (X : External) (cfg : Config.t)
        (input_path output_path prompt first_line : string)
        (previous_error project_id : option string) (w : World) :
  (forall t, truthy (access_token X t) = false) \/
  (forall t url p, truthy (chat_completion X t url p) = false) ->
  let run := generate_and_execute X cfg input_path output_path prompt
               first_line previous_error project_id w in
  fst run
  = Raised (RetryError
              (mkResult None false "Failed to generate code from AI model"
                        false false)) /\
  Z.of_nat (model_calls (snd run))
  = Z.of_nat (model_calls w) + Z.max 1 (Config.MAX_RETRY_ATTEMPTS cfg) /\
  scripts (snd run) = scripts w /\
  fs (snd run) = fs w.
Proof.
  intros Hsilent. cbv zeta. unfold generate_and_execute, retry.
  pose proof (retrying_without_text X cfg input_path output_path prompt
                first_line previous_error project_id Hsilent
                (Z.to_nat (Config.MAX_RETRY_ATTEMPTS cfg - 1)) w) as Hloop.
  cbv zeta in Hloop. destruct Hloop as (Hout & Hc & Hs & Hf).
  repeat split; [exact Hout | rewrite Hc; lia | exact Hs | exact Hf].
Qed.

Lemma generate_and_execute_without_text_witness :
  fst (generate_and_execute Scenario.silent Scenario.cfg Scenario.input_path
         Scenario.output_path Scenario.prompt Scenario.first_line None None
         Scenario.world)
  = Raised (RetryError
              (mkResult None false "Failed to generate code from AI model"
                        false false)).
Proof.
  exact (proj1 (generate_and_execute_without_text Scenario.silent
                  Scenario.cfg Scenario.input_path Scenario.output_path
                  Scenario.prompt Scenario.first_line None None
                  Scenario.world
                  (or_intror (fun _ _ _ => eq_refl)))).
Defined.

(** ** The conversion stage of the handler *)

(** The responses a successful tuple is answered with. *)
Lemma assemble_response_shapes (X : External)
      (output_path gcs_bucket gcs_folder_path original_filename : string)
      (signed_url_expiration : Z) (result : LoopResult) (w : World) :
  success result = true ->
  validation_success result = true ->
  output_exists result = true ->
  let gcs_path :=
    VStr ("gs://" +:+ gcs_bucket +:+ "/" +:+ gcs_folder_path
          +:+ original_filename +:+ ".csv") in
  exists response w',
    assemble_response X output_path gcs_bucket gcs_folder_path
                      original_filename signed_url_expiration result w
    = (Returned response, w') /\
    ((exists url,
         response = [("gcs_path", gcs_path); ("signed_url", VStr url);
                     ("signed_url_expiration_seconds",
                      VInt signed_url_expiration)]) \/
     (exists text,
         response = [("gcs_path", gcs_path);
                     ("signed_url_error", VStr text)]) \/
     (exists text, response = [("gcs_error", VStr text)]) \/
     (exists text,
         response = [("error", VStr ("Error processing CSV: " +:+ text))])).
Proof.
  intros Hs Hv Ho. cbv zeta. unfold assemble_response.
  rewrite Hs, Hv, Ho. cbn [andb]. cbv iota.
  unfold bind at 1.
  destruct (validate_csv_run X output_path w) as [[v m] Hrun]. rewrite Hrun.
  unfold pd_read_csv, upload_to_gcs, generate_signed_url. run.
  destruct (fs w !! output_path) as [text|]; cbn; [|eauto 10].
  destruct (read_csv X text) as [df|e]; cbn; [|eauto 10].
  destruct (upload_error X (ticks w) output_path gcs_bucket
              (gcs_folder_path +:+ original_filename +:+ ".csv"));
    cbn; [eauto 10|].
  destruct (signed_url X (S (ticks w)) gcs_bucket
              (gcs_folder_path +:+ original_filename +:+ ".csv")
              signed_url_expiration); cbn; eauto 10.
Qed.

(** X15.  The conversion stage never raises, and what it answers is
    decided by [generate_and_execute].  When that call raised e, the
    answer is 500 with error "All retry attempts failed with unexpected
    error: " and str(e), success false and the run id, and nothing else
    is done: the world is the one the call left.  When it returned, the
    answer is 200 with one of four bodies: gcs_path, signed_url and
    signed_url_expiration_seconds (the expiration asked for); gcs_path
    and signed_url_error; gcs_error alone; or error alone.  It is never
    answered with error_details. *)
Theorem convert_answers (X : External) (cfg : Config.t)
        (run_id input_path output_path prompt first_line : string)
        (project_id : option string)
        (gcs_bucket gcs_folder_path original_filename : string)
        (signed_url_expiration : Z) (w : World) :
  let gcs_path :=
    VStr ("gs://" +:+ gcs_bucket +:+ "/" +:+ gcs_folder_path
          +:+ original_filename +:+ ".csv") in
  let loop :=
    generate_and_execute X cfg input_path output_path prompt first_line
                         None project_id w in
  exists response w',
    convert X cfg run_id input_path output_path prompt first_line project_id
            gcs_bucket gcs_folder_path original_filename
            signed_url_expiration w
    = (Returned response, w') /\
    dict_get "error_details" (body response) = None /\
    match fst loop with
    | Raised e =>
        response
        = mkResponse
            [("error",
              VStr ("All retry attempts failed with unexpected error: "
                    +:+ str_exn X e));
             ("success", VBool false);
             ("run_id", VStr run_id)]
            500 /\
        w' = snd loop
    | Returned _ =>
        status response = 200 /\
        ((exists url,
             body response
             = [("gcs_path", gcs_path); ("signed_url", VStr url);
                ("signed_url_expiration_seconds",
                 VInt signed_url_expiration)])
         \/ (exists text,
                body response = [("gcs_path", gcs_path);
                                 ("signed_url_error", VStr text)])
         \/ (exists text, body response = [("gcs_error", VStr text)])
         \/ (exists text,
                body response
                = [("error", VStr ("Error processing CSV: " +:+ text))]))
    end.
Proof.
  cbv zeta. unfold convert, try_except, bind.
  destruct (generate_and_execute X cfg input_path output_path prompt
              first_line None project_id w) as [[result|e] w1] eqn:Hloop.
  - destruct (generate_and_execute_returns_success X cfg input_path
                output_path prompt first_line None project_id w w1 result
                Hloop) as (Hs & Hv & Ho).
    destruct (assemble_response_shapes X output_path gcs_bucket
                gcs_folder_path original_filename signed_url_expiration
                result w1 Hs Hv Ho) as (response & w2 & Hassemble & Hshape).
    cbv zeta in Hshape. rewrite Hassemble.
    destruct (cleanup_run X input_path output_path response w2)
      as (w3 & Hcleanup & _). rewrite Hcleanup.
    exists (jsonify response), w3. split; [reflexivity|].
    split.
    + destruct Hshape as [[u ->] | [[t ->] | [[t ->] | [t ->]]]]; reflexivity.
    + cbn [fst]. split; [reflexivity | exact Hshape].
  - eexists. eexists. split; [reflexivity|]. split; [reflexivity|].
    cbn [fst snd]. split; reflexivity.
Qed.

(** ** The configuration *)

(** What loading takes from the environment for the three settings that
    validation looks at. *)
Lemma load_required (env : string -> option string) (cfg : Config.t) :
  Config.load env = Some cfg ->
  Config.GOOGLE_CREDENTIALS_PATH cfg = env "GOOGLE_APPLICATION_CREDENTIALS" /\
  Config.GOOGLE_CLOUD_PROJECT_ID cfg
  = default "your-project-id" (env "GOOGLE_CLOUD_PROJECT_ID") /\
  Config.GCS_BUCKET_NAME cfg
  = default "your-bucket-name" (env "GCS_BUCKET_NAME").
Proof.
  unfold Config.load, Config.getenv. intros Hload.
  destruct (Config.int_of_str (default "3600" (env "SIGNED_URL_EXPIRATION")));
    [|discriminate]. cbn in Hload.
  destruct (Config.int_of_str (default "3" (env "MAX_RETRY_ATTEMPTS")));
    [|discriminate]. cbn in Hload.
  destruct (Config.int_of_str (default "300" (env "REQUEST_TIMEOUT")));
    [|discriminate]. cbn in Hload.
  injection Hload as <-. cbn. auto.
Qed.

(** X16.  [Config.validate] changes nothing, and it passes exactly when
    the credentials path is set and not empty, a file exists there, and
    neither the project id nor the bucket name is its placeholder. *)
Theorem Config_validate_passes (cfg : Config.t) (w : World) :
  snd (Config_validate cfg w) = w /\
  (fst (Config_validate cfg w) = Returned tt <->
   (exists path,
       Config.GOOGLE_CREDENTIALS_PATH cfg = Some path /\
       path <> EmptyString /\ is_Some (fs w !! path)) /\
   Config.GOOGLE_CLOUD_PROJECT_ID cfg <> "your-project-id" /\
   Config.GCS_BUCKET_NAME cfg <> "your-bucket-name").
Proof.
  unfold Config_validate.
  destruct (Config.GOOGLE_CREDENTIALS_PATH cfg) as [[|c path]|].
  - split; [reflexivity|]. split; [discriminate|].
    intros [(p & [= <-] & Hne & _) _]. congruence.
  - unfold bind. rewrite os_path_exists_run. cbn [fst snd].
    destruct (bool_decide_reflect (is_Some (fs w !! String c path)))
      as [Hfile | Hfile]; cbn.
    + destruct (String.eqb_spec (Config.GOOGLE_CLOUD_PROJECT_ID cfg)
                  "your-project-id") as [Hp | Hp]; cbn.
      { split; [reflexivity|]. split; [discriminate|].
        intros (_ & Hne & _). congruence. }
      destruct (String.eqb_spec (Config.GCS_BUCKET_NAME cfg)
                  "your-bucket-name") as [Hb | Hb]; cbn.
      { split; [reflexivity|]. split; [discriminate|].
        intros (_ & _ & Hne). congruence. }
      split; [reflexivity|]. split; [|reflexivity].
      intros _. repeat split; try assumption.
      exists (String c path). repeat split; [discriminate | exact Hfile].
    + split; [reflexivity|]. split; [discriminate|].
      intros [(p & [= <-] & _ & Hsome) _]. contradiction.
  - split; [reflexivity|]. split; [discriminate|].
    intros [(p & Heq & _) _]. discriminate.
Qed.

(** X17.  The defaults are placeholders: in an environment that leaves
    GOOGLE_APPLICATION_CREDENTIALS, GOOGLE_CLOUD_PROJECT_ID or
    GCS_BUCKET_NAME unset, the configuration loads and
    [Config.validate] raises, whatever files exist. *)
Theorem Config_validate_needs_environment
        (env : string -> option string) (cfg : Config.t) (w : World) :
  Config.load env = Some cfg ->
  env "GOOGLE_APPLICATION_CREDENTIALS" = None \/
  env "GOOGLE_CLOUD_PROJECT_ID" = None \/
  env "GCS_BUCKET_NAME" = None ->
  exists e, Config_validate cfg w = (Raised e, w).
Proof.
  intros Hload Hunset.
  destruct (load_required env cfg Hload) as (Hc & Hp & Hb).
  unfold Config_validate. rewrite Hc, Hp, Hb.
  destruct (env "GOOGLE_APPLICATION_CREDENTIALS") as [[|c path]|];
    [eauto | | eauto].
  unfold bind. rewrite os_path_exists_run.
  destruct (bool_decide (is_Some (fs w !! String c path))); cbn; [|eauto].
  destruct Hunset as [Hu | [Hu | Hu]]; [discriminate | |].
  - rewrite Hu. cbn. eauto.
  - rewrite Hu.
    destruct (String.eqb
                (default "your-project-id" (env "GOOGLE_CLOUD_PROJECT_ID"))
                "your-project-id"); cbn; eauto.
Qed.

Lemma Config_validate_needs_environment_witness :
  exists cfg e,
    Config.load (fun _ => None) = Some cfg /\
    Config_validate cfg Scenario.world = (Raised e, Scenario.world).
Proof.
  assert (Hload : Config.load (fun _ => None)
                  = Some (Config.mk None "your-project-id" "us-central1"
                            "us-central1-aiplatform.googleapis.com"
                            "meta/llama-3.1-405b-instruct-maas"
                            "your-bucket-name" "intermediatecsv" 3600 3 300
                            "INFO")) by (vm_compute; reflexivity).
  destruct (Config_validate_needs_environment (fun _ => None) _
              Scenario.world Hload (or_introl eq_refl)) as [e He].
  eexists. exists e. split; [exact Hload | exact He].
Defined.

(** ** The reading of the reply *)

(** X18.  A reply whose first choice holds a message with a content is
    read as that content, whatever else the reply holds: the choices
    come before the candidates. *)
Theorem read_reply_takes_first_choice
        (d message_d choice : list (string * pyval)) (others : list pyval)
        (content : pyval) :
  dict_get "choices" d = Some (VList (VDict choice :: others)) ->
  dict_get "message" choice = Some (VDict message_d) ->
  dict_get "content" message_d = Some content ->
  read_reply (Returned (VDict d)) = content.
Proof.
  intros Hchoices Hmessage Hcontent.
  unfold read_reply, read_result, has_some, and_then, py_contains, py_item,
    py_len, py_first.
  rewrite Hchoices. cbn. rewrite Hmessage, Hcontent. reflexivity.
Qed.

Lemma read_reply_takes_first_choice_witness :
  read_reply (Returned Cases.both_shapes) = VStr "print(1)".
Proof.
  apply (read_reply_takes_first_choice _
           [("content", VStr "print(1)")]
           [("message", VDict [("content", VStr "print(1)")])] []);
    reflexivity.
Defined.

(** X19.  Without choices, or with an empty list of them, the reply is
    read as the text of the first part of the first candidate. *)
Theorem read_reply_falls_back_to_candidates
        (d candidate content_d part : list (string * pyval))
        (others parts : list pyval) (text : pyval) :
  dict_get "choices" d = None \/ dict_get "choices" d = Some (VList []) ->
  dict_get "candidates" d = Some (VList (VDict candidate :: others)) ->
  dict_get "content" candidate = Some (VDict content_d) ->
  dict_get "parts" content_d = Some (VList (VDict part :: parts)) ->
  dict_get "text" part = Some text ->
  read_reply (Returned (VDict d)) = text.
Proof.
  intros Hchoices Hcandidates Hcontent Hparts Htext.
  unfold read_reply, read_result, has_some, and_then, py_contains, py_item,
    py_len, py_first.
  destruct Hchoices as [-> | ->]; cbn; rewrite Hcandidates; cbn;
    rewrite Hcontent, Hparts, Htext; reflexivity.
Qed.

Lemma read_reply_falls_back_to_candidates_witness :
  read_reply (Returned Cases.candidates_only) = VStr "print(2)".
Proof.
  apply (read_reply_falls_back_to_candidates _
           [("content", VDict [("parts",
                                VList [VDict [("text", VStr "print(2)")]])])]
           [("parts", VList [VDict [("text", VStr "print(2)")]])]
           [("text", VStr "print(2)")] [] []);
    (right; reflexivity) || reflexivity.
Defined.

(** X20.  The reading gives None, and never raises, when the request
    failed, when the reply is not an object, when it holds neither
    choices nor candidates, and also when its first choice has no
    message: a broken choice is not made up for by the candidates. *)
Theorem read_reply_gives_none (posted : outcome pyval) :
  (exists e, posted = Raised e) \/
  (exists v, posted = Returned v /\ forall d, v <> VDict d) \/
  (exists d, posted = Returned (VDict d) /\
             dict_get "choices" d = None /\
             dict_get "candidates" d = None) \/
  (exists d choice others,
      posted = Returned (VDict d) /\
      dict_get "choices" d = Some (VList (VDict choice :: others)) /\
      dict_get "message" choice = None) ->
  read_reply posted = VNone.
Proof.
  unfold read_reply, read_result, has_some, and_then, py_contains, py_item,
    py_len, py_first.
  intros [[e ->] | [(v & -> & Hv) | [(d & -> & Hc & Hd)
                                   | (d & choice & others & -> & Hc & Hm)]]].
  - reflexivity.
  - destruct v as [| | | |s|items|d]; try reflexivity.
    + destruct (Str.contains "choices" s); [reflexivity|].
      destruct (Str.contains "candidates" s); reflexivity.
    + destruct (existsb _ items); [reflexivity|].
      destruct (existsb _ items); reflexivity.
    + exfalso. exact (Hv d eq_refl).
  - rewrite Hc, Hd. reflexivity.
  - rewrite Hc. cbn. rewrite Hm. reflexivity.
Qed.

Lemma read_reply_gives_none_witness :
  read_reply
    (Returned
       (VDict [("choices", VList [VDict [("text", VStr "print(1)")]]);
               ("candidates",
                VList [VDict [("content",
                               VDict [("parts",
                                       VList [VDict [("text",
                                                      VStr "print(2)")]])])]])]))
  = VNone.
Proof.
  apply read_reply_gives_none. right. right. right.
  eexists. exists [("text", VStr "print(1)")], [].
  split; [reflexivity|]. split; reflexivity.
Defined.

(** ** Integers as text *)

Lemma append_empty (s : string) : s +:+ EmptyString = s.
Proof.
  induction s as [|c s IH]; [reflexivity|].
  change (String c s +:+ EmptyString) with (String c (s +:+ EmptyString)).
  rewrite IH. reflexivity.
Qed.

Lemma rev_app_rev_app (a b c : string) :
  String.rev_app (String.rev_app a b) c = String.rev_app b (a +:+ c).
Proof.
  revert b c. induction a as [|x a IH]; intros b c; [reflexivity|].
  cbn [String.rev_app]. rewrite IH. reflexivity.
Qed.

Lemma rev_rev (s : string) : String.rev (String.rev s) = s.
Proof.
  unfold String.rev. rewrite rev_app_rev_app. cbn [String.rev_app].
  apply append_empty.
Qed.

Lemma head_blank_rev_app (a b : string) :
  head_blank (String.rev_app a b)
  = match a with
    | EmptyString => head_blank b
    | _ => last_blank a
    end.
Proof.
  revert b. induction a as [|x a IH]; intros b; [reflexivity|].
  cbn [String.rev_app]. rewrite IH. destruct a; reflexivity.
Qed.

Lemma digits_string_of_uint (d : Decimal.uint) (acc : Z) (after : bool) :
  after = true \/ d <> Decimal.Nil ->
  Config.digits acc after (NilEmpty.string_of_uint d)
  = Some (uint_value d acc).
Proof.
  revert acc after.
  induction d as [|d IH|d IH|d IH|d IH|d IH|d IH|d IH|d IH|d IH|d IH];
    intros acc after Hok;
    try (cbn [NilEmpty.string_of_uint Config.digits uint_value];
         change (Config.digit _) with (Some 0)
         || change (Config.digit _) with (Some 1)
         || change (Config.digit _) with (Some 2)
         || change (Config.digit _) with (Some 3)
         || change (Config.digit _) with (Some 4)
         || change (Config.digit _) with (Some 5)
         || change (Config.digit _) with (Some 6)
         || change (Config.digit _) with (Some 7)
         || change (Config.digit _) with (Some 8)
         || change (Config.digit _) with (Some 9);
         cbv iota; apply IH; left; reflexivity).
  destruct Hok as [-> | Hne]; [reflexivity | congruence].
Qed.

Lemma uint_value_of_uint_acc (d : Decimal.uint) (p : positive) :
  Z.pos (Pos.of_uint_acc d p) = uint_value d (Z.pos p).
Proof.
  revert p.
  induction d as [|d IH|d IH|d IH|d IH|d IH|d IH|d IH|d IH|d IH|d IH];
    intros p; cbn [Pos.of_uint_acc uint_value]; [reflexivity|..];
    rewrite IH; f_equal; lia.
Qed.

Lemma uint_value_of_uint (d : Decimal.uint) :
  Z.of_N (Pos.of_uint d) = uint_value d 0.
Proof.
  induction d as [|d IH|d IH|d IH|d IH|d IH|d IH|d IH|d IH|d IH|d IH];
    cbn [Pos.of_uint uint_value Z.of_N]; [reflexivity | exact IH |..];
    apply uint_value_of_uint_acc.
Qed.

Lemma string_of_uint_trimmed (d : Decimal.uint) :
  head_blank (NilEmpty.string_of_uint d) = false /\
  last_blank (NilEmpty.string_of_uint d) = false.
Proof.
  split.
  - destruct d; reflexivity.
  - induction d as [|d IH|d IH|d IH|d IH|d IH|d IH|d IH|d IH|d IH|d IH];
      [reflexivity|..];
      cbn [NilEmpty.string_of_uint last_blank];
      (destruct (NilEmpty.string_of_uint d); [reflexivity | exact IH]).
Qed.

(** The decimal text of a positive number is read back as the number. *)
Lemma digits_of_positive (p : positive) :
  NilZero.string_of_uint (Pos.to_uint p)
  = NilEmpty.string_of_uint (Pos.to_uint p) /\
  Config.digits 0 false (NilEmpty.string_of_uint (Pos.to_uint p))
  = Some (Z.pos p).
Proof.
  pose proof (DecimalPos.Unsigned.to_uint_nonnil p) as Hne.
  split.
  - destruct (Pos.to_uint p); [congruence | reflexivity..].
  - rewrite digits_string_of_uint by (right; exact Hne).
    rewrite <- uint_value_of_uint, DecimalPos.Unsigned.of_to. reflexivity.
Qed.

Lemma c_isspace_isspace (c : ascii) :
  Config.c_isspace c = true -> Str.isspace c = true.
Proof.
  unfold Config.c_isspace, Str.isspace.
  destruct (9 <=? nat_of_ascii c)%nat, (nat_of_ascii c <=? 13)%nat;
    cbn [andb orb]; try reflexivity;
    (destruct (Nat.eqb_spec (nat_of_ascii c) 32) as [-> | _];
     [reflexivity | discriminate]).
Qed.

(** Text that neither starts nor ends with a blank is left whole by the
    trimming of [int]. *)
Lemma trim_trimmed (s : string) :
  head_blank s = false -> last_blank s = false -> Config.trim s = s.
Proof.
  intros Hhead Hlast. unfold Config.trim.
  assert (Hl : forall t, head_blank t = false -> Config.skip_spaces t = t).
  { intros [|c t] H; [reflexivity|]. cbn in *.
    destruct (Config.c_isspace c) eqn:Hc; [|reflexivity].
    apply c_isspace_isspace in Hc. congruence. }
  rewrite (Hl s Hhead), Hl; [apply rev_rev|].
  unfold String.rev. rewrite head_blank_rev_app. destruct s; assumption.
Qed.

(** The decimal text of an integer is read back as the integer. *)
Lemma literal_string_of_int (n : Z) :
  let text := NilZero.string_of_int (Z.to_int n) in
  Config.trim text = text /\ Config.literal text = Some n.
Proof.
  cbv zeta. destruct n as [|p|p]; [split; reflexivity| |].
  - cbn [Z.to_int NilZero.string_of_int].
    destruct (digits_of_positive p) as [-> Hdigits].
    destruct (string_of_uint_trimmed (Pos.to_uint p)) as [Hhead Hlast].
    split; [exact (trim_trimmed _ Hhead Hlast)|].
    pose proof (DecimalPos.Unsigned.to_uint_nonnil p) as Hne.
    unfold Config.literal.
    destruct (Pos.to_uint p); [congruence|..]; exact Hdigits.
  - cbn [Z.to_int NilZero.string_of_int].
    destruct (digits_of_positive p) as [-> Hdigits].
    destruct (string_of_uint_trimmed (Pos.to_uint p)) as [_ Hlast].
    pose proof (DecimalPos.Unsigned.to_uint_nonnil p) as Hne.
    split.
    + apply trim_trimmed; [reflexivity|].
      cbn [last_blank].
      destruct (NilEmpty.string_of_uint (Pos.to_uint p)) eqn:Hs;
        [|exact Hlast].
      destruct (Pos.to_uint p); [congruence | discriminate..].
    + unfold Config.literal. rewrite Hdigits. reflexivity.
Qed.

(** [int(str(n))] is [n], whenever [str(n)] is within the limit. *)
Lemma int_of_str_str_of_int (n : Z) (text : string) :
  Config.str_of_int n = Some text -> Config.int_of_str text = Some n.
Proof.
  unfold Config.str_of_int, Config.int_of_str.
  destruct (literal_string_of_int n) as [Htrim Hliteral].
  destruct (Config.int_max_str_digits
            <? Config.digit_count (NilZero.string_of_int (Z.to_int n)))
    eqn:Hlimit; [discriminate|].
  intros [= <-]. rewrite Htrim, Hlimit. exact Hliteral.
Qed.

(** X22.  A request without the field [signed_url_expiration] gets the
    configured expiration, whatever it is.  When the field is there it
    takes any integer that [str] can write in decimal, of either sign:
    there is no range check. *)
Theorem expiration_when_absent (cfg : Config.t)
        (request_data : gmap string pyval) :
  request_data !! "signed_url_expiration" = None ->
  signed_url_expiration_of cfg request_data
  = Returned (Config.SIGNED_URL_EXPIRATION cfg) /\
  forall n text,
    Config.str_of_int n = Some text ->
    Config.str_of_int (Config.SIGNED_URL_EXPIRATION cfg) <> None ->
    signed_url_expiration_of cfg
      (<["signed_url_expiration" := VStr text]> request_data)
    = Returned n.
Proof.
  intros Habsent. unfold signed_url_expiration_of. split.
  - destruct (Config.str_of_int (Config.SIGNED_URL_EXPIRATION cfg))
      as [fallback|] eqn:Hfallback; [|reflexivity].
    rewrite Habsent. change (default ?d None) with d. cbn [py_int].
    rewrite (int_of_str_str_of_int _ _ Hfallback). reflexivity.
  - intros n text Htext Hfallback.
    destruct (Config.str_of_int (Config.SIGNED_URL_EXPIRATION cfg))
      as [fallback|]; [|congruence].
    rewrite lookup_insert_eq.
    change (default _ (Some ?v)) with v. cbn [py_int].
    rewrite (int_of_str_str_of_int _ _ Htext). reflexivity.
Qed.

Lemma expiration_when_absent_witness :
  signed_url_expiration_of Scenario.cfg (∅ : gmap string pyval)
  = Returned 3600.
Proof.
  exact (proj1 (expiration_when_absent Scenario.cfg ∅ (lookup_empty _))).
Defined.

(** ** The handler *)

Lemma rev_app_app (a b c : string) :
  String.rev_app (a +:+ b) c = String.rev_app b (String.rev_app a c).
Proof.
  revert c. induction a as [|x a IH]; intros c; [reflexivity|].
  change (String x a +:+ b) with (String x (a +:+ b)).
  cbn [String.rev_app]. apply IH.
Qed.

(** X23.  The folder path, when it is text: an empty path stays empty;
    a path that ends with a slash is left as it is; any other path has
    one slash added.  So after main.py 333-334 the path is empty or ends
    with a slash, and doing the step again changes nothing. *)
Theorem with_trailing_slash_text (s : string) :
  exists folder,
    with_trailing_slash (VStr s) = Returned (VStr folder) /\
    (s = EmptyString -> folder = EmptyString) /\
    ((folder = s /\ (s = EmptyString \/ endswith s "/" = true)) \/
     (folder = s +:+ "/" /\ s <> EmptyString /\ endswith s "/" = false)) /\
    (folder = EmptyString \/ endswith folder "/" = true) /\
    with_trailing_slash (VStr folder) = Returned (VStr folder).
Proof.
  assert (Hslash : endswith (s +:+ "/") "/" = true).
  { unfold endswith, String.rev. rewrite rev_app_app.
    cbn [String.rev_app]. rewrite prefix_cons.
    destruct (ascii_dec "/" "/"); [|congruence].
    destruct (String.rev_app s ""); reflexivity. }
  unfold with_trailing_slash. cbn [pyval_truthy].
  destruct (String.eqb_spec s "") as [-> | Hne]; cbn [negb].
  - exists EmptyString. repeat split; auto.
  - destruct (endswith s "/") eqn:Hends; cbn [negb].
    + exists s. rewrite Hends.
      destruct (String.eqb_spec s ""); [congruence|]. cbn.
      repeat split; auto.
    + exists (s +:+ "/"). rewrite Hslash.
      destruct (String.eqb_spec (s +:+ "/") "") as [Heq|_].
      { destruct s; discriminate. }
      cbn. repeat split; auto. intros ->. congruence.
Qed.

(** The conversion stage returns, with status 200 or 500. *)
Lemma convert_status (X : External) (cfg : Config.t)
      (run_id input_path output_path prompt first_line : string)
      (project_id : option string)
      (gcs_bucket gcs_folder_path original_filename : string)
      (signed_url_expiration : Z) (w : World) :
  exists response w',
    convert X cfg run_id input_path output_path prompt first_line project_id
            gcs_bucket gcs_folder_path original_filename
            signed_url_expiration w
    = (Returned response, w') /\
    (status response = 200 \/ status response = 500).
Proof.
  unfold convert, try_except, bind.
  destruct (generate_and_execute X cfg input_path output_path prompt
              first_line None project_id w) as [[result|e] w1].
  - destruct (assemble_response_run X output_path gcs_bucket gcs_folder_path
                original_filename signed_url_expiration result w1)
      as (response & w2 & -> & _).
    destruct (cleanup_run X input_path output_path response w2)
      as (w3 & -> & _).
    eexists. eexists. split; [reflexivity|]. left. reflexivity.
  - eexists. eexists. split; [reflexivity|]. right. reflexivity.
Qed.

(** What comes back from the reception of the file early is a 400. *)
Lemma receive_file_early (P : Platform) (X : External) (request : Request)
      (request_data : gmap string pyval) (w w' : World) (early : Response) :
  receive_file P X request request_data w = (Returned (inl early), w') ->
  status early = 400 /\ w' = w.
Proof.
  assert (Hbase : receive_base64 P X request_data w
                  = (Returned (inl early), w') ->
                  status early = 400 /\ w' = w).
  { unfold receive_base64.
    destruct (request_data !! "file_base64") as [content|];
      [|intros [= <- <-]; auto].
    destruct (request_data !! "file_name") as [name|];
      [|intros [= <- <-]; auto].
    unfold bind, lift, try_except, named_temporary_file, write_file. run.
    destruct (py_secure_filename P name); cbn; [|discriminate].
    destruct (b64decode P content); cbn; [discriminate|].
    intros [= <- <-]. auto. }
  unfold receive_file.
  destruct (files request !! "file") as [file|]; [|exact Hbase].
  destruct (negb (String.eqb (upload_filename file) "")); [|exact Hbase].
  unfold bind, named_temporary_file, write_file. run. discriminate.
Qed.

(** X24.  Anything but a POST is answered 400, "Only POST method is
    supported", before the request is looked at: no file is written and
    the model is not called. *)
Theorem jsonl_to_csv_only_post (P : Platform) (X : External)
        (cfg : Config.t) (request : Request) (w : World) :
  method request <> "POST" ->
  let run := jsonl_to_csv P X cfg request w in
  fst run = Returned (mkResponse [("error",
                                   VStr "Only POST method is supported")] 400)
  /\ fs (snd run) = fs w
  /\ model_calls (snd run) = model_calls w.
Proof.
  intros Hmethod. cbv zeta. unfold jsonl_to_csv, bind, tick.
  destruct (String.eqb_spec (method request) "POST"); [congruence|].
  cbn. auto.
Qed.

Lemma jsonl_to_csv_only_post_witness :
  fst (jsonl_to_csv Cases.platform Scenario.working Scenario.cfg
         (mkRequest "GET" (FormData ∅) ∅) Cases.fresh)
  = Returned (mkResponse [("error", VStr "Only POST method is supported")]
                         400).
Proof.
  apply (jsonl_to_csv_only_post Cases.platform Scenario.working Scenario.cfg
           (mkRequest "GET" (FormData ∅) ∅) Cases.fresh).
  discriminate.
Defined.

(** X25.  The handler never raises: every request, well formed or not,
    is answered, and the status is 200, 400 or 500. *)
Theorem jsonl_to_csv_always_answers (P : Platform) (X : External)
        (cfg : Config.t) (request : Request) (w : World) :
  exists response w',
    jsonl_to_csv P X cfg request w = (Returned response, w') /\
    (status response = 200 \/ status response = 400 \/
     status response = 500).
Proof.
  unfold jsonl_to_csv, bind, tick.
  destruct (negb (String.eqb (method request) "POST")).
  { eexists. eexists. split; [reflexivity|]. right. left. reflexivity. }
  unfold try_except.
  match goal with
  | |- context [handle_post P X cfg ?r request ?w0] =>
      destruct (handle_post P X cfg r request w0) as [[response|e] w1]
        eqn:Hpost
  end.
  2: { eexists. eexists. split; [reflexivity|]. right. right. reflexivity. }
  exists response, w1. split; [reflexivity|].
  revert Hpost. unfold handle_post, bind, lift.
  destruct (request_data_of request) as [request_data|]; cbn; [|discriminate].
  destruct (py_len _); cbn; [|discriminate].
  destruct (signed_url_expiration_of cfg request_data); cbn; [|discriminate].
  destruct (with_trailing_slash _) as [folder|]; cbn; [|discriminate].
  match goal with
  | |- context [receive_file P X request request_data ?w0] =>
      destruct (receive_file P X request request_data w0)
        as [[[early | [filename input_path]] | e] w2] eqn:Hreceive
  end; [| |discriminate].
  - intros [= <- <-].
    destruct (receive_file_early _ _ _ _ _ _ _ Hreceive) as [-> _]. auto.
  - unfold read_text, get_fs, bind. cbn.
    destruct (fs w2 !! input_path) as [text|]; cbn; [|discriminate].
    destruct (decode_error P text); cbn; [discriminate|].
    destruct (String.eqb (first_line_of text) "").
    + intros [= <- <-]. auto.
    + match goal with
      | |- convert X cfg ?a ?b ?c ?d ?e ?f ?g ?h ?i ?j ?w0 = _ -> _ =>
          destruct (convert_status X cfg a b c d e f g h i j w0)
            as (r & w3 & -> & [Hs | Hs])
      end; intros [= <- <-]; auto.
Qed.

(** For a form, whose values are all text, the reading of the options
    cannot fail. *)
Lemma expiration_of_form (cfg : Config.t) (fields : gmap string string) :
  exists n, signed_url_expiration_of cfg (VStr <$> fields) = Returned n.
Proof.
  unfold signed_url_expiration_of.
  destruct (Config.str_of_int (Config.SIGNED_URL_EXPIRATION cfg))
    as [fallback|] eqn:Hfallback; [|eauto].
  rewrite lookup_fmap.
  destruct (fields !! "signed_url_expiration") as [s|]; cbn.
  - destruct (Config.int_of_str s); eauto.
  - rewrite (int_of_str_str_of_int _ _ Hfallback). eauto.
Qed.

Lemma with_trailing_slash_returns (s : string) :
  exists folder, with_trailing_slash (VStr s) = Returned (VStr folder).
Proof.
  unfold with_trailing_slash.
  destruct (pyval_truthy (Some (VStr s))); [|eauto].
  destruct (negb (endswith s "/")); eauto.
Qed.

(** The handler on a POST with a form, after the options: what it does
    with what the reception of the file gives. *)
Lemma handle_post_form (P : Platform) (X : External) (cfg : Config.t)
      (run_id : string) (request : Request) (fields : gmap string string)
      (w : World) :
  data request = FormData fields ->
  exists (expiration : Z) (folder : string),
    handle_post P X cfg run_id request w
    = match receive_file P X request (VStr <$> fields) w with
      | (Raised e, w1) => (Raised e, w1)
      | (Returned (inl early), w1) => (Returned early, w1)
      | (Returned (inr (filename, input_path)), w1) =>
          match fs w1 !! input_path with
          | None => (Raised (no_such_file input_path), w1)
          | Some text =>
              if decode_error P text is Some e then (Raised e, w1)
              else if String.eqb (first_line_of text) ""
              then (Returned (bad_request "Input file is empty"), w1)
              else
                convert X cfg run_id input_path
                  (dirname_join P input_path
                     (splitext_root P filename +:+ ".csv"))
                  (match fields !! "additional_instruction" with
                   | Some (String _ _ as instruction) =>
                       get_default_prompt +:+ Str.nl +:+ "14. "
                       +:+ instruction
                   | _ => get_default_prompt
                   end)
                  (first_line_of text)
                  (Some (default (Config.GOOGLE_CLOUD_PROJECT_ID cfg)
                                 (fields !! "project_id")))
                  (default (Config.GCS_BUCKET_NAME cfg)
                           (fields !! "gcs_bucket"))
                  folder (splitext_root P filename) expiration w1
          end
      end.
Proof.
  intros Hdata.
  destruct (expiration_of_form cfg fields) as [expiration Hexp].
  destruct (with_trailing_slash_returns
              (default (run_id +:+ "/" +:+ Config.GCS_DEFAULT_FOLDER cfg
                        +:+ "/") (fields !! "gcs_folder_path")))
    as [folder Hfolder].
  exists expiration, folder.
  unfold handle_post, bind, lift, request_data_of. rewrite Hdata. cbn.
  rewrite !lookup_fmap, Hexp.
  assert (Hlen : exists n,
             py_len (default (VStr "")
                       (VStr <$> fields !! "additional_instruction"))
             = Returned n).
  { destruct (fields !! "additional_instruction"); cbn; eauto. }
  destruct Hlen as [n ->]. cbn.
  replace (with_trailing_slash _) with (@Returned pyval (VStr folder)).
  2: { rewrite <- Hfolder. destruct (fields !! "gcs_folder_path"); reflexivity. }
  cbn.
  destruct (receive_file P X request (VStr <$> fields) w)
    as [[[early | [filename input_path]] | e] w1]; cbn; try reflexivity.
  unfold read_text, get_fs, bind. cbn.
  destruct (fs w1 !! input_path) as [text|]; cbn; [|reflexivity].
  destruct (decode_error P text); cbn; [reflexivity|].
  destruct (String.eqb (first_line_of text) ""); [reflexivity|].
  destruct (fields !! "project_id"), (fields !! "gcs_bucket"),
    (fields !! "additional_instruction") as [[|c instruction]|];
    reflexivity.
Qed.

(** X26.  A POST with a form that brings neither an upload named "file"
    (or one with an empty file name) nor a field "file_base64" is
    answered 400, "No file provided...": nothing is written and the model
    is not called. *)
Theorem jsonl_to_csv_needs_a_file (P : Platform) (X : External)
        (cfg : Config.t) (request : Request) (fields : gmap string string)
        (w : World) :
  method request = "POST" ->
  data request = FormData fields ->
  match files request !! "file" with
  | Some file => upload_filename file = EmptyString
  | None => True
  end ->
  fields !! "file_base64" = None ->
  let run := jsonl_to_csv P X cfg request w in
  fst run
  = Returned (bad_request
      "No file provided. Please provide either a file upload or base64 encoded file content with filename.")
  /\ fs (snd run) = fs w
  /\ model_calls (snd run) = model_calls w.
Proof.
  intros Hmethod Hdata Hfile Hbase. cbv zeta.
  unfold jsonl_to_csv, bind, tick. rewrite Hmethod.
  change (negb (String.eqb "POST" "POST")) with false. cbv beta iota.
  unfold try_except.
  match goal with
  | |- context [handle_post P X cfg ?r request ?w0] =>
      destruct (handle_post_form P X cfg r request fields w0 Hdata)
        as (expiration & folder & ->)
  end.
  unfold receive_file, receive_base64. rewrite lookup_fmap, Hbase.
  destruct (files request !! "file") as [file|];
    [rewrite Hfile|]; cbn; auto.
Qed.

Lemma jsonl_to_csv_needs_a_file_witness :
  fst (jsonl_to_csv Cases.platform Scenario.working Scenario.cfg
         (Cases.post {[ "project_id" := "p" ]} None) Cases.fresh)
  = Returned (bad_request
      "No file provided. Please provide either a file upload or base64 encoded file content with filename.").
Proof.
  apply (jsonl_to_csv_needs_a_file Cases.platform Scenario.working
           Scenario.cfg (Cases.post {[ "project_id" := "p" ]} None)
           {[ "project_id" := "p" ]} Cases.fresh);
    (reflexivity || exact I || (vm_compute; reflexivity)).
Defined.




(** ** The handler on an upload *)

(** An upload with a file name is saved to a fresh temporary file. *)
Lemma receive_file_upload (P : Platform) (X : External) (request : Request)
      (request_data : gmap string pyval) (file : Upload) (w : World) :
  files request !! "file" = Some file ->
  upload_filename file <> EmptyString ->
  receive_file P X request request_data w
  = (Returned (inr (secure_filename P (upload_filename file),
                    tempfile_name X (ticks w) ".jsonl")),
     mkWorld (<[tempfile_name X (ticks w) ".jsonl" := upload_content file]>
                (fs w))
             (S (ticks w)) (model_calls w) (prompts w) (scripts w)
             (slept w)).
Proof.
  intros Hfile Hname. unfold receive_file. rewrite Hfile.
  destruct (String.eqb (upload_filename file) "") eqn:Hempty.
  { apply String.eqb_eq in Hempty. contradiction. }
  cbn [negb]. unfold named_temporary_file, write_file. run. reflexivity.
Qed.

(** A POST with a form and an upload: the file is saved, its first line
    is read, and the rest is the conversion stage. *)
Lemma jsonl_to_csv_upload (P : Platform) (X : External) (cfg : Config.t)
      (request : Request) (fields : gmap string string) (file : Upload)
      (w : World) :
  method request = "POST" ->
  data request = FormData fields ->
  files request !! "file" = Some file ->
  upload_filename file <> EmptyString ->
  exists (expiration : Z) (folder : string),
    jsonl_to_csv P X cfg request w
    = let input_path := tempfile_name X (S (ticks w)) ".jsonl" in
      let original_filename :=
        splitext_root P (secure_filename P (upload_filename file)) in
      let output_path :=
        dirname_join P input_path (original_filename +:+ ".csv") in
      let project_id :=
        Some (default (Config.GOOGLE_CLOUD_PROJECT_ID cfg)
                      (fields !! "project_id")) in
      let gcs_bucket :=
        default (Config.GCS_BUCKET_NAME cfg) (fields !! "gcs_bucket") in
      let w1 := mkWorld (<[input_path := upload_content file]> (fs w))
                        (S (S (ticks w))) (model_calls w) (prompts w)
                        (scripts w) (slept w) in
      if decode_error P (upload_content file) is Some e
      then (Returned (unexpected_error X (new_run_id P (ticks w)) e), w1)
      else if String.eqb (first_line_of (upload_content file)) ""
      then (Returned (bad_request "Input file is empty"), w1)
      else
        convert X cfg (new_run_id P (ticks w)) input_path output_path
          (match fields !! "additional_instruction" with
           | Some (String _ _ as instruction) =>
               get_default_prompt +:+ Str.nl +:+ "14. " +:+ instruction
           | _ => get_default_prompt
           end)
          (first_line_of (upload_content file))
          project_id gcs_bucket folder original_filename expiration w1.
Proof.
  intros Hmethod Hdata Hfile Hname.
  unfold jsonl_to_csv, bind, tick. rewrite Hmethod.
  change (negb (String.eqb "POST" "POST")) with false. cbv beta iota.
  unfold try_except.
  match goal with
  | |- context [handle_post P X cfg ?r request ?w0] =>
      destruct (handle_post_form P X cfg r request fields w0 Hdata)
        as (expiration & folder & ->)
  end.
  rewrite (receive_file_upload P X request _ file _ Hfile Hname).
  cbn [fs ticks model_calls prompts scripts slept].
  rewrite lookup_insert_eq.
  exists expiration, folder. cbv zeta.
  destruct (decode_error P (upload_content file)); [reflexivity|].
  destruct (String.eqb (first_line_of (upload_content file)) "");
    [reflexivity|].
  match goal with
  | |- context [convert X cfg ?r ?i ?o ?p ?l ?pr ?b ?f ?n ?e ?w0] =>
      destruct (convert_status X cfg r i o p l pr b f n e w0)
        as (response & w' & Hconvert & _)
  end.
  rewrite Hconvert. reflexivity.
Qed.



(** Assembling the response and the cleanup call no model. *)
Lemma assemble_response_prompts (X : External)
      (output_path gcs_bucket gcs_folder_path original_filename : string)
      (signed_url_expiration : Z) (result : LoopResult) (w : World) :
  prompts (snd (assemble_response X output_path gcs_bucket gcs_folder_path
                  original_filename signed_url_expiration result w))
  = prompts w.
Proof.
  unfold assemble_response.
  destruct (success result && validation_success result
            && output_exists result).
  - unfold bind at 1.
    destruct (validate_csv_run X output_path w) as [[v m] Hv]. rewrite Hv.
    unfold pd_read_csv, upload_to_gcs, generate_signed_url. run.
    destruct (fs w !! output_path) as [text|]; cbn; [|reflexivity].
    destruct (read_csv X text) as [df|e]; cbn; [|reflexivity].
    destruct (upload_error X (ticks w) output_path gcs_bucket
                (gcs_folder_path +:+ original_filename +:+ ".csv"));
      cbn; [reflexivity|].
    destruct (signed_url X (S (ticks w)) gcs_bucket
                (gcs_folder_path +:+ original_filename +:+ ".csv")
                signed_url_expiration); reflexivity.
  - destruct (validation_success result); cbn.
    + run. reflexivity.
    + destruct (output_exists result); cbn.
      * unfold bind.
        destruct (validate_csv_run X output_path w) as [[v m] Hv].
        rewrite Hv. reflexivity.
      * run. reflexivity.
Qed.

Lemma cleanup_prompts (X : External) (input_path output_path : string)
      (response : list (string * pyval)) (w : World) :
  prompts (snd (cleanup X input_path output_path response w)) = prompts w.
Proof.
  destruct w as [f t c p s z].
  unfold cleanup, os_path_exists, os_unlink. run.
  destruct (f !! input_path) as [text|] eqn:Hin; known.
  - destruct (unlink_error X t input_path) as [e|] eqn:Hun; known;
      [reflexivity|].
    destruct (delete input_path f !! output_path) as [out|] eqn:Hout; known;
      [|reflexivity].
    destruct (pyval_truthy (dict_get "gcs_path" response)); known;
      [|reflexivity].
    destruct (unlink_error X (S t) output_path) as [e|] eqn:Hun'; known;
      reflexivity.
  - destruct (f !! output_path) as [out|] eqn:Hout; known; [|reflexivity].
    destruct (pyval_truthy (dict_get "gcs_path" response)); known;
      [|reflexivity].
    destruct (unlink_error X t output_path) as [e|] eqn:Hun'; known;
      reflexivity.
Qed.

(** The only prompts of the conversion stage are those of its loop. *)
Lemma convert_prompts (X : External) (cfg : Config.t)
      (run_id input_path output_path prompt first_line : string)
      (project_id : option string)
      (gcs_bucket gcs_folder_path original_filename : string)
      (signed_url_expiration : Z) (w : World) :
  exists posted,
    prompts (snd (convert X cfg run_id input_path output_path prompt
                    first_line project_id gcs_bucket gcs_folder_path
                    original_filename signed_url_expiration w))
    = repeat (full_prompt prompt first_line None) posted ++ prompts w.
Proof.
  destruct (generate_and_execute_prompts X cfg input_path output_path prompt
              first_line None project_id w) as [posted Hposted].
  exists posted. unfold convert, try_except, bind.
  destruct (generate_and_execute X cfg input_path output_path prompt
              first_line None project_id w) as [[result|e] w1];
    cbn [snd] in Hposted; [|exact Hposted].
  pose proof (assemble_response_prompts X output_path gcs_bucket
                gcs_folder_path original_filename signed_url_expiration
                result w1) as Hassemble.
  destruct (assemble_response_run X output_path gcs_bucket gcs_folder_path
              original_filename signed_url_expiration result w1)
    as (response & w2 & Hrun & _).
  rewrite Hrun in Hassemble |- *. cbn [snd] in Hassemble.
  pose proof (cleanup_prompts X input_path output_path response w2)
    as Hcleanup.
  destruct (cleanup_run X input_path output_path response w2)
    as (w3 & Hrun' & _).
  rewrite Hrun' in Hcleanup |- *. cbn [snd] in Hcleanup. run.
  rewrite Hcleanup, Hassemble. exact Hposted.
Qed.

(** X29.  What an upload makes the model read.  Every prompt posted
    while the request is handled is the same text: the sample is the
    first line of the upload without the blanks around it, the
    instructions are the default prompt, followed by the additional
    instruction as item 14 when the form gives one that is not empty,
    and no feedback on an earlier attempt is ever part of it. *)
Theorem jsonl_to_csv_prompts
        (P : Platform) (X : External) (cfg : Config.t) (request : Request)
        (fields : gmap string string) (file : Upload) (w : World) :
  method request = "POST" ->
  data request = FormData fields ->
  files request !! "file" = Some file ->
  upload_filename file <> EmptyString ->
  let instructions :=
    match fields !! "additional_instruction" with
    | Some instruction =>
        if String.eqb instruction ""
        then get_default_prompt
        else get_default_prompt +:+ Str.nl +:+ "14. " +:+ instruction
    | None => get_default_prompt
    end in
  exists posted,
    prompts (snd (jsonl_to_csv P X cfg request w))
    = repeat ("i am having a jsonl file its sample line is " +:+ Str.nl
              +:+ Str.nl +:+ first_line_of (upload_content file) +:+ Str.nl
              +:+ Str.nl +:+ instructions) posted
      ++ prompts w.
Proof.
  intros Hmethod Hdata Hfile Hname. cbv zeta.
  destruct (jsonl_to_csv_upload P X cfg request fields file w Hmethod Hdata
              Hfile Hname) as (expiration & folder & ->).
  cbv zeta.
  destruct (decode_error P (upload_content file)).
  { exists 0%nat. reflexivity. }
  destruct (String.eqb (first_line_of (upload_content file)) "").
  { exists 0%nat. reflexivity. }
  match goal with
  | |- context [convert X cfg ?r ?i ?o ?p ?l ?pr ?b ?f ?n ?e ?w0] =>
      destruct (convert_prompts X cfg r i o p l pr b f n e w0)
        as [posted Hposted]
  end.
  exists posted. rewrite Hposted. cbn [prompts]. unfold full_prompt.
  destruct (fields !! "additional_instruction") as [[|c instruction]|];
    reflexivity.
Qed.

Lemma jsonl_to_csv_prompts_witness :
  exists posted,
    prompts (snd (jsonl_to_csv Cases.platform Scenario.working Scenario.cfg
                    (Cases.post {[ "additional_instruction" := "Keep ids" ]}
                                (Some Scenario.first_line))
                    Cases.fresh))
    = repeat ("i am having a jsonl file its sample line is " +:+ Str.nl
              +:+ Str.nl +:+ first_line_of Scenario.first_line +:+ Str.nl
              +:+ Str.nl +:+ get_default_prompt +:+ Str.nl +:+ "14. "
              +:+ "Keep ids") posted
      ++ [].
Proof.
  assert (Hfile : files (Cases.post
                           {[ "additional_instruction" := "Keep ids" ]}
                           (Some Scenario.first_line)) !! "file"
                  = Some (mkUpload "records.jsonl" Scenario.first_line))
    by (vm_compute; reflexivity).
  assert (Hname : upload_filename
                    (mkUpload "records.jsonl" Scenario.first_line)
                  <> EmptyString) by discriminate.
  generalize (jsonl_to_csv_prompts Cases.platform Scenario.working
                Scenario.cfg
                (Cases.post {[ "additional_instruction" := "Keep ids" ]}
                            (Some Scenario.first_line))
                {[ "additional_instruction" := "Keep ids" ]}
                _ Cases.fresh eq_refl eq_refl Hfile Hname).
  vm_compute. intros H. exact H.
Defined.





